(** * Incremental SSE consumer of the ActualPrice demo pages

    A shallow embedding of the stream-consumption loops found in

    - [frontend/app/demo/market-trends/page.tsx]   ([runAnalysis])
    - [frontend/app/demo/launch-detector/page.tsx] ([runAnalysis])
    - the crisis-detector page                     ([runAnalysis])
    - [frontend/app/demo/visual-pricing/page.tsx]  ([handleAnalyze])

    together with the platform operations those loops call
    ([String.prototype.split], [startsWith], [slice], [Array.prototype.pop],
    [TextDecoder.decode] with [{stream: true}], [JSON.parse], property
    access and truthiness).  JavaScript strings are sequences of UTF-16
    code units, bytes are integers, both carried as [Z]. *)

From Stdlib Require Import List ZArith Lia Bool String Ascii.
Import ListNotations.
Local Open Scope Z_scope.

(* ===================================================================== *)
(** ** JavaScript strings *)
(* ===================================================================== *)

Module JsString.

(** A JavaScript string: its UTF-16 code units. *)
Definition jsstring := list Z.

(** Code units of an ASCII literal of the source text. *)
Definition str (s : string) : jsstring :=
  map (fun a => Z.of_nat (nat_of_ascii a)) (list_ascii_of_string s).

Fixpoint eqb (s t : jsstring) : bool :=
  match s, t with
  | [], [] => true
  | c :: s', d :: t' => (c =? d) && eqb s' t'
  | _, _ => false
  end.

(** [s.startsWith(prefix)] *)
Fixpoint startsWith (s prefix : jsstring) : bool :=
  match prefix with
  | [] => true
  | p :: prefix' =>
      match s with
      | [] => false
      | c :: s' => (c =? p) && startsWith s' prefix'
      end
  end.

(** [s.slice(n)] for a non-negative literal [n]. *)
Definition slice (s : jsstring) (n : nat) : jsstring := skipn n s.

(** [s.includes(t)] *)
Fixpoint includes (s t : jsstring) : bool :=
  startsWith s t ||
  match s with
  | [] => false
  | _ :: s' => includes s' t
  end.

Definition cons_first (c : Z) (l : list jsstring) : list jsstring :=
  match l with
  | r :: rs => (c :: r) :: rs
  | [] => [[c]]
  end.

(** Left-to-right scan of [s.split(sep)] for a non-empty [sep]: [skip]
    counts the code units of a matched separator still to be passed. *)
Fixpoint split_from (sep : jsstring) (skip : nat) (s : jsstring)
  : list jsstring :=
  match s with
  | [] => [[]]
  | c :: rest =>
      match skip with
      | S k => split_from sep k rest
      | O =>
          if startsWith s sep
          then [] :: split_from sep (Nat.pred (List.length sep)) rest
          else cons_first c (split_from sep 0 rest)
      end
  end.

(** [s.split(sep)] (no limit).  An empty separator splits into code
    units. *)
Definition split (s sep : jsstring) : list jsstring :=
  match sep with
  | [] => map (fun c => [c]) s
  | _ :: _ => split_from sep 0 s
  end.

(** [parts.join(sep)] *)
Fixpoint join (parts : list jsstring) (sep : jsstring) : jsstring :=
  match parts with
  | [] => []
  | [p] => p
  | p :: ps => p ++ sep ++ join ps sep
  end.

(** [a.pop()]: the removed last element ([None] for [undefined] on an
    empty array) and the array as it is left. *)
Definition pop {A : Type} (a : list A) : option A * list A :=
  match a with
  | [] => (None, [])
  | x :: a' => (Some (last a' x), removelast a)
  end.

(** [x || ""] for [x] a string or [undefined]. *)
Definition or_empty (x : option jsstring) : jsstring :=
  match x with
  | Some (c :: s) => c :: s
  | Some [] => []
  | None => []
  end.

End JsString.
Import JsString.

(** The record delimiter ["\n\n"] and the event-data marker ["data: "]. *)
Definition delimiter : jsstring := [10; 10].
Definition data_prefix : jsstring := str "data: ".

(* ===================================================================== *)
(** ** [TextDecoder] (UTF-8, replacement error mode, BOM not ignored) *)
(* ===================================================================== *)

Module TextDecoder.

(** State of the UTF-8 decoder of the Encoding Standard. *)
Record utf8 := mk_utf8 {
  code_point : Z;
  bytes_seen : Z;
  bytes_needed : Z;
  lower_boundary : Z;
  upper_boundary : Z
}.

Definition utf8_init : utf8 := mk_utf8 0 0 0 0x80 0xBF.

(** The decoder object: [new TextDecoder()] followed only by
    [decode(value, {stream: true})] calls, so the pending bytes and the
    BOM flag survive from one call to the next. *)
Record t := mk {
  decoder : utf8;
  BOM_seen : bool
}.

Definition create : t := mk utf8_init false.

(** The handler on a byte when no sequence is in progress. *)
Definition lead (b : Z) : utf8 * list Z :=
  if (0 <=? b) && (b <=? 0x7F) then (utf8_init, [b])
  else if (0xC2 <=? b) && (b <=? 0xDF)
  then (mk_utf8 (Z.land b 0x1F) 0 1 0x80 0xBF, [])
  else if (0xE0 <=? b) && (b <=? 0xEF)
  then (mk_utf8 (Z.land b 0xF) 0 2
          (if b =? 0xE0 then 0xA0 else 0x80)
          (if b =? 0xED then 0x9F else 0xBF), [])
  else if (0xF0 <=? b) && (b <=? 0xF4)
  then (mk_utf8 (Z.land b 0x7) 0 3
          (if b =? 0xF0 then 0x90 else 0x80)
          (if b =? 0xF4 then 0x8F else 0xBF), [])
  else (utf8_init, [0xFFFD]).

(** The handler on one byte: the next state and the scalar values
    emitted (U+FFFD for an error; an out-of-range continuation byte is
    restored to the queue and handled again from the initial state). *)
Definition handler (d : utf8) (b : Z) : utf8 * list Z :=
  if bytes_needed d =? 0 then lead b
  else if (b <? lower_boundary d) || (upper_boundary d <? b)
  then let (d', out) := lead b in (d', 0xFFFD :: out)
  else
    let cp := Z.lor (Z.shiftl (code_point d) 6) (Z.land b 0x3F) in
    let seen := bytes_seen d + 1 in
    if seen =? bytes_needed d
    then (utf8_init, [cp])
    else (mk_utf8 cp seen (bytes_needed d) 0x80 0xBF, []).

Fixpoint run (d : utf8) (bytes : list Z) : utf8 * list Z :=
  match bytes with
  | [] => (d, [])
  | b :: bytes' =>
      let (d1, out1) := handler d b in
      let (d2, out2) := run d1 bytes' in
      (d2, out1 ++ out2)
  end.

(** UTF-16 code units of a scalar value. *)
Definition code_units (cp : Z) : jsstring :=
  if cp <? 0x10000 then [cp]
  else [0xD800 + Z.shiftr (cp - 0x10000) 10;
        0xDC00 + Z.land (cp - 0x10000) 0x3FF].

(** Serialising the output queue: the first scalar value ever emitted
    is dropped when it is U+FEFF. *)
Fixpoint serialize (bom_seen : bool) (items : list Z) : bool * jsstring :=
  match items with
  | [] => (bom_seen, [])
  | item :: items' =>
      if bom_seen
      then let (f, out) := serialize true items' in (f, code_units item ++ out)
      else if item =? 0xFEFF then serialize true items'
      else let (f, out) := serialize true items' in (f, code_units item ++ out)
  end.

(** [decoder.decode(value, {stream: true})]: end-of-queue is not
    processed, an incomplete trailing sequence stays pending. *)
Definition decode (td : t) (value : list Z) : t * jsstring :=
  let (d, items) := run (decoder td) value in
  let (f, out) := serialize (BOM_seen td) items in
  (mk d f, out).

End TextDecoder.

(* ===================================================================== *)
(** ** JavaScript values as [JSON.parse] builds them *)
(* ===================================================================== *)

Module JsValue.

(** A JSON number literal, kept exactly: [mantissa * 10 ^ exponent]. *)
Record number := mk_number {
  mantissa : Z;
  exponent : Z
}.

#[warnings="-register-all"]
Inductive t :=
| JUndefined
| JNull
| JBool (b : bool)
| JNumber (n : number)
| JString (s : jsstring)
| JArray (elements : list t)
| JObject (properties : list (jsstring * t)).

(** The literal converts to the Number zero exactly when its magnitude
    is at most half the least subnormal double, [2 ^ -1075] (the tie
    rounds to even). *)
Definition is_zero (n : number) : bool :=
  if 0 <=? exponent n then mantissa n =? 0
  else Z.abs (mantissa n) * 2 ^ 1075 <=? 10 ^ (- exponent n).

(** [ToBoolean], the test made by [if (v)], [v && w] and [v || w]. *)
Definition truthy (v : t) : bool :=
  match v with
  | JUndefined | JNull => false
  | JBool b => b
  | JNumber n => negb (is_zero n)
  | JString s => match s with [] => false | _ :: _ => true end
  | JArray _ | JObject _ => true
  end.

(** Own property of a parsed object; of duplicate keys the last one
    written stands. *)
Fixpoint lookup (key : jsstring) (properties : list (jsstring * t))
  : option t :=
  match properties with
  | [] => None
  | (k, v) :: rest =>
      match lookup key rest with
      | Some w => Some w
      | None => if JsString.eqb k key then Some v else None
      end
  end.

(** [v.key] for the property names the pages read ([done], [error],
    [agent], [content], [thought_type], [is_final], [metadata] and the
    keys below [metadata]); none of them is an index, [length] or a
    member of a built-in prototype, so only parsed objects have them.
    [None] is the [TypeError] of reading a property of [null] or
    [undefined]. *)
Definition Get (v : t) (key : jsstring) : option t :=
  match v with
  | JUndefined | JNull => None
  | JObject properties =>
      Some match lookup key properties with
           | Some w => w
           | None => JUndefined
           end
  | JBool _ | JNumber _ | JString _ | JArray _ => Some JUndefined
  end.

(** [v?.key] *)
Definition OptGet (v : t) (key : jsstring) : t :=
  match Get v key with
  | Some w => w
  | None => JUndefined
  end.

(** [v || undefined] *)
Definition or_undefined (v : t) : t :=
  if truthy v then v else JUndefined.

(** [v === "literal"] *)
Definition strict_eq_string (v : t) (literal : jsstring) : bool :=
  match v with
  | JString s => JsString.eqb s literal
  | _ => false
  end.

(** Whether converting [v] to a primitive throws a [TypeError]: a
    parsed object with an own [toString] property hides the callable
    one of [Object.prototype], and an array converts its elements. *)
Fixpoint conversion_throws (v : t) : bool :=
  match v with
  | JObject properties =>
      match lookup (str "toString") properties with
      | Some _ => true
      | None => false
      end
  | JArray elements => existsb conversion_throws elements
  | _ => false
  end.

End JsValue.
Import JsValue.
Abbreviation JsValue := JsValue.t.

(* ===================================================================== *)
(** ** [JSON.parse] *)
(* ===================================================================== *)

Module JSON.

Definition is_ws (c : Z) : bool :=
  (c =? 32) || (c =? 9) || (c =? 10) || (c =? 13).

Fixpoint skip_ws (s : jsstring) : jsstring :=
  match s with
  | c :: r => if is_ws c then skip_ws r else s
  | [] => []
  end.

Definition is_digit (c : Z) : bool := (48 <=? c) && (c <=? 57).

Fixpoint span_digits (s : jsstring) : list Z * jsstring :=
  match s with
  | c :: r =>
      if is_digit c
      then let (ds, r') := span_digits r in (c :: ds, r')
      else ([], s)
  | [] => ([], [])
  end.

Definition digits_value (ds : list Z) : Z :=
  fold_left (fun acc d => acc * 10 + (d - 48)) ds 0.

Definition hex_value (c : Z) : option Z :=
  if is_digit c then Some (c - 48)
  else if (97 <=? c) && (c <=? 102) then Some (c - 87)
  else if (65 <=? c) && (c <=? 70) then Some (c - 55)
  else None.

Definition hex4 (a b c d : Z) : option Z :=
  match hex_value a, hex_value b, hex_value c, hex_value d with
  | Some x, Some y, Some z, Some w => Some (((x * 16 + y) * 16 + z) * 16 + w)
  | _, _, _, _ => None
  end.

(** The single-character escapes: quote, backslash, slash, b, f, n, r
    and t. *)
Definition escape (e : Z) : option Z :=
  if e =? 34 then Some 34
  else if e =? 92 then Some 92
  else if e =? 47 then Some 47
  else if e =? 98 then Some 8
  else if e =? 102 then Some 12
  else if e =? 110 then Some 10
  else if e =? 114 then Some 13
  else if e =? 116 then Some 9
  else None.

Definition push (c : Z) (r : option (jsstring * jsstring))
  : option (jsstring * jsstring) :=
  match r with
  | Some (body, rest) => Some (c :: body, rest)
  | None => None
  end.

(** The characters of a string literal after its opening quote, up to
    and including the closing quote. *)
Fixpoint parse_chars (s : jsstring) : option (jsstring * jsstring) :=
  match s with
  | [] => None
  | c :: r =>
      if c =? 34 then Some ([], r)
      else if c =? 92 then
        match r with
        | [] => None
        | e :: r1 =>
            if e =? 117 then
              match r1 with
              | h1 :: h2 :: h3 :: h4 :: r2 =>
                  match hex4 h1 h2 h3 h4 with
                  | Some u => push u (parse_chars r2)
                  | None => None
                  end
              | _ => None
              end
            else
              match escape e with
              | Some x => push x (parse_chars r1)
              | None => None
              end
        end
      else if c <? 32 then None
      else push c (parse_chars r)
  end.

(** A number literal: an optional minus sign, an integer part without a
    superfluous leading zero, an optional fraction and an optional
    exponent, each with at least one digit. *)
Definition parse_number (s : jsstring) : option (number * jsstring) :=
  let (negative, s1) :=
    match s with
    | c :: r => if c =? 45 then (true, r) else (false, s)
    | [] => (false, s)
    end in
  let (int_digits, s2) := span_digits s1 in
  match int_digits with
  | [] => None
  | d :: more =>
      if (d =? 48) && negb (Nat.eqb (List.length more) 0) then None
      else
        let frac :=
          match s2 with
          | c :: r =>
              if c =? 46
              then match span_digits r with
                   | ([], _) => None
                   | (fd, r') => Some (fd, r')
                   end
              else Some ([], s2)
          | [] => Some ([], s2)
          end in
        match frac with
        | None => None
        | Some (frac_digits, s3) =>
            let expo :=
              match s3 with
              | c :: r =>
                  if (c =? 101) || (c =? 69)
                  then
                    let (exp_negative, r1) :=
                      match r with
                      | sg :: r' =>
                          if sg =? 45 then (true, r')
                          else if sg =? 43 then (false, r')
                          else (false, r)
                      | [] => (false, r)
                      end in
                    match span_digits r1 with
                    | ([], _) => None
                    | (ed, r2) =>
                        Some (if exp_negative then - digits_value ed
                              else digits_value ed, r2)
                    end
                  else Some (0, s3)
              | [] => Some (0, s3)
              end in
            match expo with
            | None => None
            | Some (e, s4) =>
                let m := digits_value (int_digits ++ frac_digits) in
                Some (mk_number (if negative then - m else m)
                        (e - Z.of_nat (List.length frac_digits)), s4)
            end
        end
  end.

Definition expect (c : Z) (s : jsstring) : option jsstring :=
  match s with
  | d :: r => if d =? c then Some r else None
  | [] => None
  end.

Fixpoint parse_value (fuel : nat) (s : jsstring) {struct fuel}
  : option (JsValue * jsstring) :=
  match fuel with
  | O => None
  | S f =>
      match skip_ws s with
      | [] => None
      | c :: r =>
          if c =? 123 then
            match expect 125 (skip_ws r) with
            | Some r' => Some (JObject [], r')
            | None =>
                match parse_members f r with
                | Some (ps, r') => Some (JObject ps, r')
                | None => None
                end
            end
          else if c =? 91 then
            match expect 93 (skip_ws r) with
            | Some r' => Some (JArray [], r')
            | None =>
                match parse_elements f r with
                | Some (vs, r') => Some (JArray vs, r')
                | None => None
                end
            end
          else if c =? 34 then
            match parse_chars r with
            | Some (body, r') => Some (JString body, r')
            | None => None
            end
          else if startsWith (c :: r) (str "true")
          then Some (JBool true, slice (c :: r) 4)
          else if startsWith (c :: r) (str "false")
          then Some (JBool false, slice (c :: r) 5)
          else if startsWith (c :: r) (str "null")
          then Some (JNull, slice (c :: r) 4)
          else
            match parse_number (c :: r) with
            | Some (n, r') => Some (JNumber n, r')
            | None => None
            end
      end
  end

with parse_members (fuel : nat) (s : jsstring) {struct fuel}
  : option (list (jsstring * JsValue) * jsstring) :=
  match fuel with
  | O => None
  | S f =>
      match expect 34 (skip_ws s) with
      | None => None
      | Some r =>
          match parse_chars r with
          | None => None
          | Some (key, r1) =>
              match expect 58 (skip_ws r1) with
              | None => None
              | Some r2 =>
                  match parse_value f r2 with
                  | None => None
                  | Some (v, r3) =>
                      match skip_ws r3 with
                      | [] => None
                      | d :: r4 =>
                          if d =? 125 then Some ([(key, v)], r4)
                          else if d =? 44 then
                            match parse_members f r4 with
                            | Some (ps, r5) => Some ((key, v) :: ps, r5)
                            | None => None
                            end
                          else None
                      end
                  end
              end
          end
      end
  end

with parse_elements (fuel : nat) (s : jsstring) {struct fuel}
  : option (list JsValue * jsstring) :=
  match fuel with
  | O => None
  | S f =>
      match parse_value f s with
      | None => None
      | Some (v, r) =>
          match skip_ws r with
          | [] => None
          | d :: r1 =>
              if d =? 93 then Some ([v], r1)
              else if d =? 44 then
                match parse_elements f r1 with
                | Some (vs, r2) => Some (v :: vs, r2)
                | None => None
                end
              else None
          end
      end
  end.

(** [JSON.parse(text)]: the value, or [None] for the [SyntaxError] it
    throws.  No value nests deeper than the text is long. *)
Definition parse (text : jsstring) : option JsValue :=
  match parse_value (2 * List.length text + 2) text with
  | Some (v, rest) =>
      match skip_ws rest with
      | [] => Some v
      | _ :: _ => None
      end
  | None => None
  end.

End JSON.

(* ===================================================================== *)
(** ** Exceptions *)
(* ===================================================================== *)

Module Exception.

(** The [message] of an exception.  Text the pages do not build is left
    symbolic: the string conversion of a non-string value, and wording
    chosen by the engine. *)
Inductive Message :=
| Text (s : jsstring)
| ToStringOf (v : JsValue)
| EngineDefined.

Inductive t :=
| SyntaxError (m : Message)
| TypeError (m : Message)
| Error (m : Message)
| DOMException (name : jsstring) (m : Message).

(** [e.name] *)
Definition name (e : t) : jsstring :=
  match e with
  | SyntaxError _ => str "SyntaxError"
  | TypeError _ => str "TypeError"
  | Error _ => str "Error"
  | DOMException n _ => n
  end.

(** [e.message] *)
Definition message (e : t) : Message :=
  match e with
  | SyntaxError m | TypeError m | Error m | DOMException _ m => m
  end.

(** [e instanceof SyntaxError] *)
Definition instanceof_SyntaxError (e : t) : bool :=
  match e with
  | SyntaxError _ => true
  | _ => false
  end.

(** [e instanceof Error]: every class above inherits from [Error]. *)
Definition instanceof_Error (e : t) : bool := true.

Definition ToString (v : JsValue) : Message :=
  match v with
  | JString s => Text s
  | _ => ToStringOf v
  end.

(** What [throw new Error(v)] throws, for [v] other than [undefined]:
    the new [Error], or the [TypeError] of converting [v] to a string. *)
Definition new_Error (v : JsValue) : t :=
  if conversion_throws v then TypeError EngineDefined
  else Error (ToString v).

End Exception.

(* ===================================================================== *)
(** ** The network: [fetch], the response and its body reader *)
(* ===================================================================== *)

Module Net.

(** How the body ends once its chunks are read: the stream closes, or
    the pending [read()] rejects (a transport failure, or the
    [AbortError] of the caller's [AbortController]). *)
Inductive Ending :=
| EOF
| ReadRejects (e : Exception.t).

Record Body := mkBody {
  chunks : list (list Z);
  ending : Ending
}.

Record Response := mkResponse {
  ok : bool;
  statusText : jsstring;
  body : option Body
}.

Inductive Fetch :=
| Rejects (e : Exception.t)
| Resolves (r : Response).

Inductive StreamState := Readable | Closed | Errored.

(** A [ReadableStreamDefaultReader] and the stream it has locked. *)
Record Reader := mkReader {
  pending : list (list Z);
  source_end : Ending;
  stream : StreamState;
  locked : bool
}.

(** [body.getReader()] *)
Definition getReader (b : Body) : Reader :=
  mkReader (chunks b) (ending b) Readable true.

Inductive ReadResult :=
| Value (value : list Z)
| Done
| Rejected (e : Exception.t).

(** [await reader.read()] on a readable stream. *)
Definition read (r : Reader) : ReadResult * Reader :=
  match pending r with
  | value :: rest =>
      (Value value, mkReader rest (source_end r) (stream r) (locked r))
  | [] =>
      match source_end r with
      | EOF => (Done, mkReader [] EOF Closed (locked r))
      | ReadRejects e =>
          (Rejected e, mkReader [] (ReadRejects e) Errored (locked r))
      end
  end.

(** The connection behind a reader is still held open while its stream
    is readable and the reader has neither released nor cancelled it. *)
Definition holds_connection (r : Reader) : bool :=
  locked r &&
  match stream r with
  | Readable => true
  | Closed | Errored => false
  end.

End Net.

(* ===================================================================== *)
(** ** Control flow: state, exceptions, [break] and [continue] *)
(* ===================================================================== *)

Module Control.

Inductive Completion (A : Type) :=
| Normal (a : A)
| Break
| Continue
| Throw (e : Exception.t).
Arguments Normal {A} a.
Arguments Break {A}.
Arguments Continue {A}.
Arguments Throw {A} e.

(** What a run leaves to be seen, in order: the React state after each
    setter call, the calls to [console.error], and three ghost marks
    (the value each successful [JSON.parse] returned, the reader as
    [getReader()] and each [read()] leave it, and the leftover buffer at
    the end of each iteration of the read loop). *)
Inductive Observation (UI : Type) :=
| Rendered (ui : UI)
| Console_error (label : jsstring) (e : Exception.t)
| Parsed (v : JsValue)
| Reader_state (r : Net.Reader)
| Iteration_end (buffer : jsstring).
Arguments Rendered {UI} ui.
Arguments Console_error {UI} label e.
Arguments Parsed {UI} v.
Arguments Reader_state {UI} r.
Arguments Iteration_end {UI} buffer.

Section Monad.

(** The React state of the page. *)
Variable UI : Type.

Record Result (A : Type) := mkResult {
  completion : Completion A;
  final : UI;
  trace : list (Observation UI)
}.
Arguments mkResult {A} completion final trace.
Arguments completion {A} r.
Arguments final {A} r.
Arguments trace {A} r.

Definition M (A : Type) := UI -> Result A.

Definition ret {A} (a : A) : M A := fun u => mkResult (Normal a) u [].

Definition after {A} (t : list (Observation UI)) (r : Result A)
  : Result A :=
  mkResult (completion r) (final r) (t ++ trace r).

Definition bind {A B} (m : M A) (k : A -> M B) : M B :=
  fun u =>
    let r := m u in
    match completion r with
    | Normal a => after (trace r) (k a (final r))
    | Break => mkResult Break (final r) (trace r)
    | Continue => mkResult Continue (final r) (trace r)
    | Throw e => mkResult (Throw e) (final r) (trace r)
    end.

Definition throw {A} (e : Exception.t) : M A :=
  fun u => mkResult (Throw e) u [].

Definition break {A} : M A := fun u => mkResult Break u [].

Definition continue {A} : M A := fun u => mkResult Continue u [].

(** A React setter: the state slot is replaced and the page renders. *)
Definition set (f : UI -> UI) : M unit :=
  fun u => mkResult (Normal tt) (f u) [Rendered (f u)].

Definition observe (o : Observation UI) : M unit :=
  fun u => mkResult (Normal tt) u [o].

(** [console.error(label, e)] *)
Definition console_error (label : jsstring) (e : Exception.t) : M unit :=
  observe (Console_error label e).

(** [try { body } catch (e) { handler e }] *)
Definition try_catch {A} (body : M A) (handler : Exception.t -> M A)
  : M A :=
  fun u =>
    let r := body u in
    match completion r with
    | Throw e => after (trace r) (handler e (final r))
    | _ => r
    end.

(** [try { body } finally { cleanup }]: the completion of [body]
    stands unless [cleanup] completes abruptly. *)
Definition try_finally {A} (body : M A) (cleanup : M unit) : M A :=
  fun u =>
    let r := body u in
    let c := cleanup (final r) in
    mkResult
      match completion c with
      | Normal _ => completion r
      | Break => Break
      | Continue => Continue
      | Throw e => Throw e
      end
      (final c) (trace r ++ trace c).

(** [for (const x of xs) { body x }] *)
Fixpoint for_of {A} (xs : list A) (body : A -> M unit) : M unit :=
  match xs with
  | [] => ret tt
  | x :: xs' =>
      fun u =>
        let r := body x u in
        match completion r with
        | Normal _ | Continue =>
            after (trace r) (for_of xs' body (final r))
        | Break => mkResult (Normal tt) (final r) (trace r)
        | Throw e => mkResult (Throw e) (final r) (trace r)
        end
  end.

(** [if (c) { m }] *)
Definition when (c : bool) (m : M unit) : M unit :=
  if c then m else ret tt.

End Monad.

Arguments mkResult {UI A} completion final trace.
Arguments completion {UI A} r.
Arguments final {UI A} r.
Arguments trace {UI A} r.
Arguments ret {UI A} a.
Arguments after {UI A} t r.
Arguments bind {UI A B} m k.
Arguments throw {UI A} e.
Arguments break {UI A}.
Arguments continue {UI A}.
Arguments set {UI} f.
Arguments observe {UI} o.
Arguments console_error {UI} label e.
Arguments try_catch {UI A} body handler.
Arguments try_finally {UI A} body cleanup.
Arguments for_of {UI A} xs body.
Arguments when {UI} c m.

Declare Scope js_scope.
Delimit Scope js_scope with js.
Notation "x <- m ;; k" := (bind m (fun x => k))
  (at level 61, m at next level, right associativity) : js_scope.
Notation "m ;; k" := (bind m (fun _ => k))
  (at level 61, right associativity) : js_scope.

End Control.
Import Control.
Local Open Scope js_scope.

(* ===================================================================== *)
(** ** The read loop shared by the four pages *)
(* ===================================================================== *)

Module Consumer.

(** The head of one iteration, for a chunk [value] just read:
    [buffer += decoder.decode(value, { stream: true });]
    [const lines = buffer.split("\n\n");]
    [buffer = lines.pop() || "";]
    gives the decoder, the new [buffer] and the [lines] left to handle. *)
Definition consume (td : TextDecoder.t) (buffer : jsstring) (value : list Z)
  : TextDecoder.t * jsstring * list jsstring :=
  let (td', text) := TextDecoder.decode td value in
  let buffer1 := buffer ++ text in
  let lines := split buffer1 delimiter in
  let (popped, lines') := pop lines in
  (td', or_empty popped, lines').

(** [while (true) { const { done, value } = await reader.read();
                    if (done) break;  ...  for (const line of lines) ... }]
    The chunks still to come are the reader's [pending] queue; each
    [read()] resolves and leaves the reader as [Net.read] does. *)
Fixpoint read_loop {UI : Type} (handle : jsstring -> M UI unit)
    (queue : list (list Z)) (source_end : Net.Ending)
    (td : TextDecoder.t) (buffer : jsstring) : M UI unit :=
  match queue with
  | value :: rest =>
      observe (Reader_state
                 (Net.mkReader rest source_end Net.Readable true)) ;;
      let '(td', buffer', lines) := consume td buffer value in
      for_of lines handle ;;
      observe (Iteration_end buffer') ;;
      read_loop handle rest source_end td' buffer'
  | [] =>
      match source_end with
      | Net.EOF =>
          observe (Reader_state (Net.mkReader [] Net.EOF Net.Closed true))
      | Net.ReadRejects e =>
          observe (Reader_state
                     (Net.mkReader [] (Net.ReadRejects e) Net.Errored true)) ;;
          throw e
      end
  end.

(** [await fetch(...)] *)
Definition await_fetch {UI : Type} (f : Net.Fetch) : M UI Net.Response :=
  match f with
  | Net.Rejects e => throw e
  | Net.Resolves r => ret r
  end.

(** [JSON.parse(text)] *)
Definition JSON_parse {UI : Type} (text : jsstring) : M UI JsValue :=
  match JSON.parse text with
  | Some v => observe (Parsed v) ;; ret v
  | None => throw (Exception.SyntaxError Exception.EngineDefined)
  end.

(** [v.key] *)
Definition get {UI : Type} (v : JsValue) (key : string) : M UI JsValue :=
  match Get v (str key) with
  | Some w => ret w
  | None => throw (Exception.TypeError Exception.EngineDefined)
  end.

(** [a && b] *)
Definition and_then {UI : Type} (a : JsValue) (b : M UI JsValue)
  : M UI JsValue :=
  if truthy a then b else ret a.

(** [catch (e) { if (e instanceof SyntaxError) {
                   console.error("SSE parse error:", e);
                 } else { throw e; } }] *)
Definition swallow_SyntaxError {UI : Type} (e : Exception.t) : M UI unit :=
  if Exception.instanceof_SyntaxError e
  then console_error (str "SSE parse error:") e
  else throw e.

End Consumer.
Import Consumer.

(* ===================================================================== *)
(** ** [runAnalysis]: market trends, launch detector, crisis detector *)
(* ===================================================================== *)

Module RunAnalysis.

Inductive Page := MarketTrends | LaunchDetector | CrisisDetector.

Record AgentOutput := mkAgentOutput {
  agent : JsValue;
  content : JsValue;
  thoughtType : JsValue
}.

(** The [useState] slots.  [forecast] and [marketData] exist on the market
    trends page, [threatLevel] on the launch detector page; a page never
    writes a slot it does not have. *)
Record UI := mkUI {
  outputs : list AgentOutput;
  isRunning : bool;
  activeAgent : JsValue;
  forecast : JsValue;
  marketData : JsValue;
  threatLevel : JsValue
}.

Definition setOutputs (f : list AgentOutput -> list AgentOutput) : M UI unit :=
  set (fun u => mkUI (f (outputs u)) (isRunning u) (activeAgent u)
                  (forecast u) (marketData u) (threatLevel u)).
Definition setIsRunning (b : bool) : M UI unit :=
  set (fun u => mkUI (outputs u) b (activeAgent u)
                  (forecast u) (marketData u) (threatLevel u)).
Definition setActiveAgent (a : JsValue) : M UI unit :=
  set (fun u => mkUI (outputs u) (isRunning u) a
                  (forecast u) (marketData u) (threatLevel u)).
Definition setForecast (v : JsValue) : M UI unit :=
  set (fun u => mkUI (outputs u) (isRunning u) (activeAgent u)
                  v (marketData u) (threatLevel u)).
Definition setMarketData (v : JsValue) : M UI unit :=
  set (fun u => mkUI (outputs u) (isRunning u) (activeAgent u)
                  (forecast u) v (threatLevel u)).
Definition setThreatLevel (v : JsValue) : M UI unit :=
  set (fun u => mkUI (outputs u) (isRunning u) (activeAgent u)
                  (forecast u) (marketData u) v).

(** The statements under [if (event.done)]. *)
Definition on_done (p : Page) (event : JsValue) : M UI unit :=
  match p with
  | MarketTrends =>
      metadata <- get event "metadata" ;;
      when (truthy (OptGet metadata (str "market_data")))
        (metadata <- get event "metadata" ;;
         market_data <- get metadata "market_data" ;;
         setMarketData market_data) ;;
      break
  | LaunchDetector | CrisisDetector => break
  end.

(** The statements that read [event.metadata] after the dispatch. *)
Definition on_metadata (p : Page) (event : JsValue) : M UI unit :=
  match p with
  | MarketTrends =>
      metadata <- get event "metadata" ;;
      when (truthy (OptGet metadata (str "forecast")))
        (metadata <- get event "metadata" ;;
         forecast <- get metadata "forecast" ;;
         setForecast forecast)
  | LaunchDetector =>
      metadata <- get event "metadata" ;;
      when (truthy (OptGet metadata (str "assessment")))
        (metadata <- get event "metadata" ;;
         assessment <- get metadata "assessment" ;;
         threat_level <- get assessment "threat_level" ;;
         when (truthy threat_level)
           (threat_level <- get assessment "threat_level" ;;
            setThreatLevel threat_level))
  | CrisisDetector => ret tt
  end.

(** The body of the inner [try], after [JSON.parse]. *)
Definition handle_event (p : Page) (event : JsValue) : M UI unit :=
  done <- get event "done" ;;
  when (truthy done) (on_done p event) ;;
  error <- get event "error" ;;
  when (truthy error)
    (error <- get event "error" ;; throw (Exception.new_Error error)) ;;
  agent <- get event "agent" ;;
  both <- and_then agent (get event "content") ;;
  when (truthy both)
    (agent <- get event "agent" ;;
     setActiveAgent agent ;;
     agent <- get event "agent" ;;
     content <- get event "content" ;;
     thought_type <- get event "thought_type" ;;
     setOutputs (fun prev =>
       prev ++ [mkAgentOutput agent content (or_undefined thought_type)])) ;;
  on_metadata p event.

(** The body of [for (const line of lines)]. *)
Definition handle_line (p : Page) (line : jsstring) : M UI unit :=
  if negb (startsWith line data_prefix) then continue
  else
    try_catch
      (event <- JSON_parse (slice line 6) ;; handle_event p event)
      swallow_SyntaxError.

(** The state resets that open a run. *)
Definition reset (p : Page) : M UI unit :=
  setIsRunning true ;;
  setOutputs (fun _ => []) ;;
  match p with
  | MarketTrends => setForecast JNull ;; setMarketData JNull
  | LaunchDetector => setThreatLevel JNull
  | CrisisDetector => ret tt
  end.

(** The outer [try] block. *)
Definition stream (p : Page) (f : Net.Fetch) : M UI unit :=
  response <- await_fetch f ;;
  match Net.body response with
  | None => throw (Exception.Error (Exception.Text (str "No reader")))
  | Some b =>
      observe (Reader_state (Net.getReader b)) ;;
      read_loop (handle_line p) (Net.chunks b) (Net.ending b)
        TextDecoder.create []
  end.

(** [catch (e) { if ((e as Error).name !== "AbortError") {
                   console.error("Analysis failed:", e); } }] *)
Definition on_failure (e : Exception.t) : M UI unit :=
  when (negb (JsString.eqb (Exception.name e) (str "AbortError")))
    (console_error (str "Analysis failed:") e).

(** [finally { setIsRunning(false); setActiveAgent(null); }] *)
Definition cleanup : M UI unit :=
  setIsRunning false ;; setActiveAgent JNull.

Definition runAnalysis (p : Page) (f : Net.Fetch) : M UI unit :=
  reset p ;;
  try_finally (try_catch (stream p f) on_failure) cleanup.

(** A run started from the state [u] the page is in. *)
Definition run (p : Page) (f : Net.Fetch) (u : UI) : Result UI unit :=
  runAnalysis p f u.

End RunAnalysis.

(* ===================================================================== *)
(** ** [handleAnalyze]: visual pricing *)
(* ===================================================================== *)

Module HandleAnalyze.

Inductive AnalysisStatus := idle | analyzing | complete | error_.

(** The object literal built for [setRecommendation]: the spread of
    [rec] with three fields passed through [Number]; the numeric values
    are not computed here. *)
Inductive PricingRecommendation :=
| Normalised (rec : JsValue).

Record UI := mkUI {
  status : AnalysisStatus;
  messages : list JsValue;
  activeAgent : JsValue;
  recommendation : option PricingRecommendation;
  error : option Exception.Message
}.

Definition setStatus (s : AnalysisStatus) : M UI unit :=
  set (fun u => mkUI s (messages u) (activeAgent u) (recommendation u)
                  (error u)).
Definition setMessages (f : list JsValue -> list JsValue) : M UI unit :=
  set (fun u => mkUI (status u) (f (messages u)) (activeAgent u)
                  (recommendation u) (error u)).
Definition setActiveAgent (a : JsValue) : M UI unit :=
  set (fun u => mkUI (status u) (messages u) a (recommendation u)
                  (error u)).
Definition setRecommendation (r : option PricingRecommendation)
  : M UI unit :=
  set (fun u => mkUI (status u) (messages u) (activeAgent u) r (error u)).
Definition setError (e : option Exception.Message) : M UI unit :=
  set (fun u => mkUI (status u) (messages u) (activeAgent u)
                  (recommendation u) e).

(** [Number(v)], for the exception it may throw. *)
Definition Number (v : JsValue) : M UI unit :=
  if conversion_throws v
  then throw (Exception.TypeError Exception.EngineDefined)
  else ret tt.

(** The body of the inner [try], after [JSON.parse]. *)
Definition handle_data (data : JsValue) : M UI unit :=
  done <- get data "done" ;;
  when (truthy done)
    (setStatus complete ;; setActiveAgent JNull ;; continue) ;;
  error <- get data "error" ;;
  when (truthy error)
    (error <- get data "error" ;; throw (Exception.new_Error error)) ;;
  agent <- get data "agent" ;;
  when (truthy agent)
    (agent <- get data "agent" ;;
     setActiveAgent agent ;;
     setMessages (fun prev => prev ++ [data]) ;;
     agent <- get data "agent" ;;
     final <- and_then (JBool (strict_eq_string agent (str "strategist")))
                (get data "is_final") ;;
     wanted <- and_then final
                 (metadata <- get data "metadata" ;;
                  ret (OptGet metadata (str "recommendation"))) ;;
     when (truthy wanted)
       (metadata <- get data "metadata" ;;
        rec <- get metadata "recommendation" ;;
        recommended_price <- get rec "recommended_price" ;;
        Number recommended_price ;;
        confidence <- get rec "confidence" ;;
        Number confidence ;;
        price_change_percent <- get rec "price_change_percent" ;;
        Number price_change_percent ;;
        setRecommendation (Some (Normalised rec)))).

(** The body of [for (const line of lines)]. *)
Definition handle_line (line : jsstring) : M UI unit :=
  when (startsWith line data_prefix)
    (try_catch
       (data <- JSON_parse (slice line 6) ;; handle_data data)
       swallow_SyntaxError).

(** The [try] block. *)
Definition stream (f : Net.Fetch) : M UI unit :=
  response <- await_fetch f ;;
  when (negb (Net.ok response))
    (throw (Exception.Error (Exception.Text
              (str "Analysis failed: " ++ Net.statusText response)))) ;;
  match Net.body response with
  | None => throw (Exception.Error (Exception.Text (str "No response body")))
  | Some b =>
      observe (Reader_state (Net.getReader b)) ;;
      read_loop handle_line (Net.chunks b) (Net.ending b)
        TextDecoder.create [] ;;
      setStatus complete ;;
      setActiveAgent JNull
  end.

(** [catch (err) { setError(err instanceof Error ? err.message
                                                 : "Analysis failed");
                   setStatus("error"); setActiveAgent(null); }] *)
Definition on_failure (err : Exception.t) : M UI unit :=
  setError (Some (if Exception.instanceof_Error err
                  then Exception.message err
                  else Exception.Text (str "Analysis failed"))) ;;
  setStatus error_ ;;
  setActiveAgent JNull.

(** [form_filled] is [screenshot && productName && productPrice]. *)
Definition handleAnalyze (form_filled : bool) (f : Net.Fetch) : M UI unit :=
  if negb form_filled
  then setError (Some (Exception.Text
                         (str "Please fill in all required fields")))
  else
    setStatus analyzing ;;
    setMessages (fun _ => []) ;;
    setActiveAgent JNull ;;
    setRecommendation None ;;
    setError None ;;
    try_catch (stream f) on_failure.

Definition run (form_filled : bool) (f : Net.Fetch) (u : UI)
  : Result UI unit :=
  handleAnalyze form_filled f u.

End HandleAnalyze.

(* ===================================================================== *)
(** ** [ScreenshotUploader]: the file picker of the visual pricing page *)
(* ===================================================================== *)

Module ScreenshotUploader.

(** A [File]: its name, its MIME type and its size in bytes, a
    non-negative integer that a Number holds exactly. *)
Record File := mkFile {
  name : jsstring;
  type : jsstring;
  size : Z
}.

Definition MAX_FILE_SIZE : Z := 10 * 1024 * 1024.

Definition ACCEPTED_TYPES : list jsstring :=
  [str "image/png"; str "image/jpeg"; str "image/webp"; str "image/gif"].

(** [a.includes(s)] on an array of strings. *)
Definition includes (a : list jsstring) (s : jsstring) : bool :=
  existsb (JsString.eqb s) a.

(** The decimal digits of a non-negative integer. *)
Fixpoint decimal_from (fuel : nat) (n : Z) (acc : jsstring) : jsstring :=
  match fuel with
  | O => acc
  | S fuel' =>
      let acc' := (48 + n mod 10) :: acc in
      if n <? 10 then acc' else decimal_from fuel' (n / 10) acc'
  end.

Definition decimal (n : Z) : jsstring :=
  decimal_from (S (Z.to_nat (Z.log2 n))) n [].

(** [x.toFixed(f)] for [x] the Number [num / den], exact, non-negative
    and below [10 ^ 21]: the digits of the integer [n] nearest to
    [x * 10 ^ f], the larger one when two are as near, with the point
    [f] digits from the right. *)
Definition toFixed (num den : Z) (f : nat) : jsstring :=
  let n := (2 * num * 10 ^ Z.of_nat f + den) / (2 * den) in
  let m := decimal n in
  match f with
  | O => m
  | S _ =>
      let m := repeat 48 (S f - List.length m) ++ m in
      let k := (List.length m - f)%nat in
      firstn k m ++ [46] ++ skipn k m
  end.

(** [validateFile(file)]: the message of the refusal, or [None] for
    [null].  Dividing a size by 1024 twice is exact. *)
Definition validateFile (file : File) : option jsstring :=
  if negb (includes ACCEPTED_TYPES (type file))
  then Some (str "Invalid file type. Please upload PNG, JPEG, WebP, or GIF.")
  else if MAX_FILE_SIZE <? size file
  then Some (str "File too large (" ++
             toFixed (size file) (1024 * 1024) 1 ++
             str "MB). Maximum is 10MB.")
  else None.

(** What a handler does, in order: calls on the event, state setters of
    the component, calls of the props [onFileSelect] and [onClear], and
    the reset of the file input ([inputRef.current.value = ""]). *)
Inductive Effect :=
| preventDefault
| stopPropagation
| setIsDragging (b : bool)
| setFileError (e : option jsstring)
| onFileSelect (file : File)
| onClear
| reset_input.

(** [if (error)] holds of a message that is not empty. *)
Definition handleFileSelect (file : File) : list Effect :=
  match validateFile file with
  | Some (c :: error) => [setFileError (Some (c :: error))]
  | Some [] | None => [setFileError None; onFileSelect file]
  end.

(** [handleDrag(e)], by [e.type]. *)
Definition handleDrag (type : jsstring) : list Effect :=
  [preventDefault; stopPropagation] ++
  if JsString.eqb type (str "dragenter") || JsString.eqb type (str "dragover")
  then [setIsDragging true]
  else if JsString.eqb type (str "dragleave")
  then [setIsDragging false]
  else [].

(** [files && files[0]], for [files] a [FileList] or [null]. *)
Definition first_file (files : option (list File)) : option File :=
  match files with
  | Some (file :: _) => Some file
  | Some [] | None => None
  end.

(** [handleDrop(e)], by [e.dataTransfer.files]. *)
Definition handleDrop (files : option (list File)) : list Effect :=
  [preventDefault; stopPropagation; setIsDragging false] ++
  match first_file files with
  | Some file => handleFileSelect file
  | None => []
  end.

(** [handleChange(e)], by [e.target.files]. *)
Definition handleChange (files : option (list File)) : list Effect :=
  match first_file files with
  | Some file => handleFileSelect file
  | None => []
  end.

(** [handleClear()]; [mounted] tells whether [inputRef.current] is
    set. *)
Definition handleClear (mounted : bool) : list Effect :=
  [setFileError None] ++
  (if mounted then [reset_input] else []) ++
  [onClear].

(** The state of the component, with the [screenshot] slot of the page
    that mounts it: the page passes [setScreenshot] for [onFileSelect]
    and [() => setScreenshot(null)] for [onClear]. *)
Record State := mkState {
  isDragging : bool;
  fileError : option jsstring;
  screenshot : option File
}.

Definition initial : State := mkState false None None.

Definition apply (s : State) (e : Effect) : State :=
  match e with
  | setIsDragging b => mkState b (fileError s) (screenshot s)
  | setFileError err => mkState (isDragging s) err (screenshot s)
  | onFileSelect file => mkState (isDragging s) (fileError s) (Some file)
  | onClear => mkState (isDragging s) (fileError s) None
  | preventDefault | stopPropagation | reset_input => s
  end.

(** What the user does to the component. *)
Inductive Event :=
| Drag (type : jsstring)
| Drop (files : option (list File))
| Change (files : option (list File))
| Clear (mounted : bool).

Definition handle (e : Event) : list Effect :=
  match e with
  | Drag type => handleDrag type
  | Drop files => handleDrop files
  | Change files => handleChange files
  | Clear mounted => handleClear mounted
  end.

Definition step (s : State) (e : Event) : State :=
  fold_left apply (handle e) s.

End ScreenshotUploader.

(* ===================================================================== *)
(** ** Object literals used as tables, and what a component returns *)
(* ===================================================================== *)

Module PlainObject.

(** The members of [Object.prototype], which every object literal
    inherits. *)
Definition Object_prototype : list jsstring :=
  [str "constructor"; str "hasOwnProperty"; str "isPrototypeOf";
   str "propertyIsEnumerable"; str "toLocaleString"; str "toString";
   str "valueOf"; str "__proto__"; str "__defineGetter__";
   str "__defineSetter__"; str "__lookupGetter__"; str "__lookupSetter__"].

Definition inherited (key : jsstring) : bool :=
  existsb (JsString.eqb key) Object_prototype.

(** What [table[key]] finds: a property of the literal, a member of
    [Object.prototype], or nothing ([undefined]). *)
Inductive Property (V : Type) :=
| Own (v : V)
| Inherited (member : jsstring)
| Absent.
Arguments Own {V} v.
Arguments Inherited {V} member.
Arguments Absent {V}.

Fixpoint own {V : Type} (table : list (jsstring * V)) (key : jsstring)
  : option V :=
  match table with
  | [] => None
  | (k, v) :: table' => if JsString.eqb k key then Some v else own table' key
  end.

Definition get {V : Type} (table : list (jsstring * V)) (key : jsstring)
  : Property V :=
  match own table key with
  | Some v => Own v
  | None => if inherited key then Inherited key else Absent
  end.

(** The [name] of an inherited member: the getter of [__proto__] gives
    [Object.prototype], which has none; the others are functions. *)
Definition member_name (member : jsstring) : option jsstring :=
  if JsString.eqb member (str "__proto__") then None
  else if JsString.eqb member (str "constructor") then Some (str "Object")
  else Some member.

End PlainObject.

Module Component.

(** The evaluation of a component function: the exception it throws,
    or what it returns. *)
Inductive Rendering (A : Type) :=
| Throws (e : Exception.t)
| Shows (a : A).
Arguments Throws {A} e.
Arguments Shows {A} a.

(** [xs.map(f)]: in order, up to the first call that throws. *)
Fixpoint each {A B : Type} (f : A -> Rendering B) (xs : list A)
  : Rendering (list B) :=
  match xs with
  | [] => Shows []
  | x :: xs' =>
      match f x with
      | Throws e => Throws e
      | Shows y =>
          match each f xs' with
          | Throws e => Throws e
          | Shows ys => Shows (y :: ys)
          end
      end
  end.

(** [s.split(" ")[0]] *)
Definition first_word (s : jsstring) : jsstring :=
  hd [] (split s [32]).

(** A string or [undefined] inside a template literal. *)
Definition interpolate (s : option jsstring) : jsstring :=
  match s with
  | Some s => s
  | None => str "undefined"
  end.

End Component.

(* ===================================================================== *)
(** ** The analysis stream of the [runAnalysis] pages *)
(* ===================================================================== *)

Module OutputStream.

Import PlainObject Component.

(** An [AgentOutput], as the pages declare it. *)
Record AgentOutput := mkAgentOutput {
  agent : jsstring;
  content : jsstring;
  thoughtType : option jsstring
}.

Record AgentConfig := mkAgentConfig {
  name : jsstring;
  description : jsstring;
  textColor : jsstring;
  borderActive : jsstring;
  bgActive : jsstring;
  labelColor : jsstring
}.

Record ThoughtLabelConfig := mkThoughtLabelConfig {
  label : jsstring;
  color : jsstring
}.

Definition TREND_AGENTS : list (jsstring * AgentConfig) :=
  [(str "observer",
    mkAgentConfig (str "Market Observer")
      (str "Scans data and identifies patterns")
      (str "text-cyan-400") (str "border-cyan-500") (str "bg-cyan-500/10")
      (str "text-cyan-400"));
   (str "analyst",
    mkAgentConfig (str "Trend Analyst")
      (str "Interprets drivers and correlations")
      (str "text-violet-400") (str "border-violet-500")
      (str "bg-violet-500/10") (str "text-violet-400"));
   (str "forecaster",
    mkAgentConfig (str "Market Forecaster")
      (str "Predicts movement and recommends action")
      (str "text-amber-400") (str "border-amber-500")
      (str "bg-amber-500/10") (str "text-amber-400"))].

Definition LAUNCH_AGENTS : list (jsstring * AgentConfig) :=
  [(str "scanner",
    mkAgentConfig (str "Scanner Agent")
      (str "Detects launch signals from images/text")
      (str "text-blue-400") (str "border-blue-500") (str "bg-blue-500/10")
      (str "text-blue-400"));
   (str "validator",
    mkAgentConfig (str "Validator Agent")
      (str "Confirms launch details and timing")
      (str "text-purple-400") (str "border-purple-500")
      (str "bg-purple-500/10") (str "text-purple-400"));
   (str "assessor",
    mkAgentConfig (str "Assessor Agent")
      (str "Evaluates threat and recommends response")
      (str "text-emerald-400") (str "border-emerald-500")
      (str "bg-emerald-500/10") (str "text-emerald-400"))].

Definition CRISIS_AGENTS : list (jsstring * AgentConfig) :=
  [(str "monitor",
    mkAgentConfig (str "Monitor Agent")
      (str "Scans sentiment for anomalies")
      (str "text-blue-400") (str "border-blue-500") (str "bg-blue-500/10")
      (str "text-blue-400"));
   (str "investigator",
    mkAgentConfig (str "Investigator Agent")
      (str "Identifies crisis root cause")
      (str "text-purple-400") (str "border-purple-500")
      (str "bg-purple-500/10") (str "text-purple-400"));
   (str "response",
    mkAgentConfig (str "Response Agent")
      (str "Recommends crisis actions")
      (str "text-emerald-400") (str "border-emerald-500")
      (str "bg-emerald-500/10") (str "text-emerald-400"))].

(** [THOUGHT_LABELS] of the market trends page, and of the two
    detector pages. *)
Definition TREND_THOUGHT_LABELS : list (jsstring * ThoughtLabelConfig) :=
  [(str "observation",
    mkThoughtLabelConfig (str "Observation") (str "text-cyan-400"));
   (str "analysis",
    mkThoughtLabelConfig (str "Analysis") (str "text-violet-400"));
   (str "hypothesis",
    mkThoughtLabelConfig (str "Hypothesis") (str "text-blue-400"));
   (str "decision",
    mkThoughtLabelConfig (str "Decision") (str "text-amber-400"));
   (str "recommendation",
    mkThoughtLabelConfig (str "Recommendation") (str "text-green-400"))].

Definition DETECTOR_THOUGHT_LABELS : list (jsstring * ThoughtLabelConfig) :=
  [(str "observation",
    mkThoughtLabelConfig (str "Observing") (str "text-slate-400"));
   (str "analysis",
    mkThoughtLabelConfig (str "Analyzing") (str "text-blue-400"));
   (str "hypothesis",
    mkThoughtLabelConfig (str "Theorizing") (str "text-purple-400"));
   (str "decision",
    mkThoughtLabelConfig (str "Deciding") (str "text-amber-400"));
   (str "recommendation",
    mkThoughtLabelConfig (str "Recommending") (str "text-emerald-400"))].

Definition AGENTS (p : RunAnalysis.Page) : list (jsstring * AgentConfig) :=
  match p with
  | RunAnalysis.MarketTrends => TREND_AGENTS
  | RunAnalysis.LaunchDetector => LAUNCH_AGENTS
  | RunAnalysis.CrisisDetector => CRISIS_AGENTS
  end.

Definition THOUGHT_LABELS (p : RunAnalysis.Page)
  : list (jsstring * ThoughtLabelConfig) :=
  match p with
  | RunAnalysis.MarketTrends => TREND_THOUGHT_LABELS
  | RunAnalysis.LaunchDetector | RunAnalysis.CrisisDetector =>
      DETECTOR_THOUGHT_LABELS
  end.

(** The span of a thought: its class and what stands between the
    brackets ([None] for [undefined]). *)
Record Thought := mkThought {
  thought_class : jsstring;
  thought_label : option jsstring
}.

(** One line of the stream: the class and the text of the agent's
    badge, the thought if one is shown, and the content. *)
Record Line := mkLine {
  badge_class : jsstring;
  badge : jsstring;
  thought : option Thought;
  text : jsstring
}.

Inductive View :=
| Placeholder (text : jsstring)
| Lines (lines : list Line).

(** [{thought && (<span className={`${thought.color} shrink-0`}>
                    [{thought.label}]</span>)}]
    for [thought = o.thoughtType ? THOUGHT_LABELS[o.thoughtType] : null]. *)
Definition thought_of (p : RunAnalysis.Page) (o : AgentOutput)
  : option Thought :=
  match thoughtType o with
  | Some (c :: t) =>
      match get (THOUGHT_LABELS p) (c :: t) with
      | Own config =>
          Some (mkThought (color config ++ str " shrink-0")
                  (Some (label config)))
      | Inherited _ =>
          Some (mkThought (interpolate None ++ str " shrink-0") None)
      | Absent => None
      end
  | Some [] | None => None
  end.

Definition type_error : Exception.t :=
  Exception.TypeError Exception.EngineDefined.

(** The body of [outputs.map((o, i) => ...)]. *)
Definition line (p : RunAnalysis.Page) (o : AgentOutput) : Rendering Line :=
  let agentInfo := get (AGENTS p) (agent o) in
  match p with
  | RunAnalysis.MarketTrends =>
      (* agentInfo?.labelColor || "text-gray-400" *)
      let class :=
        match agentInfo with
        | Own config =>
            match labelColor config with
            | [] => str "text-gray-400"
            | c :: s => c :: s
            end
        | Inherited _ | Absent => str "text-gray-400"
        end in
      (* agentInfo?.name.split(" ")[0] || o.agent *)
      let word :=
        match agentInfo with
        | Own config => Shows (first_word (name config))
        | Inherited member =>
            match member_name member with
            | Some n => Shows (first_word n)
            | None => Throws type_error
            end
        | Absent => Shows []
        end in
      match word with
      | Throws e => Throws e
      | Shows w =>
          Shows (mkLine (class ++ str " font-semibold shrink-0")
                   match w with
                   | [] => agent o
                   | c :: s => c :: s
                   end
                   (thought_of p o) (content o))
      end
  | RunAnalysis.LaunchDetector | RunAnalysis.CrisisDetector =>
      match agentInfo with
      | Own config =>
          Shows (mkLine (labelColor config ++ str " font-semibold shrink-0")
                   (first_word (name config))
                   (thought_of p o) (content o))
      | Inherited member =>
          match member_name member with
          | Some n =>
              Shows (mkLine (interpolate None ++ str " font-semibold shrink-0")
                       (first_word n) (thought_of p o) (content o))
          | None => Throws type_error
          end
      | Absent => Throws type_error
      end
  end.

Definition placeholder (p : RunAnalysis.Page) : jsstring :=
  match p with
  | RunAnalysis.MarketTrends =>
      str "Run analysis to see market trend insights..."
  | RunAnalysis.LaunchDetector =>
      str "Run analysis to detect competitor launches..."
  | RunAnalysis.CrisisDetector =>
      str "Run analysis to see agent thinking..."
  end.

(** The block under the heading Analysis Stream. *)
Definition render (p : RunAnalysis.Page) (outputs : list AgentOutput)
  : Rendering View :=
  match outputs with
  | [] => Shows (Placeholder (placeholder p))
  | _ :: _ =>
      match each (line p) outputs with
      | Throws e => Throws e
      | Shows lines => Shows (Lines lines)
      end
  end.

(** An entry of the accumulator seen as the pages type it: it has that
    type when its agent and its content are strings and its thought type
    is a string or [undefined]. *)
Definition typed (o : RunAnalysis.AgentOutput) : option AgentOutput :=
  match RunAnalysis.agent o, RunAnalysis.content o,
        RunAnalysis.thoughtType o with
  | JString a, JString c, JString t => Some (mkAgentOutput a c (Some t))
  | JString a, JString c, JUndefined => Some (mkAgentOutput a c None)
  | _, _, _ => None
  end.

Fixpoint all_typed (outputs : list RunAnalysis.AgentOutput)
  : option (list AgentOutput) :=
  match outputs with
  | [] => Some []
  | o :: outputs' =>
      match typed o, all_typed outputs' with
      | Some o', Some os => Some (o' :: os)
      | _, _ => None
      end
  end.

End OutputStream.

(* ===================================================================== *)
(** ** [AgentStream]: the messages of the visual pricing page *)
(* ===================================================================== *)

Module AgentStream.

Import PlainObject Component.

(** An [AgentMessage], as the page declares it; the component does not
    read its metadata. *)
Record AgentMessage := mkAgentMessage {
  agent : jsstring;
  thought_type : option jsstring;
  content : jsstring;
  is_final : bool
}.

Record AgentConfig := mkAgentConfig {
  name : jsstring;
  label : jsstring;
  color : jsstring;
  bgColor : jsstring;
  borderColor : jsstring;
  description : jsstring
}.

Definition AGENT_CONFIG : list (jsstring * AgentConfig) :=
  [(str "scout",
    mkAgentConfig (str "Scout Agent") (str "SCOUT") (str "text-blue-500")
      (str "bg-blue-500/10") (str "border-blue-500/30")
      (str "Extracting competitor data from screenshot..."));
   (str "analyst",
    mkAgentConfig (str "Analyst Agent") (str "ANALYST")
      (str "text-purple-500") (str "bg-purple-500/10")
      (str "border-purple-500/30")
      (str "Comparing prices and analyzing market position..."));
   (str "strategist",
    mkAgentConfig (str "Strategist Agent") (str "STRATEGIST")
      (str "text-emerald-500") (str "bg-emerald-500/10")
      (str "border-emerald-500/30")
      (str "Calculating optimal pricing strategy..."))].

Definition THOUGHT_LABELS : list (jsstring * jsstring) :=
  [(str "observation", str "Observing");
   (str "analysis", str "Analyzing");
   (str "hypothesis", str "Hypothesis");
   (str "decision", str "Deciding");
   (str "recommendation", str "Recommending")].

Definition agentOrder : list jsstring :=
  [str "scout"; str "analyst"; str "strategist"].

(** The object [acc] of the reduction: its own properties, each an array
    of messages, in the order they were created. *)
Definition Groups := list (jsstring * list AgentMessage).

(** [acc[key].push(msg)] on an own property. *)
Fixpoint push (acc : Groups) (key : jsstring) (msg : AgentMessage) : Groups :=
  match acc with
  | [] => []
  | (k, arr) :: acc' =>
      if JsString.eqb k key then (k, arr ++ [msg]) :: acc'
      else (k, arr) :: push acc' key msg
  end.

(** The callback of [messages.reduce]:
    [if (!acc[msg.agent]) acc[msg.agent] = []; acc[msg.agent].push(msg);]
    An inherited member is truthy and has no [push]. *)
Definition group (acc : Groups) (msg : AgentMessage) : Rendering Groups :=
  match get acc (agent msg) with
  | Own _ => Shows (push acc (agent msg) msg)
  | Inherited _ => Throws (Exception.TypeError Exception.EngineDefined)
  | Absent => Shows (acc ++ [(agent msg, [msg])])
  end.

(** [messages.reduce(callback, acc)] *)
Fixpoint reduce (messages : list AgentMessage) (acc : Groups)
  : Rendering Groups :=
  match messages with
  | [] => Shows acc
  | msg :: messages' =>
      match group acc msg with
      | Throws e => Throws e
      | Shows acc' => reduce messages' acc'
      end
  end.

(** What stands between the brackets of a thought:
    [THOUGHT_LABELS[msg.thought_type] || msg.thought_type]. *)
Inductive Tag :=
| Text (s : jsstring)
| Member (member : jsstring).

Definition tag_of (thought_type : jsstring) : Tag :=
  match get THOUGHT_LABELS thought_type with
  | Own (c :: s) => Text (c :: s)
  | Own [] | Absent => Text thought_type
  | Inherited member => Member member
  end.

(** One message of a card: the thought in brackets when
    [msg.thought_type] is truthy, the class and the text of the
    content. *)
Record Row := mkRow {
  tag : option Tag;
  text_class : jsstring;
  text : jsstring
}.

Definition row (msg : AgentMessage) : Row :=
  mkRow
    match thought_type msg with
    | Some (c :: s) => Some (tag_of (c :: s))
    | Some [] | None => None
    end
    (if is_final msg then str "text-white" else str "text-gray-300")
    (content msg).

(** The card of an agent: whether it shows Processing, whether it shows
    Complete, its rows, and whether it shows the description of the
    agent in place of rows. *)
Record Card := mkCard {
  key : jsstring;
  config : AgentConfig;
  processing : bool;
  complete : bool;
  rows : list Row;
  waiting : bool
}.

Record View := mkView {
  busy : bool;
  cards : list Card
}.

(** [!activeAgent] fails of a string that is not empty. *)
Definition truthy_agent (activeAgent : option jsstring) : bool :=
  match activeAgent with
  | Some (_ :: _) => true
  | Some [] | None => false
  end.

(** [activeAgent === agentKey] *)
Definition is_active (activeAgent : option jsstring) (agentKey : jsstring)
  : bool :=
  match activeAgent with
  | Some a => JsString.eqb a agentKey
  | None => false
  end.

(** The callback of [agentOrder.map]: the cards it returns, none for
    [null].  The keys of [agentOrder] are keys of [AGENT_CONFIG] and no
    members of [Object.prototype]. *)
Definition card (groupedMessages : Groups) (activeAgent : option jsstring)
    (agentKey : jsstring) : list Card :=
  match own AGENT_CONFIG agentKey with
  | Some config =>
      let agentMessages :=
        match own groupedMessages agentKey with
        | Some arr => arr
        | None => []
        end in
      let isActive := is_active activeAgent agentKey in
      let isComplete := existsb is_final agentMessages in
      match agentMessages with
      | [] =>
          if negb isActive then []
          else [mkCard agentKey config (isActive && negb isComplete)
                  isComplete [] isActive]
      | _ :: _ =>
          [mkCard agentKey config (isActive && negb isComplete) isComplete
             (map row agentMessages) false]
      end
  | None => []
  end.

(** The component: it throws, returns [null] ([None]) or returns its
    view.  The scroll it requests after each render is not part of what
    it returns. *)
Definition AgentStream (messages : list AgentMessage)
    (activeAgent : option jsstring) : Rendering (option View) :=
  match messages, truthy_agent activeAgent with
  | [], false => Shows None
  | _, _ =>
      match reduce messages [] with
      | Throws e => Throws e
      | Shows groupedMessages =>
          Shows (Some (mkView (truthy_agent activeAgent)
                         (flat_map (card groupedMessages activeAgent)
                            agentOrder)))
      end
  end.

(** A message of [handleAnalyze] seen as the page types it: it has that
    type when its agent and content are strings, its thought type a
    string or [null] and its final flag a boolean. *)
Definition typed (data : JsValue) : option AgentMessage :=
  match OptGet data (str "agent"), OptGet data (str "thought_type"),
        OptGet data (str "content"), OptGet data (str "is_final") with
  | JString a, JString t, JString c, JBool f =>
      Some (mkAgentMessage a (Some t) c f)
  | JString a, JNull, JString c, JBool f =>
      Some (mkAgentMessage a None c f)
  | _, _, _, _ => None
  end.

End AgentStream.

(* ===================================================================== *)
(** ** The request of a run: [encodeURIComponent], [URLSearchParams] *)
(* ===================================================================== *)

Module URI.

Definition is_alpha (c : Z) : bool :=
  (65 <=? c) && (c <=? 90) || (97 <=? c) && (c <=? 122).

Definition is_digit (c : Z) : bool := (48 <=? c) && (c <=? 57).

(** The marks a URI component keeps: hyphen, underscore, period,
    exclamation mark, tilde, asterisk, apostrophe and the two
    parentheses. *)
Definition is_mark (c : Z) : bool :=
  existsb (Z.eqb c) [45; 95; 46; 33; 126; 42; 39; 40; 41].

Definition unreserved (c : Z) : bool := is_alpha c || is_digit c || is_mark c.

Definition hex_digit (n : Z) : Z := if n <? 10 then 48 + n else 55 + n.

(** A percent sign and the two upper-case hexadecimal digits of an
    octet. *)
Definition percent (octet : Z) : jsstring :=
  [37; hex_digit (octet / 16); hex_digit (octet mod 16)].

(** The octets of the UTF-8 encoding of a code point. *)
Definition utf8 (cp : Z) : list Z :=
  if cp <? 0x80 then [cp]
  else if cp <? 0x800 then [0xC0 + cp / 64; 0x80 + cp mod 64]
  else if cp <? 0x10000
  then [0xE0 + cp / 4096; 0x80 + (cp / 64) mod 64; 0x80 + cp mod 64]
  else [0xF0 + cp / 262144; 0x80 + (cp / 4096) mod 64;
        0x80 + (cp / 64) mod 64; 0x80 + cp mod 64].

Definition is_lead (c : Z) : bool := (0xD800 <=? c) && (c <=? 0xDBFF).
Definition is_trail (c : Z) : bool := (0xDC00 <=? c) && (c <=? 0xDFFF).

Definition code_point (lead trail : Z) : Z :=
  (lead - 0xD800) * 0x400 + (trail - 0xDC00) + 0x10000.

(** [encodeURIComponent(s)]: [None] for the [URIError] thrown at a
    surrogate that has no partner. *)
Fixpoint encodeURIComponent (s : jsstring) : option jsstring :=
  match s with
  | [] => Some []
  | c :: rest =>
      if unreserved c then option_map (cons c) (encodeURIComponent rest)
      else if is_trail c then None
      else if is_lead c then
        match rest with
        | d :: rest' =>
            if is_trail d
            then option_map (app (flat_map percent (utf8 (code_point c d))))
                   (encodeURIComponent rest')
            else None
        | [] => None
        end
      else option_map (app (flat_map percent (utf8 c)))
             (encodeURIComponent rest)
  end.

(** The conversion to a [USVString]: the code points of the string, a
    surrogate that has no partner replaced by U+FFFD. *)
Fixpoint scalar_values (s : jsstring) : list Z :=
  match s with
  | [] => []
  | c :: rest =>
      if is_lead c then
        match rest with
        | d :: rest' =>
            if is_trail d then code_point c d :: scalar_values rest'
            else 0xFFFD :: scalar_values rest
        | [] => [0xFFFD]
        end
      else if is_trail c then 0xFFFD :: scalar_values rest
      else c :: scalar_values rest
  end.

(** The octets the form serializer leaves as they are: letters, digits,
    asterisk, hyphen, period and underscore. *)
Definition form_safe (octet : Z) : bool :=
  is_alpha octet || is_digit octet || existsb (Z.eqb octet) [42; 45; 46; 95].

Definition form_octet (octet : Z) : jsstring :=
  if octet =? 32 then [43]
  else if form_safe octet then [octet]
  else percent octet.

(** A name or a value as [URLSearchParams] serializes it. *)
Definition form_encode (s : jsstring) : jsstring :=
  flat_map form_octet (flat_map utf8 (scalar_values s)).

(** [params.toString()] for the list of pairs of [params]. *)
Definition URLSearchParams_toString (params : list (jsstring * jsstring))
  : jsstring :=
  join
    (map (fun p => form_encode (fst p) ++ [61] ++ form_encode (snd p))
       params)
    [38].

End URI.

Module Request.

Inductive Method := GET | POST.

(** An entry of a [FormData]: a string, converted to a [USVString], or
    a file. *)
Inductive Entry :=
| Field (value : list Z)
| Blob (file : ScreenshotUploader.File).

Record t := mk {
  method : Method;
  url : jsstring;
  body : option (list (jsstring * Entry));
  signal : bool
}.

(** What the statements before [fetch] come to: the request, or the
    [URIError] of [encodeURIComponent]. *)
Inductive Built :=
| URIError
| Requests (request : t).

(** [String(b)], and a boolean in a template literal. *)
Definition of_bool (b : bool) : jsstring :=
  if b then str "true" else str "false".

(** [(process.env.NEXT_PUBLIC_API_URL || "http://localhost:8000")
     + "/api/v1"] *)
Definition API_BASE (NEXT_PUBLIC_API_URL : option jsstring) : jsstring :=
  match NEXT_PUBLIC_API_URL with
  | Some (c :: s) => c :: s
  | Some [] | None => str "http://localhost:8000"
  end ++ str "/api/v1".

(** The request of [runAnalysis] on the market trends page. *)
Definition market_trends (api product category simulateTrend : jsstring)
    (imageFile : option ScreenshotUploader.File) : Built :=
  match imageFile with
  | Some file =>
      Requests
        (mk POST (api ++ str "/trends-visual/analyze/stream")
           (Some [(str "product", Field (URI.scalar_values product));
                  (str "category", Field (URI.scalar_values category));
                  (str "simulate_trend",
                   Field (URI.scalar_values simulateTrend));
                  (str "image", Blob file)])
           true)
  | None =>
      Requests
        (mk GET
           (api ++ str "/trends-visual/analyze/stream?" ++
            URI.URLSearchParams_toString
              [(str "product", product);
               (str "category", category);
               (str "simulate_trend", simulateTrend)])
           None true)
  end.

(** The request of [runAnalysis] on the launch detector page. *)
Definition launch_detector (api competitor yourProduct : jsstring)
    (simulateLaunch : bool) (imageFile : option ScreenshotUploader.File)
  : Built :=
  match imageFile with
  | Some file =>
      Requests
        (mk POST (api ++ str "/launch/analyze/stream")
           (Some [(str "competitor", Field (URI.scalar_values competitor));
                  (str "your_product",
                   Field (URI.scalar_values yourProduct));
                  (str "simulate_launch",
                   Field (URI.scalar_values (of_bool simulateLaunch)));
                  (str "image", Blob file)])
           true)
  | None =>
      match URI.encodeURIComponent competitor,
            URI.encodeURIComponent yourProduct with
      | Some c, Some y =>
          Requests
            (mk GET
               (api ++ str "/launch/analyze/stream?competitor=" ++ c ++
                str "&your_product=" ++ y ++
                str "&simulate_launch=" ++ of_bool simulateLaunch)
               None true)
      | _, _ => URIError
      end
  end.

(** The request of [runAnalysis] on the crisis detector page. *)
Definition crisis_detector (api product : jsstring) (simulateCrisis : bool)
  : Built :=
  match URI.encodeURIComponent product with
  | Some p =>
      Requests
        (mk GET
           (api ++ str "/crisis/analyze/stream?product=" ++ p ++
            str "&simulate_crisis=" ++ of_bool simulateCrisis)
           None true)
  | None => URIError
  end.

End Request.

(* ===================================================================== *)
(** ** Vocabulary of the properties *)
(* ===================================================================== *)

(** JSON text written with apostrophes for its double quotes. *)
Definition json (s : string) : jsstring :=
  map (fun c => if c =? 39 then 34 else c) (str s).

(** A response whose body delivers [chunks] and then ends as [ending]. *)
Definition streaming (ok : bool) (statusText : jsstring)
    (chunks : list (list Z)) (ending : Net.Ending) : Net.Fetch :=
  Net.Resolves (Net.mkResponse ok statusText
                  (Some (Net.mkBody chunks ending))).

(** The [lines] handled by each iteration of the read loop. *)
Fixpoint batches (td : TextDecoder.t) (buffer : jsstring)
    (chunks : list (list Z)) : list (list jsstring) :=
  match chunks with
  | [] => []
  | value :: rest =>
      let '(td', buffer', lines) := consume td buffer value in
      lines :: batches td' buffer' rest
  end.

(** The complete records of a stream, in order of arrival. *)
Definition records (chunks : list (list Z)) : list jsstring :=
  List.concat (batches TextDecoder.create [] chunks).

(** A data record whose event has a truthy [done]. *)
Definition is_done_record (line : jsstring) : bool :=
  startsWith line data_prefix &&
  match JSON.parse (slice line 6) with
  | Some event =>
      match Get event (str "done") with
      | Some done => truthy done
      | None => false
      end
  | None => false
  end.

Section Runs.

Context {UI : Type}.

Definition is_visible (o : Observation UI) : bool :=
  match o with
  | Rendered _ | Console_error _ _ | Parsed _ => true
  | Reader_state _ | Iteration_end _ => false
  end.

Definition is_quiet (o : Observation UI) : bool :=
  match o with
  | Rendered _ | Parsed _ => true
  | Console_error _ _ | Reader_state _ | Iteration_end _ => false
  end.

(** The states rendered, the events parsed and the console lines of a
    trace, and its ghost marks. *)
Fixpoint rendered (t : list (Observation UI)) : list UI :=
  match t with
  | [] => []
  | Rendered u :: t' => u :: rendered t'
  | _ :: t' => rendered t'
  end.

Fixpoint parsed (t : list (Observation UI)) : list JsValue :=
  match t with
  | [] => []
  | Parsed v :: t' => v :: parsed t'
  | _ :: t' => parsed t'
  end.

Fixpoint console (t : list (Observation UI))
  : list (jsstring * Exception.t) :=
  match t with
  | [] => []
  | Console_error label e :: t' => (label, e) :: console t'
  | _ :: t' => console t'
  end.

Fixpoint iteration_ends (t : list (Observation UI)) : list jsstring :=
  match t with
  | [] => []
  | Iteration_end b :: t' => b :: iteration_ends t'
  | _ :: t' => iteration_ends t'
  end.

Fixpoint reader_states (t : list (Observation UI)) : list Net.Reader :=
  match t with
  | [] => []
  | Reader_state r :: t' => r :: reader_states t'
  | _ :: t' => reader_states t'
  end.

(** The reader as the run leaves it, if it took one. *)
Definition reader_after (t : list (Observation UI)) : option Net.Reader :=
  match rev (reader_states t) with
  | [] => None
  | r :: _ => Some r
  end.

(** Two runs that complete alike, end in the same state and leave the
    same observations among those [keep] selects. *)
Definition same_upto {A} (keep : Observation UI -> bool)
    (r1 r2 : Result UI A) : Prop :=
  completion r1 = completion r2 /\
  final r1 = final r2 /\
  filter keep (trace r1) = filter keep (trace r2).

(** The inner loop run on the lines of successive iterations. *)
Fixpoint run_batches (handle : jsstring -> M UI unit)
    (bs : list (list jsstring)) : M UI unit :=
  match bs with
  | [] => ret tt
  | b :: bs' => for_of b handle ;; run_batches handle bs'
  end.

(** How the read loop ends once every chunk is handled. *)
Definition finish (ending : Net.Ending) : M UI unit :=
  match ending with
  | Net.EOF => ret tt
  | Net.ReadRejects e => throw e
  end.

(** The state in which the line after [lines] is handled, when the
    loop gets there: no line of [lines] breaks out or throws. *)
Fixpoint passes (handle : jsstring -> M UI unit) (lines : list jsstring)
    (u : UI) : option UI :=
  match lines with
  | [] => Some u
  | x :: lines' =>
      match completion (handle x u) with
      | Normal _ | Continue => passes handle lines' (final (handle x u))
      | Break | Throw _ => None
      end
  end.

(** Handling [x] changes no state, goes on to the next line, and
    leaves no observation among those [keep] selects. *)
Definition passed_over (handle : jsstring -> M UI unit)
    (keep : Observation UI -> bool) (x : jsstring) : Prop :=
  forall u,
    final (handle x u) = u /\
    filter keep (trace (handle x u)) = [] /\
    (completion (handle x u) = Normal tt \/
     completion (handle x u) = Continue).

(** [line] is handled in state [u1] by the loop started in [u0] on the
    iterations [bs]: the iterations before its own ended without an
    exception, and the lines before it in its own were passed. *)
Definition handled_at (handle : jsstring -> M UI unit)
    (bs : list (list jsstring)) (u0 : UI) (line : jsstring) (u1 : UI)
  : Prop :=
  exists bs1 l1 l2 bs2,
    bs = bs1 ++ (l1 ++ line :: l2) :: bs2 /\
    completion (run_batches handle bs1 u0) = Normal tt /\
    passes handle l1 (final (run_batches handle bs1 u0)) = Some u1.

End Runs.

(** A relation between the state before a computation, its trace and
    the state after it, that holds of doing nothing and of doing two
    things in turn. *)
Class Invariant {UI : Type} (R : UI -> list (Observation UI) -> UI -> Prop)
  : Prop := {
  inv_nil : forall u, R u [] u;
  inv_app : forall u t1 u1 t2 u2,
    R u t1 u1 -> R u1 t2 u2 -> R u (t1 ++ t2) u2
}.

(** [m] keeps [R] from whatever state it starts in. *)
Definition keeps {UI A : Type} (R : UI -> list (Observation UI) -> UI -> Prop)
    (m : M UI A) : Prop :=
  forall u, R u (trace (m u)) (final (m u)).

(** [m] never completes by [break]. *)
Definition never_breaks {UI A : Type} (m : M UI A) : Prop :=
  forall u, completion (m u) <> Break.

(** A trace that renders, logs and parses, and does nothing else. *)
Definition unmarked {UI : Type} (u : UI) (t : list (Observation UI))
    (u' : UI) : Prop :=
  filter is_visible t = t.

(** [b] extends [a] at its end. *)
Definition extends {A : Type} (a b : list A) : Prop :=
  exists suffix, b = a ++ suffix.

(** Each list of the sequence extends the one before it. *)
Fixpoint only_extended {A : Type} (history : list (list A)) : Prop :=
  match history with
  | a :: (b :: _) as later => extends a b /\ only_extended later
  | _ => True
  end.

(** The accumulator of [runAnalysis] is only ever extended along the
    trace, and ends as it was last rendered. *)
Definition grown (u : RunAnalysis.UI)
    (t : list (Observation RunAnalysis.UI)) (u' : RunAnalysis.UI) : Prop :=
  only_extended
    (RunAnalysis.outputs u :: map RunAnalysis.outputs (rendered t)) /\
  RunAnalysis.outputs u' =
  last (map RunAnalysis.outputs (rendered t)) (RunAnalysis.outputs u).

(** The console lines of a trace are all parse diagnostics. *)
Definition only_parse_errors {UI : Type} (u : UI)
    (t : list (Observation UI)) (u' : UI) : Prop :=
  forall label e, In (label, e) (console t) -> label = str "SSE parse error:".

(** Every leftover buffer marked in a trace is free of the delimiter. *)
Definition leftovers_undelimited {UI : Type} (u : UI)
    (t : list (Observation UI)) (u' : UI) : Prop :=
  Forall (fun b => includes b delimiter = false) (iteration_ends t).

(** The accumulator and the active agent are left as they were. *)
Definition dispatch_untouched (u : RunAnalysis.UI)
    (t : list (Observation RunAnalysis.UI)) (u' : RunAnalysis.UI) : Prop :=
  RunAnalysis.outputs u' = RunAnalysis.outputs u /\
  RunAnalysis.activeAgent u' = RunAnalysis.activeAgent u.

(** The runs with the reads of the loop taken out: the inner loop on the
    lines of each iteration, then the end of the body. *)
Definition runAnalysis_batched (p : RunAnalysis.Page)
    (bs : list (list jsstring)) (ending : Net.Ending)
  : M RunAnalysis.UI unit :=
  RunAnalysis.reset p ;;
  try_finally
    (try_catch
       (run_batches (RunAnalysis.handle_line p) bs ;; finish ending)
       RunAnalysis.on_failure)
    RunAnalysis.cleanup.

Definition handleAnalyze_batched (bs : list (list jsstring))
    (ending : Net.Ending) : M HandleAnalyze.UI unit :=
  HandleAnalyze.setStatus HandleAnalyze.analyzing ;;
  HandleAnalyze.setMessages (fun _ => []) ;;
  HandleAnalyze.setActiveAgent JNull ;;
  HandleAnalyze.setRecommendation None ;;
  HandleAnalyze.setError None ;;
  try_catch
    ((run_batches HandleAnalyze.handle_line bs ;; finish ending) ;;
     HandleAnalyze.setStatus HandleAnalyze.complete ;;
     HandleAnalyze.setActiveAgent JNull)
    HandleAnalyze.on_failure.

(** The state in which [runAnalysis] and [handleAnalyze] enter their
    [try] block. *)
Definition runAnalysis_start (p : RunAnalysis.Page) (u : RunAnalysis.UI)
  : RunAnalysis.UI :=
  final (RunAnalysis.reset p u).

Definition handleAnalyze_start : HandleAnalyze.UI :=
  HandleAnalyze.mkUI HandleAnalyze.analyzing [] JNull None None.

(** A record as the backend frames it: the payload and a blank line. *)
Definition frame (payload : string) : jsstring := json payload ++ delimiter.

(** The pages before any run. *)
Definition idle : RunAnalysis.UI :=
  RunAnalysis.mkUI [] false JNull JNull JNull JNull.

Definition idle_form : HandleAnalyze.UI :=
  HandleAnalyze.mkUI HandleAnalyze.idle [] JNull None None.

(** The messages and the active agent of [handleAnalyze] are left as
    they were. *)
Definition messages_untouched (u : HandleAnalyze.UI)
    (t : list (Observation HandleAnalyze.UI)) (u' : HandleAnalyze.UI)
  : Prop :=
  HandleAnalyze.messages u' = HandleAnalyze.messages u /\
  HandleAnalyze.activeAgent u' = HandleAnalyze.activeAgent u.

(** [m] completes normally or by an exception: no [break] and no
    [continue] leaves it. *)
Definition settles {UI A : Type} (m : M UI A) : Prop :=
  forall u, (exists a, completion (m u) = Normal a) \/
            (exists e, completion (m u) = Throw e).

(** [m] completes normally. *)
Definition resolves {UI A : Type} (m : M UI A) : Prop :=
  forall u, exists a, completion (m u) = Normal a.

(** The text of a stream: its bytes, decoded in one piece. *)
Definition decoded (chunks : list (list Z)) : jsstring :=
  snd (TextDecoder.decode TextDecoder.create (List.concat chunks)).

(** What [runAnalysis] appends to [outputs] for an event it parsed: the
    event passes the [done] and the [error] test and has an agent and a
    content. *)
Definition dispatched (event : JsValue) : list RunAnalysis.AgentOutput :=
  let agent := OptGet event (str "agent") in
  let content := OptGet event (str "content") in
  if negb (truthy (OptGet event (str "done"))) &&
     negb (truthy (OptGet event (str "error"))) &&
     truthy agent && truthy content
  then [RunAnalysis.mkAgentOutput agent content
          (or_undefined (OptGet event (str "thought_type")))]
  else [].

(** Whether [handleAnalyze] appends an event it parsed to [messages]. *)
Definition shown (data : JsValue) : bool :=
  negb (truthy (OptGet data (str "done"))) &&
  negb (truthy (OptGet data (str "error"))) &&
  truthy (OptGet data (str "agent")).

(** Nothing is parsed along the trace. *)
Definition parses_nothing {UI : Type} (u : UI) (t : list (Observation UI))
    (u' : UI) : Prop :=
  parsed t = [].

(** The accumulator grows by what the events parsed along the trace
    dispatch, in their order. *)
Definition outputs_follow (u : RunAnalysis.UI)
    (t : list (Observation RunAnalysis.UI)) (u' : RunAnalysis.UI) : Prop :=
  RunAnalysis.outputs u' =
  RunAnalysis.outputs u ++ flat_map dispatched (parsed t).

Definition messages_follow (u : HandleAnalyze.UI)
    (t : list (Observation HandleAnalyze.UI)) (u' : HandleAnalyze.UI) : Prop :=
  HandleAnalyze.messages u' =
  HandleAnalyze.messages u ++ filter shown (parsed t).

(** The error slot of [handleAnalyze] is left as it was. *)
Definition error_untouched (u : HandleAnalyze.UI)
    (t : list (Observation HandleAnalyze.UI)) (u' : HandleAnalyze.UI) : Prop :=
  HandleAnalyze.error u' = HandleAnalyze.error u.

(** The state is left as it was. *)
Definition state_untouched {UI : Type} (u : UI) (t : list (Observation UI))
    (u' : UI) : Prop :=
  u' = u.

(** The event passes the [done] and the [error] test. *)
Definition goes_on (event : JsValue) : bool :=
  negb (truthy (OptGet event (str "done"))) &&
  negb (truthy (OptGet event (str "error"))).

(** What an event parsed by [runAnalysis] puts in a result slot: the
    forecast and the market data of the market trends page, the threat
    level of the launch detector page. *)
Definition forecast_of (event : JsValue) : list JsValue :=
  let forecast := OptGet (OptGet event (str "metadata")) (str "forecast") in
  if goes_on event && truthy forecast then [forecast] else [].

Definition market_data_of (event : JsValue) : list JsValue :=
  let market_data :=
    OptGet (OptGet event (str "metadata")) (str "market_data") in
  if truthy (OptGet event (str "done")) && truthy market_data
  then [market_data] else [].

Definition threat_level_of (event : JsValue) : list JsValue :=
  let assessment :=
    OptGet (OptGet event (str "metadata")) (str "assessment") in
  let threat_level := OptGet assessment (str "threat_level") in
  if goes_on event && truthy assessment && truthy threat_level
  then [threat_level] else [].

(** The result slots of a page hold what the last event that had
    something for them put there. *)
Definition slots_follow (p : RunAnalysis.Page) (u : RunAnalysis.UI)
    (t : list (Observation RunAnalysis.UI)) (u' : RunAnalysis.UI) : Prop :=
  match p with
  | RunAnalysis.MarketTrends =>
      RunAnalysis.forecast u' =
        last (flat_map forecast_of (parsed t)) (RunAnalysis.forecast u) /\
      RunAnalysis.marketData u' =
        last (flat_map market_data_of (parsed t)) (RunAnalysis.marketData u)
  | RunAnalysis.LaunchDetector =>
      RunAnalysis.threatLevel u' =
        last (flat_map threat_level_of (parsed t)) (RunAnalysis.threatLevel u)
  | RunAnalysis.CrisisDetector => True
  end.

(** The screenshot held is none or a file that [validateFile] lets
    through. *)
Definition valid_screenshot (s : ScreenshotUploader.State) : Prop :=
  forall file,
    ScreenshotUploader.screenshot s = Some file ->
    In (ScreenshotUploader.type file) ScreenshotUploader.ACCEPTED_TYPES /\
    ScreenshotUploader.size file <= 10 * 1024 * 1024.

(** The array [acc[key]] holds, or the empty one. *)
Definition group_of (acc : AgentStream.Groups) (key : jsstring)
  : list AgentStream.AgentMessage :=
  match PlainObject.own acc key with
  | Some arr => arr
  | None => []
  end.

(** The messages of an agent, in the order they came. *)
Definition messages_of (messages : list AgentStream.AgentMessage)
    (key : jsstring) : list AgentStream.AgentMessage :=
  filter (fun msg => JsString.eqb (AgentStream.agent msg) key) messages.

(** No own property of [acc] hides a member of [Object.prototype]. *)
Definition hides_nothing (acc : AgentStream.Groups) : Prop :=
  forall key, PlainObject.own acc key <> None ->
              PlainObject.inherited key = false.

(** [a.length === 0] *)
Definition is_empty {A : Type} (a : list A) : bool :=
  match a with
  | [] => true
  | _ :: _ => false
  end.

(** What a card of [AgentStream] shows of the messages of its agent. *)
Definition card_of (messages : list AgentStream.AgentMessage)
    (activeAgent : option jsstring) (c : AgentStream.Card) : Prop :=
  let mine := messages_of messages (AgentStream.key c) in
  let active := AgentStream.is_active activeAgent (AgentStream.key c) in
  PlainObject.own AgentStream.AGENT_CONFIG (AgentStream.key c)
    = Some (AgentStream.config c) /\
  AgentStream.rows c = map AgentStream.row mine /\
  AgentStream.complete c = existsb AgentStream.is_final mine /\
  AgentStream.processing c = active && negb (AgentStream.complete c) /\
  AgentStream.waiting c = active && is_empty mine.

(** The code units of a string are 16-bit numbers. *)
Definition code_units (s : jsstring) : Prop :=
  Forall (fun c => 0 <= c < 65536) s.

(** A string of UTF-16 in which every surrogate has its partner. *)
Inductive paired : jsstring -> Prop :=
| paired_nil : paired []
| paired_unit (c : Z) (s : jsstring) :
    URI.is_lead c = false -> URI.is_trail c = false -> paired s ->
    paired (c :: s)
| paired_pair (c d : Z) (s : jsstring) :
    URI.is_lead c = true -> URI.is_trail d = true -> paired s ->
    paired (c :: d :: s).

(** The parameters a query string is read as: its parts between
    ampersands, each split at its equals signs. *)
Definition parameters (query : jsstring) : list (list jsstring) :=
  map (fun p => split p (str "=")) (split query (str "&")).

(** A code unit that neither ends a parameter nor its name, nor the
    query. *)
Definition inert (c : Z) : Prop := c <> 38 /\ c <> 61 /\ c <> 35.

Definition inert_string (s : jsstring) : Prop := Forall inert s.

(** What an event parsed by [handleAnalyze] puts in the recommendation
    slot: the event is shown, its agent is the strategist, it is final,
    its [metadata.recommendation] is truthy, and [Number] takes the
    three fields it is given. *)
Definition recommendation_of (data : JsValue)
  : list HandleAnalyze.PricingRecommendation :=
  let rec := OptGet (OptGet data (str "metadata")) (str "recommendation") in
  if shown data &&
     strict_eq_string (OptGet data (str "agent")) (str "strategist") &&
     truthy (OptGet data (str "is_final")) &&
     truthy rec &&
     negb (conversion_throws (OptGet rec (str "recommended_price"))) &&
     negb (conversion_throws (OptGet rec (str "confidence"))) &&
     negb (conversion_throws (OptGet rec (str "price_change_percent")))
  then [HandleAnalyze.Normalised rec]
  else [].

(** The recommendation slot holds what the last event that had
    something for it put there. *)
Definition recommendation_follows (u : HandleAnalyze.UI)
    (t : list (Observation HandleAnalyze.UI)) (u' : HandleAnalyze.UI) : Prop :=
  HandleAnalyze.recommendation u' =
  last (map Some (flat_map recommendation_of (parsed t)))
    (HandleAnalyze.recommendation u).

(* ===================================================================== *)
(** ** Splitting on the record delimiter *)
(* ===================================================================== *)

Lemma split_nil : split [] delimiter = [[]].
Proof. reflexivity. Qed.

Lemma split_one (c : Z) : split [c] delimiter = [[c]].
Proof.
  unfold split, delimiter; simpl.
  rewrite andb_false_r; reflexivity.
Qed.

Lemma split_two (c d : Z) (s : jsstring) :
  split (c :: d :: s) delimiter =
  if (c =? 10) && (d =? 10) then [] :: split s delimiter
  else cons_first c (split (d :: s) delimiter).
Proof.
  unfold split, delimiter.
  cbn [split_from startsWith List.length Nat.pred].
  replace (startsWith s []) with true by (destruct s; reflexivity).
  rewrite andb_true_r.
  reflexivity.
Qed.

Lemma cons_first_not_nil (c : Z) (l : list jsstring) : cons_first c l <> [].
Proof. destruct l; discriminate. Qed.

Lemma split_not_nil (s : jsstring) : split s delimiter <> [].
Proof.
  assert (H : forall n s, (List.length s <= n)%nat -> split s delimiter <> []).
  { induction n as [|n IH]; intros [|c [|d t]] Hl; simpl in Hl;
      try lia; rewrite ?split_nil, ?split_one, ?split_two; try discriminate.
    destruct ((c =? 10) && (d =? 10)); [discriminate|].
    apply cons_first_not_nil. }
  eauto.
Qed.

(** Joining the pieces with the delimiter gives the text back. *)
Lemma join_split (s : jsstring) : join (split s delimiter) delimiter = s.
Proof.
  assert (H : forall n s, (List.length s <= n)%nat ->
                          join (split s delimiter) delimiter = s).
  { induction n as [|n IH]; intros [|c [|d t]] Hl; simpl in Hl;
      try lia; rewrite ?split_nil, ?split_one, ?split_two; try reflexivity.
    destruct ((c =? 10) && (d =? 10)) eqn:E.
    - apply andb_true_iff in E as [Ec Ed].
      apply Z.eqb_eq in Ec, Ed; subst.
      assert (Ht : join (split t delimiter) delimiter = t)
        by (apply IH; lia).
      pose proof (split_not_nil t) as Hn.
      destruct (split t delimiter) as [|x l]; [contradiction|].
      change (join ([] :: x :: l) delimiter)
        with ([] ++ delimiter ++ join (x :: l) delimiter).
      rewrite Ht; reflexivity.
    - assert (Ht : join (split (d :: t) delimiter) delimiter = d :: t)
        by (apply IH; simpl; lia).
      pose proof (split_not_nil (d :: t)) as Hn.
      destruct (split (d :: t) delimiter) as [|x [|y l]];
        [contradiction| |].
      + simpl in *; congruence.
      + change (join (cons_first c (x :: y :: l)) delimiter)
          with (c :: (x ++ delimiter ++ join (y :: l) delimiter)).
        change (join (x :: y :: l) delimiter)
          with (x ++ delimiter ++ join (y :: l) delimiter) in Ht.
        rewrite Ht; reflexivity. }
  eauto.
Qed.

Lemma split_single (s x : jsstring) : split s delimiter = [x] -> x = s.
Proof.
  intros H. rewrite <- (join_split s), H. reflexivity.
Qed.

(** Splitting is incremental: the pieces completed by a prefix stand, and
    only its last fragment is split again with what follows. *)
Lemma split_app (t1 t2 : jsstring) :
  split (t1 ++ t2) delimiter =
  removelast (split t1 delimiter) ++
  split (last (split t1 delimiter) [] ++ t2) delimiter.
Proof.
  assert (H : forall n t1, (List.length t1 <= n)%nat ->
            split (t1 ++ t2) delimiter =
            removelast (split t1 delimiter) ++
            split (last (split t1 delimiter) [] ++ t2) delimiter).
  { clear t1. induction n as [|n IH]; intros [|c [|d t]] Hl; simpl in Hl;
      try lia; rewrite ?split_nil, ?split_one; try reflexivity.
    change ((c :: d :: t) ++ t2) with (c :: d :: (t ++ t2)).
    rewrite !split_two.
    destruct ((c =? 10) && (d =? 10)) eqn:E.
    - rewrite (IH t) by lia.
      pose proof (split_not_nil t) as Hn.
      destruct (split t delimiter) as [|x l]; [contradiction|].
      reflexivity.
    - change (d :: t ++ t2) with ((d :: t) ++ t2).
      rewrite (IH (d :: t)) by (simpl; lia).
      pose proof (split_not_nil (d :: t)) as Hn.
      destruct (split (d :: t) delimiter) as [|x [|y l]] eqn:Ex;
        [contradiction| |].
      + apply split_single in Ex; subst x.
        cbn [removelast last cons_first app].
        rewrite split_two, E. reflexivity.
      + reflexivity. }
  eauto.
Qed.

(** The last piece of a split holds no delimiter. *)
Lemma last_split_no_delimiter (s : jsstring) :
  includes (last (split s delimiter) []) delimiter = false.
Proof.
  assert (H : forall n s, (List.length s <= n)%nat ->
            includes (last (split s delimiter) []) delimiter = false).
  { clear s. induction n as [|n IH]; intros [|c [|d t]] Hl; simpl in Hl;
      try lia; rewrite ?split_nil, ?split_one.
    - reflexivity.
    - reflexivity.
    - unfold delimiter; simpl. rewrite andb_false_r. reflexivity.
    - rewrite split_two.
      destruct ((c =? 10) && (d =? 10)) eqn:E.
      + pose proof (split_not_nil t) as Hn.
        specialize (IH t ltac:(lia)).
        destruct (split t delimiter) as [|x l]; [contradiction|].
        exact IH.
      + pose proof (split_not_nil (d :: t)) as Hn.
        specialize (IH (d :: t) ltac:(simpl; lia)).
        destruct (split (d :: t) delimiter) as [|x [|y l]] eqn:Ex;
          [contradiction| |].
        * apply split_single in Ex; subst x.
          cbn [last cons_first] in *.
          change (includes (c :: d :: t) delimiter)
            with (startsWith (c :: d :: t) delimiter
                  || includes (d :: t) delimiter).
          rewrite IH, orb_false_r.
          unfold delimiter; cbn [startsWith].
          replace (startsWith t []) with true by (destruct t; reflexivity).
          rewrite andb_true_r. exact E.
        * exact IH. }
  eauto.
Qed.

Lemma pop_split (s : jsstring) :
  pop (split s delimiter) =
  (Some (last (split s delimiter) []), removelast (split s delimiter)).
Proof.
  pose proof (split_not_nil s) as Hn.
  destruct (split s delimiter) as [|x l]; [contradiction|].
  unfold pop. f_equal. f_equal.
  clear. revert x. induction l as [|y l IH]; intros x; [reflexivity|].
  cbn [last]. destruct l; [reflexivity|]. apply IH.
Qed.

Lemma or_empty_Some (s : jsstring) : or_empty (Some s) = s.
Proof. destruct s; reflexivity. Qed.

(* ===================================================================== *)
(** ** Decoding in pieces *)
(* ===================================================================== *)

Lemma run_app (d : TextDecoder.utf8) (b1 b2 : list Z) :
  TextDecoder.run d (b1 ++ b2) =
  let (d1, o1) := TextDecoder.run d b1 in
  let (d2, o2) := TextDecoder.run d1 b2 in
  (d2, o1 ++ o2).
Proof.
  revert d. induction b1 as [|b b1 IH]; intros d; simpl.
  - destruct (TextDecoder.run d b2); reflexivity.
  - destruct (TextDecoder.handler d b) as [d1 o1].
    rewrite IH.
    destruct (TextDecoder.run d1 b1) as [d2 o2].
    destruct (TextDecoder.run d2 b2) as [d3 o3].
    rewrite app_assoc. reflexivity.
Qed.

Lemma serialize_app (f : bool) (i1 i2 : list Z) :
  TextDecoder.serialize f (i1 ++ i2) =
  let (f1, o1) := TextDecoder.serialize f i1 in
  let (f2, o2) := TextDecoder.serialize f1 i2 in
  (f2, o1 ++ o2).
Proof.
  revert f. induction i1 as [|i i1 IH]; intros f; simpl.
  - destruct (TextDecoder.serialize f i2); reflexivity.
  - destruct f.
    + rewrite IH.
      destruct (TextDecoder.serialize true i1) as [f1 o1].
      destruct (TextDecoder.serialize f1 i2) as [f2 o2].
      rewrite app_assoc. reflexivity.
    + destruct (i =? 65279).
      * apply IH.
      * rewrite IH.
        destruct (TextDecoder.serialize true i1) as [f1 o1].
        destruct (TextDecoder.serialize f1 i2) as [f2 o2].
        rewrite app_assoc. reflexivity.
Qed.

(** Decoding a chunk in two calls gives the text of decoding it in one. *)
Lemma decode_app (td : TextDecoder.t) (b1 b2 : list Z) :
  TextDecoder.decode td (b1 ++ b2) =
  let (td1, o1) := TextDecoder.decode td b1 in
  let (td2, o2) := TextDecoder.decode td1 b2 in
  (td2, o1 ++ o2).
Proof.
  unfold TextDecoder.decode.
  rewrite run_app.
  destruct (TextDecoder.run (TextDecoder.decoder td) b1) as [d1 i1].
  destruct (TextDecoder.serialize (TextDecoder.BOM_seen td) i1)
    as [f1 o1] eqn:E1.
  cbn [TextDecoder.decoder TextDecoder.BOM_seen].
  destruct (TextDecoder.run d1 b2) as [d2 i2].
  rewrite serialize_app, E1.
  destruct (TextDecoder.serialize f1 i2) as [f2 o2].
  reflexivity.
Qed.

Lemma decode_nil (td : TextDecoder.t) : TextDecoder.decode td [] = (td, []).
Proof. destruct td; reflexivity. Qed.

(* ===================================================================== *)
(** ** The records of a stream do not depend on its chunking *)
(* ===================================================================== *)

Lemma consume_eq (td : TextDecoder.t) (buffer : jsstring) (value : list Z) :
  consume td buffer value =
  let (td', text) := TextDecoder.decode td value in
  (td',
   last (split (buffer ++ text) delimiter) [],
   removelast (split (buffer ++ text) delimiter)).
Proof.
  unfold consume.
  destruct (TextDecoder.decode td value) as [td' text].
  rewrite pop_split, or_empty_Some. reflexivity.
Qed.

(** A text without the delimiter is a single piece. *)
Lemma split_no_delimiter (s : jsstring) :
  includes s delimiter = false -> split s delimiter = [s].
Proof.
  assert (H : forall n s, (List.length s <= n)%nat ->
            includes s delimiter = false -> split s delimiter = [s]).
  { clear s. induction n as [|n IH]; intros [|c [|d t]] Hl Hi; simpl in Hl;
      try lia; rewrite ?split_nil, ?split_one; try reflexivity.
    change (includes (c :: d :: t) delimiter)
      with (startsWith (c :: d :: t) delimiter
            || includes (d :: t) delimiter) in Hi.
    apply orb_false_iff in Hi as [Hs Hi].
    rewrite split_two.
    unfold delimiter in Hs; cbn [startsWith] in Hs.
    replace (startsWith t []) with true in Hs by (destruct t; reflexivity).
    rewrite andb_true_r in Hs. rewrite Hs.
    rewrite (IH (d :: t)) by (simpl; lia || exact Hi).
    reflexivity. }
  eauto.
Qed.

(** The batches of a chunked stream, laid end to end, are the pieces the
    whole text splits into, its last fragment left out. *)
Lemma batches_concat (chunks : list (list Z)) :
  forall (td : TextDecoder.t) (buffer : jsstring),
    includes buffer delimiter = false ->
    List.concat (batches td buffer chunks) =
    removelast
      (split (buffer ++ snd (TextDecoder.decode td (List.concat chunks)))
         delimiter).
Proof.
  induction chunks as [|value rest IH]; intros td buffer Hb.
  - cbn [batches List.concat].
    rewrite decode_nil. cbn [snd]. rewrite app_nil_r.
    rewrite split_no_delimiter by exact Hb. reflexivity.
  - cbn [batches List.concat].
    rewrite consume_eq, decode_app.
    destruct (TextDecoder.decode td value) as [td1 o1].
    specialize (IH td1 (last (split (buffer ++ o1) delimiter) [])
                  (last_split_no_delimiter _)).
    destruct (TextDecoder.decode td1 (List.concat rest)) as [td2 o2].
    cbn [snd] in *. cbn [List.concat].
    rewrite IH, app_assoc, (split_app (buffer ++ o1) o2).
    rewrite removelast_app by apply split_not_nil.
    reflexivity.
Qed.

(** The complete records of a stream are those of its bytes delivered as
    one chunk. *)
Lemma records_one_chunk (chunks : list (list Z)) :
  records chunks = records [List.concat chunks].
Proof.
  unfold records.
  rewrite !batches_concat by reflexivity.
  cbn [List.concat]. rewrite app_nil_r. reflexivity.
Qed.

(* ===================================================================== *)
(** ** Runs compared *)
(* ===================================================================== *)

Section RunLemmas.

Context {UI : Type}.
Implicit Types (keep : Observation UI -> bool).

Lemma after_nil {A} (r : Result UI A) : after [] r = r.
Proof. destruct r; reflexivity. Qed.

Lemma after_after {A} (t1 t2 : list (Observation UI)) (r : Result UI A) :
  after t1 (after t2 r) = after (t1 ++ t2) r.
Proof. unfold after; simpl. rewrite app_assoc. reflexivity. Qed.

Lemma same_upto_refl {A} keep (r : Result UI A) : same_upto keep r r.
Proof. repeat split. Qed.

Lemma same_upto_sym {A} keep (r1 r2 : Result UI A) :
  same_upto keep r1 r2 -> same_upto keep r2 r1.
Proof. intros (H1 & H2 & H3). repeat split; congruence. Qed.

Lemma same_upto_trans {A} keep (r1 r2 r3 : Result UI A) :
  same_upto keep r1 r2 -> same_upto keep r2 r3 -> same_upto keep r1 r3.
Proof.
  intros (H1 & H2 & H3) (K1 & K2 & K3). repeat split; congruence.
Qed.

Lemma same_upto_after {A} keep (t1 t2 : list (Observation UI))
    (r1 r2 : Result UI A) :
  filter keep t1 = filter keep t2 ->
  same_upto keep r1 r2 ->
  same_upto keep (after t1 r1) (after t2 r2).
Proof.
  intros Ht (H1 & H2 & H3). unfold same_upto, after; simpl.
  rewrite !filter_app, Ht, H3. auto.
Qed.

Lemma bind_same {A B} keep (m1 m2 : M UI A) (k1 k2 : A -> M UI B) (u : UI) :
  same_upto keep (m1 u) (m2 u) ->
  (forall a u', same_upto keep (k1 a u') (k2 a u')) ->
  same_upto keep (bind m1 k1 u) (bind m2 k2 u).
Proof.
  intros (H1 & H2 & H3) Hk. unfold bind.
  rewrite <- H1, <- H2.
  destruct (completion (m1 u)).
  - apply same_upto_after; [exact H3 | apply Hk].
  - repeat split; assumption.
  - repeat split; assumption.
  - repeat split; assumption.
Qed.

Lemma try_catch_same {A} keep (m1 m2 : M UI A)
    (h : Exception.t -> M UI A) (u : UI) :
  same_upto keep (m1 u) (m2 u) ->
  same_upto keep (try_catch m1 h u) (try_catch m2 h u).
Proof.
  intros H. pose proof H as (H1 & H2 & H3). unfold try_catch.
  rewrite <- H1, <- H2.
  destruct (completion (m1 u)); try exact H.
  apply same_upto_after; [exact H3 | apply same_upto_refl].
Qed.

Lemma try_finally_same {A} keep (m1 m2 : M UI A) (c : M UI unit) (u : UI) :
  same_upto keep (m1 u) (m2 u) ->
  same_upto keep (try_finally m1 c u) (try_finally m2 c u).
Proof.
  intros (H1 & H2 & H3). unfold try_finally, same_upto; simpl.
  rewrite <- H1, <- H2, !filter_app, H3. auto.
Qed.

(** The inner loop ends normally or by an exception. *)
Lemma for_of_completion (h : jsstring -> M UI unit) (l : list jsstring) :
  forall u,
    completion (for_of l h u) = Normal tt \/
    exists e, completion (for_of l h u) = Throw e.
Proof.
  induction l as [|x l IH]; intros u; [left; reflexivity|].
  cbn [for_of].
  destruct (completion (h x u)) as [[]| | |e]; simpl; eauto.
Qed.

Lemma bind_assoc {A B C} (m : M UI A) (k : A -> M UI B)
    (k' : B -> M UI C) (u : UI) :
  bind (bind m k) k' u = bind m (fun a => bind (k a) k') u.
Proof.
  unfold bind. destruct (m u) as [c u1 t]; simpl.
  destruct c; simpl; try reflexivity.
  destruct (k a u1) as [c2 u2 t2]; simpl.
  destruct c2; simpl; try reflexivity.
  unfold after; simpl. rewrite app_assoc. reflexivity.
Qed.

Lemma bind_ext {A B} (m : M UI A) (k1 k2 : A -> M UI B) (u : UI) :
  (forall a u', k1 a u' = k2 a u') -> bind m k1 u = bind m k2 u.
Proof.
  intros H. unfold bind. destruct (completion (m u)); try reflexivity.
  rewrite H. reflexivity.
Qed.

Lemma bind_eq_normal {A B} (m : M UI A) (k : A -> M UI B) (u u1 : UI)
    (a : A) (t : list (Observation UI)) :
  m u = mkResult (Normal a) u1 t -> bind m k u = after t (k a u1).
Proof. intros H. unfold bind. rewrite H. reflexivity. Qed.

Lemma bind_eq_throw {A B} (m : M UI A) (k : A -> M UI B) (u u1 : UI)
    (e : Exception.t) (t : list (Observation UI)) :
  m u = mkResult (Throw e) u1 t -> bind m k u = mkResult (Throw e) u1 t.
Proof. intros H. unfold bind. rewrite H. reflexivity. Qed.

Lemma try_catch_eq_throw {A} (m : M UI A) (h : Exception.t -> M UI A)
    (u u1 : UI) (e : Exception.t) (t : list (Observation UI)) :
  m u = mkResult (Throw e) u1 t -> try_catch m h u = after t (h e u1).
Proof. intros H. unfold try_catch. rewrite H. reflexivity. Qed.

Lemma try_finally_eq {A} (m : M UI A) (c : M UI unit) (u u1 u2 : UI)
    (r : Completion A) (t t2 : list (Observation UI)) :
  m u = mkResult r u1 t ->
  c u1 = mkResult (Normal tt) u2 t2 ->
  try_finally m c u = mkResult r u2 (t ++ t2).
Proof. intros H1 H2. unfold try_finally. rewrite H1; simpl. rewrite H2.
       reflexivity. Qed.

Lemma bind_observe {B} (o : Observation UI) (k : unit -> M UI B) (u : UI) :
  bind (observe o) k u = after [o] (k tt u).
Proof. reflexivity. Qed.

Lemma bind_ret {A B} (a : A) (k : A -> M UI B) (u : UI) :
  bind (ret a) k u = k a u.
Proof. unfold bind, ret; simpl. apply after_nil. Qed.

Lemma bind_throw {A B} (e : Exception.t) (k : A -> M UI B) (u : UI) :
  bind (throw e) k u = throw e u.
Proof. reflexivity. Qed.

Lemma same_upto_drop {A} keep (t : list (Observation UI))
    (r1 r2 : Result UI A) :
  filter keep t = [] ->
  same_upto keep r1 r2 ->
  same_upto keep (after t r1) r2.
Proof.
  intros Ht H. rewrite <- (after_nil r2).
  apply same_upto_after; [exact Ht | exact H].
Qed.

(** Each turn of the read loop is a [read()] of the reader: its value is
    consumed, its end ends the loop, its rejection is thrown. *)
Lemma read_loop_reads (h : jsstring -> M UI unit) (ending : Net.Ending)
    (queue : list (list Z)) (td : TextDecoder.t) (buffer : jsstring) :
  read_loop h queue ending td buffer =
  match Net.read (Net.mkReader queue ending Net.Readable true) with
  | (Net.Value value, reader) =>
      observe (Reader_state reader) ;;
      let '(td', buffer', lines) := consume td buffer value in
      for_of lines h ;;
      observe (Iteration_end buffer') ;;
      read_loop h (Net.pending reader) ending td' buffer'
  | (Net.Done, reader) => observe (Reader_state reader)
  | (Net.Rejected e, reader) => observe (Reader_state reader) ;; throw e
  end.
Proof. destruct queue, ending; reflexivity. Qed.

(** The read loop, seen through what it renders, logs and parses, is
    the inner loop run batch after batch, then the end of the body. *)
Lemma read_loop_batches (h : jsstring -> M UI unit)
    (ending : Net.Ending) (queue : list (list Z)) :
  forall td buffer u,
    same_upto is_visible
      (read_loop h queue ending td buffer u)
      ((run_batches h (batches td buffer queue) ;; finish ending) u).
Proof.
  induction queue as [|value rest IH]; intros td buffer u.
  - cbn [read_loop batches run_batches].
    destruct ending; repeat split.
  - cbn [read_loop batches].
    destruct (consume td buffer value) as [[td' buffer'] lines].
    cbn [run_batches].
    rewrite bind_observe, bind_assoc.
    apply same_upto_drop; [reflexivity|].
    apply bind_same; [apply same_upto_refl|].
    intros [] u'. rewrite bind_observe.
    apply same_upto_drop; [reflexivity|]. apply IH.
Qed.

(** Lines that never break out may be handled in one loop or in two. *)
Lemma for_of_app (h : jsstring -> M UI unit) (l1 l2 : list jsstring) :
  (forall x u, In x l1 -> completion (h x u) <> Break) ->
  forall u, for_of (l1 ++ l2) h u = (for_of l1 h ;; for_of l2 h) u.
Proof.
  induction l1 as [|x l1 IH]; intros Hb u.
  - cbn [app for_of]. rewrite bind_ret. reflexivity.
  - cbn [app for_of]. unfold bind at 1. cbn [for_of].
    pose proof (Hb x u (or_introl eq_refl)) as Hx.
    assert (IH' : forall u', for_of (l1 ++ l2) h u' =
                             (for_of l1 h ;; for_of l2 h) u').
    { apply IH. intros y u' Hy. apply Hb. right. exact Hy. }
    destruct (h x u) as [c u1 t]; simpl in *.
    destruct c as [[]| | |e]; simpl; try reflexivity; try contradiction.
    + rewrite IH'. unfold bind.
      destruct (for_of l1 h u1) as [c' u2 t']; simpl.
      destruct c'; simpl; try reflexivity.
      rewrite after_after. reflexivity.
    + rewrite IH'. unfold bind.
      destruct (for_of l1 h u1) as [c' u2 t']; simpl.
      destruct c'; simpl; try reflexivity.
      rewrite after_after. reflexivity.
Qed.

Lemma run_batches_nil (h : jsstring -> M UI unit)
    (bs : list (list jsstring)) :
  List.concat bs = [] -> forall u, run_batches h bs u = ret tt u.
Proof.
  induction bs as [|b bs IH]; intros Hc u; [reflexivity|].
  cbn [List.concat] in Hc. apply app_eq_nil in Hc as [-> Hc].
  cbn [run_batches for_of]. rewrite bind_ret. apply IH, Hc.
Qed.

Lemma bind_ret_r (m : M UI unit) (u : UI) :
  (forall u', completion (m u') = Normal tt \/
              exists e, completion (m u') = Throw e) ->
  bind m (fun _ => ret tt) u = m u.
Proof.
  intros H. unfold bind. specialize (H u).
  destruct (m u) as [c u1 t]; simpl in *.
  destruct H as [-> | [e ->]]; [|reflexivity].
  unfold after, ret; simpl. rewrite app_nil_r. reflexivity.
Qed.

(** When only the last record of a stream may break out of the inner
    loop, the batches may as well be handled as one. *)
Lemma run_batches_concat (h : jsstring -> M UI unit)
    (bs : list (list jsstring)) :
  (forall x u, In x (removelast (List.concat bs)) ->
               completion (h x u) <> Break) ->
  forall u, run_batches h bs u = for_of (List.concat bs) h u.
Proof.
  induction bs as [|b bs IH]; intros Hb u; [reflexivity|].
  cbn [run_batches List.concat] in *.
  destruct (List.concat bs) as [|y l] eqn:E.
  - rewrite app_nil_r.
    transitivity (bind (for_of b h) (fun _ => ret tt) u).
    + unfold bind. destruct (completion (for_of b h u)); try reflexivity.
      f_equal. apply run_batches_nil, E.
    + apply bind_ret_r. apply for_of_completion.
  - rewrite removelast_app in Hb by discriminate.
    rewrite for_of_app
      by (intros x u' Hx; apply Hb, in_or_app; left; exact Hx).
    unfold bind. destruct (completion (for_of b h u)); try reflexivity.
    f_equal. apply IH.
    intros x u' Hx. apply Hb, in_or_app. right. exact Hx.
Qed.

End RunLemmas.

(* ===================================================================== *)
(** ** Invariants kept by the control operators *)
(* ===================================================================== *)

Section Keeping.

Context {UI : Type} (R : UI -> list (Observation UI) -> UI -> Prop)
        `{!Invariant R}.

Lemma keeps_ret {A} (a : A) : keeps R (ret a).
Proof. intros u. apply inv_nil. Qed.

Lemma keeps_throw {A} (e : Exception.t) : keeps R (@throw UI A e).
Proof. intros u. apply inv_nil. Qed.

Lemma keeps_break {A} : keeps R (@break UI A).
Proof. intros u. apply inv_nil. Qed.

Lemma keeps_continue {A} : keeps R (@continue UI A).
Proof. intros u. apply inv_nil. Qed.

Lemma keeps_bind {A B} (m : M UI A) (k : A -> M UI B) :
  keeps R m -> (forall a, keeps R (k a)) -> keeps R (bind m k).
Proof.
  intros Hm Hk u. unfold bind. specialize (Hm u).
  destruct (m u) as [c u1 t]; simpl in *.
  destruct c; simpl; try exact Hm.
  eapply inv_app; [exact Hm | apply Hk].
Qed.

Lemma keeps_try_catch {A} (m : M UI A) (h : Exception.t -> M UI A) :
  keeps R m -> (forall e, keeps R (h e)) -> keeps R (try_catch m h).
Proof.
  intros Hm Hh u. unfold try_catch. specialize (Hm u).
  destruct (m u) as [c u1 t]; simpl in *.
  destruct c; simpl; try exact Hm.
  eapply inv_app; [exact Hm | apply Hh].
Qed.

Lemma keeps_try_finally {A} (m : M UI A) (c : M UI unit) :
  keeps R m -> keeps R c -> keeps R (try_finally m c).
Proof.
  intros Hm Hc u. unfold try_finally; simpl.
  eapply inv_app; [apply Hm | apply Hc].
Qed.

Lemma keeps_when (c : bool) (m : M UI unit) :
  keeps R m -> keeps R (when c m).
Proof. intros Hm. destruct c; [exact Hm | apply keeps_ret]. Qed.

Lemma keeps_for_of (l : list jsstring) (h : jsstring -> M UI unit) :
  (forall x, keeps R (h x)) -> keeps R (for_of l h).
Proof.
  intros Hh. induction l as [|x l IH]; intros u; [apply inv_nil|].
  cbn [for_of]. pose proof (Hh x u) as Hx.
  destruct (h x u) as [c u1 t]; simpl in *.
  destruct c; simpl; try exact Hx;
    (eapply inv_app; [exact Hx | apply IH]).
Qed.

Lemma keeps_get (v : JsValue) (key : string) : keeps R (get v key).
Proof.
  unfold get. destruct (Get v (str key)); [apply keeps_ret|apply keeps_throw].
Qed.

Lemma keeps_and_then (a : JsValue) (b : M UI JsValue) :
  keeps R b -> keeps R (and_then a b).
Proof.
  intros Hb. unfold and_then. destruct (truthy a); [exact Hb|apply keeps_ret].
Qed.

Lemma keeps_await_fetch (f : Net.Fetch) : keeps R (await_fetch f).
Proof. destruct f; [apply keeps_throw | apply keeps_ret]. Qed.

Lemma keeps_finish (e : Net.Ending) : keeps R (finish e).
Proof. destruct e; [apply keeps_ret | apply keeps_throw]. Qed.

Lemma keeps_run_batches (h : jsstring -> M UI unit)
    (bs : list (list jsstring)) :
  (forall x, keeps R (h x)) -> keeps R (run_batches h bs).
Proof.
  intros Hh. induction bs as [|b bs IH]; [apply keeps_ret|].
  cbn [run_batches].
  apply keeps_bind; [apply keeps_for_of, Hh | intros _; exact IH].
Qed.

End Keeping.

Section NeverBreaking.

Context {UI : Type}.

Lemma never_breaks_ret {A} (a : A) : never_breaks (@ret UI A a).
Proof. intros u; discriminate. Qed.

Lemma never_breaks_throw {A} (e : Exception.t) :
  never_breaks (@throw UI A e).
Proof. intros u; discriminate. Qed.

Lemma never_breaks_continue {A} : never_breaks (@continue UI A).
Proof. intros u; discriminate. Qed.

Lemma never_breaks_set (f : UI -> UI) : never_breaks (set f).
Proof. intros u; discriminate. Qed.

Lemma never_breaks_observe (o : Observation UI) : never_breaks (observe o).
Proof. intros u; discriminate. Qed.

Lemma never_breaks_bind {A B} (m : M UI A) (k : A -> M UI B) :
  never_breaks m -> (forall a, never_breaks (k a)) ->
  never_breaks (bind m k).
Proof.
  intros Hm Hk u. unfold bind. specialize (Hm u).
  destruct (completion (m u)); simpl; try discriminate;
    try (exfalso; apply Hm; reflexivity).
  apply Hk.
Qed.

Lemma never_breaks_try_catch {A} (m : M UI A) (h : Exception.t -> M UI A) :
  never_breaks m -> (forall e, never_breaks (h e)) ->
  never_breaks (try_catch m h).
Proof.
  intros Hm Hh u. unfold try_catch. specialize (Hm u).
  destruct (completion (m u)) eqn:E; simpl; rewrite ?E;
    try discriminate; try exact Hm.
  apply Hh.
Qed.

Lemma never_breaks_when (c : bool) (m : M UI unit) :
  never_breaks m -> never_breaks (when c m).
Proof. intros Hm. destruct c; [exact Hm | apply never_breaks_ret]. Qed.

Lemma never_breaks_get (v : JsValue) (key : string) :
  never_breaks (@get UI v key).
Proof.
  unfold get. destruct (Get v (str key));
    [apply never_breaks_ret | apply never_breaks_throw].
Qed.

Lemma never_breaks_and_then (a : JsValue) (b : M UI JsValue) :
  never_breaks b -> never_breaks (and_then a b).
Proof.
  intros Hb. unfold and_then.
  destruct (truthy a); [exact Hb | apply never_breaks_ret].
Qed.

Lemma never_breaks_JSON_parse (text : jsstring) :
  never_breaks (@JSON_parse UI text).
Proof.
  unfold JSON_parse. destruct (JSON.parse text).
  - apply never_breaks_bind;
      [apply never_breaks_observe | intros; apply never_breaks_ret].
  - apply never_breaks_throw.
Qed.

Lemma never_breaks_swallow (e : Exception.t) :
  never_breaks (@swallow_SyntaxError UI e).
Proof.
  unfold swallow_SyntaxError, console_error.
  destruct (Exception.instanceof_SyntaxError e);
    [apply never_breaks_observe | apply never_breaks_throw].
Qed.

End NeverBreaking.

Ltac never_breaks_step :=
  match goal with
  | |- never_breaks (bind _ _) => apply never_breaks_bind; [|intros]
  | |- never_breaks (try_catch _ _) => apply never_breaks_try_catch; [|intros]
  | |- never_breaks (when _ _) => apply never_breaks_when
  | |- never_breaks (and_then _ _) => apply never_breaks_and_then
  | |- never_breaks (ret _) => apply never_breaks_ret
  | |- never_breaks (throw _) => apply never_breaks_throw
  | |- never_breaks continue => apply never_breaks_continue
  | |- never_breaks (set _) => apply never_breaks_set
  | |- never_breaks (observe _) => apply never_breaks_observe
  | |- never_breaks (get _ _) => apply never_breaks_get
  | |- never_breaks (JSON_parse _) => apply never_breaks_JSON_parse
  | |- never_breaks (swallow_SyntaxError _) => apply never_breaks_swallow
  | |- never_breaks (if ?c then _ else _) => destruct c
  | |- never_breaks (match ?p with
                     | RunAnalysis.MarketTrends => _
                     | RunAnalysis.LaunchDetector => _
                     | RunAnalysis.CrisisDetector => _
                     end) => destruct p
  end.

(** [handleAnalyze] has no [break]. *)
Lemma handleAnalyze_never_breaks (line : jsstring) :
  never_breaks (HandleAnalyze.handle_line line).
Proof.
  unfold HandleAnalyze.handle_line, HandleAnalyze.handle_data,
    HandleAnalyze.setStatus, HandleAnalyze.setActiveAgent,
    HandleAnalyze.setMessages, HandleAnalyze.setRecommendation,
    HandleAnalyze.Number.
  repeat never_breaks_step.
Qed.

Lemma runAnalysis_event_never_breaks (p : RunAnalysis.Page) (event : JsValue) :
  match Get event (str "done") with
  | Some done => truthy done
  | None => false
  end = false ->
  never_breaks (RunAnalysis.handle_event p event).
Proof.
  intros Hd u. unfold RunAnalysis.handle_event.
  unfold get at 1.
  destruct (Get event (str "done")) as [d|].
  - rewrite bind_ret, Hd. cbn [when]. rewrite bind_ret.
    revert u.
    change (never_breaks
      (error <- get event "error" ;;
       when (truthy error)
         (error <- get event "error" ;; throw (Exception.new_Error error)) ;;
       agent <- get event "agent" ;;
       both <- and_then agent (get event "content") ;;
       when (truthy both)
         (agent <- get event "agent" ;;
          RunAnalysis.setActiveAgent agent ;;
          agent <- get event "agent" ;;
          content <- get event "content" ;;
          thought_type <- get event "thought_type" ;;
          RunAnalysis.setOutputs (fun prev =>
            prev ++ [RunAnalysis.mkAgentOutput agent content
                       (or_undefined thought_type)])) ;;
       RunAnalysis.on_metadata p event)).
    unfold RunAnalysis.on_metadata, RunAnalysis.setActiveAgent,
      RunAnalysis.setOutputs, RunAnalysis.setForecast,
      RunAnalysis.setThreatLevel.
    repeat never_breaks_step.
  - rewrite bind_throw. discriminate.
Qed.

(** In [runAnalysis] only a record whose event has a truthy [done]
    breaks out of the inner loop. *)
Lemma runAnalysis_breaks_on_done_only (p : RunAnalysis.Page)
    (line : jsstring) :
  is_done_record line = false ->
  never_breaks (RunAnalysis.handle_line p line).
Proof.
  unfold is_done_record, RunAnalysis.handle_line. intros Hd.
  destruct (startsWith line data_prefix); cbn [negb andb] in *.
  - unfold JSON_parse.
    destruct (JSON.parse (slice line 6)) as [event|].
    + apply never_breaks_try_catch; [|intros; apply never_breaks_swallow].
      intros u. rewrite bind_assoc, bind_observe, bind_ret.
      apply (runAnalysis_event_never_breaks p event Hd).
    + intros u. unfold try_catch. rewrite bind_throw. discriminate.
  - apply never_breaks_continue.
Qed.

(* ===================================================================== *)
(** ** Chunk boundaries *)
(* ===================================================================== *)

(** When only the last record of the stream may break out of the inner
    loop, the read loop handles the records of the stream as one loop
    would, whatever the chunks. *)
Lemma read_loop_records {UI : Type} (h : jsstring -> M UI unit)
    (chunks : list (list Z)) (ending : Net.Ending) (u : UI) :
  (forall x, In x (removelast (records chunks)) -> never_breaks (h x)) ->
  same_upto is_visible
    (read_loop h chunks ending TextDecoder.create [] u)
    ((for_of (records chunks) h ;; finish ending) u).
Proof.
  intros Hb.
  eapply same_upto_trans; [apply read_loop_batches|].
  apply bind_same; [|intros; apply same_upto_refl].
  rewrite run_batches_concat; [apply same_upto_refl|].
  intros x u' Hx. apply Hb, Hx.
Qed.

Lemma read_loop_one_chunk {UI : Type} (h : jsstring -> M UI unit)
    (chunks : list (list Z)) (ending : Net.Ending) (u : UI) :
  (forall x, In x (removelast (records chunks)) -> never_breaks (h x)) ->
  same_upto is_visible
    (read_loop h chunks ending TextDecoder.create [] u)
    (read_loop h [List.concat chunks] ending TextDecoder.create [] u).
Proof.
  intros Hb.
  eapply same_upto_trans; [apply read_loop_records, Hb|].
  apply same_upto_sym.
  rewrite (records_one_chunk chunks) in *.
  apply read_loop_records, Hb.
Qed.

Lemma handleAnalyze_one_chunk (filled ok : bool) (statusText : jsstring)
    (chunks : list (list Z)) (ending : Net.Ending) (u : HandleAnalyze.UI) :
  same_upto is_visible
    (HandleAnalyze.run filled (streaming ok statusText chunks ending) u)
    (HandleAnalyze.run filled
       (streaming ok statusText [List.concat chunks] ending) u).
Proof.
  unfold HandleAnalyze.run, HandleAnalyze.handleAnalyze.
  destruct filled; cbn [negb]; [|apply same_upto_refl].
  repeat (apply bind_same; [apply same_upto_refl | intros _ ?]).
  apply try_catch_same.
  unfold HandleAnalyze.stream, streaming, await_fetch.
  rewrite !bind_ret. cbn [Net.ok Net.statusText Net.body].
  apply bind_same; [apply same_upto_refl | intros _ ?].
  rewrite !bind_observe.
  apply same_upto_after; [reflexivity|].
  apply bind_same; [|intros; apply same_upto_refl].
  apply read_loop_one_chunk.
  intros x _. apply handleAnalyze_never_breaks.
Qed.

Lemma runAnalysis_one_chunk (p : RunAnalysis.Page) (ok : bool)
    (statusText : jsstring) (chunks : list (list Z)) (ending : Net.Ending)
    (u : RunAnalysis.UI) :
  Forall (fun line => is_done_record line = false)
    (removelast (records chunks)) ->
  same_upto is_visible
    (RunAnalysis.run p (streaming ok statusText chunks ending) u)
    (RunAnalysis.run p (streaming ok statusText [List.concat chunks] ending) u).
Proof.
  intros Hd.
  unfold RunAnalysis.run, RunAnalysis.runAnalysis.
  apply bind_same; [apply same_upto_refl | intros _ ?].
  apply try_finally_same, try_catch_same.
  unfold RunAnalysis.stream, streaming, await_fetch.
  rewrite !bind_ret. cbn [Net.body].
  rewrite !bind_observe.
  apply same_upto_after; [reflexivity|].
  apply read_loop_one_chunk.
  intros x Hx. apply runAnalysis_breaks_on_done_only.
  rewrite Forall_forall in Hd. apply Hd, Hx.
Qed.

(* ===================================================================== *)
(** ** What handling a line can and cannot do *)
(* ===================================================================== *)

Lemma rendered_app {UI} (t1 t2 : list (Observation UI)) :
  rendered (t1 ++ t2) = rendered t1 ++ rendered t2.
Proof.
  induction t1 as [|[] t1 IH]; simpl; rewrite ?IH; reflexivity.
Qed.

Lemma console_app {UI} (t1 t2 : list (Observation UI)) :
  console (t1 ++ t2) = console t1 ++ console t2.
Proof.
  induction t1 as [|[] t1 IH]; simpl; rewrite ?IH; reflexivity.
Qed.

Lemma parsed_app {UI} (t1 t2 : list (Observation UI)) :
  parsed (t1 ++ t2) = parsed t1 ++ parsed t2.
Proof.
  induction t1 as [|[] t1 IH]; simpl; rewrite ?IH; reflexivity.
Qed.

Lemma iteration_ends_app {UI} (t1 t2 : list (Observation UI)) :
  iteration_ends (t1 ++ t2) = iteration_ends t1 ++ iteration_ends t2.
Proof.
  induction t1 as [|[] t1 IH]; simpl; rewrite ?IH; reflexivity.
Qed.

Lemma reader_states_app {UI} (t1 t2 : list (Observation UI)) :
  reader_states (t1 ++ t2) = reader_states t1 ++ reader_states t2.
Proof.
  induction t1 as [|[] t1 IH]; simpl; rewrite ?IH; reflexivity.
Qed.

Lemma console_visible {UI} (t : list (Observation UI)) :
  console (filter is_visible t) = console t.
Proof.
  induction t as [|[] t IH]; simpl; rewrite ?IH; reflexivity.
Qed.

Lemma parsed_visible {UI} (t : list (Observation UI)) :
  parsed (filter is_visible t) = parsed t.
Proof.
  induction t as [|[] t IH]; simpl; rewrite ?IH; reflexivity.
Qed.

Lemma unmarked_reader_states {UI} (t : list (Observation UI)) :
  filter is_visible t = t -> reader_states t = [].
Proof.
  intros H. rewrite <- H. clear H.
  induction t as [|[] t IH]; simpl; auto.
Qed.

#[local] Instance unmarked_invariant {UI} : Invariant (@unmarked UI).
Proof.
  split; unfold unmarked.
  - reflexivity.
  - intros _ t1 _ t2 _ H1 H2. rewrite filter_app, H1, H2. reflexivity.
Qed.

#[local] Instance only_parse_errors_invariant {UI} :
  Invariant (@only_parse_errors UI).
Proof.
  split; unfold only_parse_errors.
  - intros _ label e [].
  - intros _ t1 _ t2 _ H1 H2 label e. rewrite console_app, in_app_iff.
    intros [H|H]; eauto.
Qed.

#[local] Instance leftovers_undelimited_invariant {UI} :
  Invariant (@leftovers_undelimited UI).
Proof.
  split; unfold leftovers_undelimited.
  - constructor.
  - intros _ t1 _ t2 _ H1 H2. rewrite iteration_ends_app.
    apply Forall_app; split; assumption.
Qed.

#[local] Instance dispatch_untouched_invariant : Invariant dispatch_untouched.
Proof.
  split; unfold dispatch_untouched.
  - auto.
  - intros u t1 u1 t2 u2 [H1 H2] [K1 K2]. split; congruence.
Qed.

(** One step of showing that a piece of page code keeps an invariant;
    [atom] settles the setter calls and the observations. *)
Ltac keeps_step atom :=
  match goal with
  | |- keeps _ (bind _ _) =>
      apply keeps_bind; [typeclasses eauto | | intros]
  | |- keeps _ (try_catch _ _) =>
      apply keeps_try_catch; [typeclasses eauto | | intros]
  | |- keeps _ (try_finally _ _) =>
      apply keeps_try_finally; [typeclasses eauto | | ]
  | |- keeps _ (when _ _) => apply keeps_when; [typeclasses eauto | ]
  | |- keeps _ (and_then _ _) => apply keeps_and_then; [typeclasses eauto | ]
  | |- keeps _ (for_of _ _) =>
      apply keeps_for_of; [typeclasses eauto | intros]
  | |- keeps _ (ret _) => apply keeps_ret; typeclasses eauto
  | |- keeps _ (throw _) => apply keeps_throw; typeclasses eauto
  | |- keeps _ break => apply keeps_break; typeclasses eauto
  | |- keeps _ continue => apply keeps_continue; typeclasses eauto
  | |- keeps _ (get _ _) => apply keeps_get; typeclasses eauto
  | |- keeps _ (await_fetch _) => apply keeps_await_fetch; typeclasses eauto
  | |- keeps _ (finish _) => apply keeps_finish; typeclasses eauto
  | |- keeps _ (set _) => intros ?; atom
  | |- keeps _ (observe _) => intros ?; atom
  | |- keeps _ (console_error _ _) => intros ?; atom
  | |- keeps _ (if ?c then _ else _) => destruct c
  | |- keeps _ (match ?p with
                | RunAnalysis.MarketTrends => _
                | RunAnalysis.LaunchDetector => _
                | RunAnalysis.CrisisDetector => _
                end) => destruct p
  | |- keeps _ (match ?o with Some _ => _ | None => _ end) => destruct o
  end.

Ltac unfold_pages :=
  unfold RunAnalysis.runAnalysis, RunAnalysis.reset, RunAnalysis.stream,
    RunAnalysis.on_failure, RunAnalysis.cleanup,
    RunAnalysis.handle_line, RunAnalysis.handle_event,
    RunAnalysis.on_done, RunAnalysis.on_metadata,
    RunAnalysis.setOutputs, RunAnalysis.setIsRunning,
    RunAnalysis.setActiveAgent, RunAnalysis.setForecast,
    RunAnalysis.setMarketData, RunAnalysis.setThreatLevel,
    HandleAnalyze.handleAnalyze, HandleAnalyze.stream,
    HandleAnalyze.on_failure,
    HandleAnalyze.handle_line, HandleAnalyze.handle_data,
    HandleAnalyze.Number,
    HandleAnalyze.setStatus, HandleAnalyze.setMessages,
    HandleAnalyze.setActiveAgent, HandleAnalyze.setRecommendation,
    HandleAnalyze.setError,
    JSON_parse, swallow_SyntaxError.

(** Handling a line renders, logs and parses; it leaves no ghost mark. *)
Lemma runAnalysis_line_unmarked (p : RunAnalysis.Page) (line : jsstring) :
  keeps unmarked (RunAnalysis.handle_line p line).
Proof.
  unfold_pages. repeat keeps_step ltac:(reflexivity).
Qed.

Lemma handleAnalyze_line_unmarked (line : jsstring) :
  keeps unmarked (HandleAnalyze.handle_line line).
Proof.
  unfold_pages. repeat keeps_step ltac:(reflexivity).
Qed.

(** The only console lines of handling a line are parse diagnostics. *)
Lemma runAnalysis_line_console (p : RunAnalysis.Page) (line : jsstring) :
  keeps only_parse_errors (RunAnalysis.handle_line p line).
Proof.
  unfold_pages.
  repeat keeps_step
    ltac:(intros ? ? H; simpl in H;
          first [contradiction
                | destruct H as [H|[]]; injection H as <- _; reflexivity]).
Qed.

(* ===================================================================== *)
(** ** Single records *)
(* ===================================================================== *)

Lemma Get_defined (v : JsValue) (k k' : jsstring) (w : JsValue) :
  Get v k = Some w -> Get v k' = Some (OptGet v k').
Proof.
  unfold OptGet. destruct v; simpl; intros H; try discriminate; reflexivity.
Qed.

Lemma new_Error_not_SyntaxError (v : JsValue) :
  Exception.instanceof_SyntaxError (Exception.new_Error v) = false.
Proof.
  unfold Exception.new_Error. destruct (conversion_throws v); reflexivity.
Qed.

Lemma new_Error_name (v : JsValue) :
  JsString.eqb (Exception.name (Exception.new_Error v)) (str "AbortError")
  = false.
Proof.
  unfold Exception.new_Error. destruct (conversion_throws v); reflexivity.
Qed.

(** A record without the data marker is passed over. *)
Lemma runAnalysis_other_line (p : RunAnalysis.Page) (line : jsstring)
    (u : RunAnalysis.UI) :
  startsWith line data_prefix = false ->
  RunAnalysis.handle_line p line u = mkResult Continue u [].
Proof.
  intros H. unfold RunAnalysis.handle_line. rewrite H. reflexivity.
Qed.

Lemma handleAnalyze_other_line (line : jsstring) (u : HandleAnalyze.UI) :
  startsWith line data_prefix = false ->
  HandleAnalyze.handle_line line u = mkResult (Normal tt) u [].
Proof.
  intros H. unfold HandleAnalyze.handle_line. rewrite H. reflexivity.
Qed.

(** A data record that is not JSON is logged and passed over. *)
Lemma runAnalysis_malformed_line (p : RunAnalysis.Page) (line : jsstring)
    (u : RunAnalysis.UI) :
  startsWith line data_prefix = true ->
  JSON.parse (slice line 6) = None ->
  RunAnalysis.handle_line p line u =
  mkResult (Normal tt) u
    [Console_error (str "SSE parse error:")
       (Exception.SyntaxError Exception.EngineDefined)].
Proof.
  intros H1 H2. unfold RunAnalysis.handle_line, JSON_parse.
  rewrite H1, H2. reflexivity.
Qed.

Lemma handleAnalyze_malformed_line (line : jsstring) (u : HandleAnalyze.UI) :
  startsWith line data_prefix = true ->
  JSON.parse (slice line 6) = None ->
  HandleAnalyze.handle_line line u =
  mkResult (Normal tt) u
    [Console_error (str "SSE parse error:")
       (Exception.SyntaxError Exception.EngineDefined)].
Proof.
  intros H1 H2. unfold HandleAnalyze.handle_line, JSON_parse.
  rewrite H1, H2. reflexivity.
Qed.

(** An event with a truthy [error] and no truthy [done] throws, having
    changed nothing. *)
Lemma runAnalysis_error_event (p : RunAnalysis.Page)
    (event done error : JsValue) (u : RunAnalysis.UI) :
  Get event (str "done") = Some done -> truthy done = false ->
  Get event (str "error") = Some error -> truthy error = true ->
  RunAnalysis.handle_event p event u =
  mkResult (Throw (Exception.new_Error error)) u [].
Proof.
  intros H3 H4 H5 H6.
  unfold RunAnalysis.handle_event.
  unfold get at 1. rewrite H3, bind_ret, H4. cbn [when]. rewrite bind_ret.
  unfold get at 1. rewrite H5, bind_ret, H6. cbn [when].
  rewrite bind_assoc. unfold get at 1. rewrite H5, bind_ret.
  reflexivity.
Qed.

Lemma handleAnalyze_error_event (data done error : JsValue)
    (u : HandleAnalyze.UI) :
  Get data (str "done") = Some done -> truthy done = false ->
  Get data (str "error") = Some error -> truthy error = true ->
  HandleAnalyze.handle_data data u =
  mkResult (Throw (Exception.new_Error error)) u [].
Proof.
  intros H3 H4 H5 H6.
  unfold HandleAnalyze.handle_data.
  unfold get at 1. rewrite H3, bind_ret, H4. cbn [when]. rewrite bind_ret.
  unfold get at 1. rewrite H5, bind_ret, H6. cbn [when].
  rewrite bind_assoc. unfold get at 1. rewrite H5, bind_ret.
  reflexivity.
Qed.

Lemma runAnalysis_error_line (p : RunAnalysis.Page) (line : jsstring)
    (event done error : JsValue) (u : RunAnalysis.UI) :
  startsWith line data_prefix = true ->
  JSON.parse (slice line 6) = Some event ->
  Get event (str "done") = Some done -> truthy done = false ->
  Get event (str "error") = Some error -> truthy error = true ->
  RunAnalysis.handle_line p line u =
  mkResult (Throw (Exception.new_Error error)) u [Parsed event].
Proof.
  intros H1 H2 H3 H4 H5 H6.
  unfold RunAnalysis.handle_line, JSON_parse. rewrite H1, H2. cbn [negb].
  unfold try_catch.
  rewrite bind_assoc, bind_observe, bind_ret.
  rewrite (runAnalysis_error_event p event done error u H3 H4 H5 H6).
  cbn [after completion final trace app].
  unfold swallow_SyntaxError. rewrite new_Error_not_SyntaxError.
  reflexivity.
Qed.

Lemma handleAnalyze_error_line (line : jsstring)
    (data done error : JsValue) (u : HandleAnalyze.UI) :
  startsWith line data_prefix = true ->
  JSON.parse (slice line 6) = Some data ->
  Get data (str "done") = Some done -> truthy done = false ->
  Get data (str "error") = Some error -> truthy error = true ->
  HandleAnalyze.handle_line line u =
  mkResult (Throw (Exception.new_Error error)) u [Parsed data].
Proof.
  intros H1 H2 H3 H4 H5 H6.
  unfold HandleAnalyze.handle_line, JSON_parse. rewrite H1, H2. cbn [when].
  unfold try_catch.
  rewrite bind_assoc, bind_observe, bind_ret.
  rewrite (handleAnalyze_error_event data done error u H3 H4 H5 H6).
  cbn [after completion final trace app].
  unfold swallow_SyntaxError. rewrite new_Error_not_SyntaxError.
  reflexivity.
Qed.

(* ===================================================================== *)
(** ** Runs seen as loops over batches of lines *)
(* ===================================================================== *)

Section BatchLemmas.

Context {UI : Type} (h : jsstring -> M UI unit).

Lemma run_batches_app (bs1 bs2 : list (list jsstring)) (u : UI) :
  run_batches h (bs1 ++ bs2) u =
  (run_batches h bs1 ;; run_batches h bs2) u.
Proof.
  revert u. induction bs1 as [|b bs1 IH]; intros u.
  - cbn [app run_batches]. rewrite bind_ret. reflexivity.
  - cbn [app run_batches]. rewrite bind_assoc.
    apply bind_ext. intros _ u'. apply IH.
Qed.

Lemma for_of_passes (l1 rest : list jsstring) :
  forall u u1,
    passes h l1 u = Some u1 ->
    exists t, for_of (l1 ++ rest) h u = after t (for_of rest h u1).
Proof.
  induction l1 as [|x l1 IH]; intros u u1 Hp.
  - injection Hp as ->. exists []. cbn [app]. rewrite after_nil.
    reflexivity.
  - cbn [passes] in Hp. cbn [app for_of].
    destruct (completion (h x u)) as [[]| | |e]; try discriminate.
    + destruct (IH _ _ Hp) as [t Ht]. rewrite Ht, after_after. eauto.
    + destruct (IH _ _ Hp) as [t Ht]. rewrite Ht, after_after. eauto.
Qed.

(** A line that throws where it is handled ends the loop there. *)
Lemma run_batches_throws (bs : list (list jsstring)) (u0 u1 : UI)
    (line : jsstring) (e : Exception.t) :
  handled_at h bs u0 line u1 ->
  completion (h line u1) = Throw e ->
  exists t,
    run_batches h bs u0 =
    mkResult (Throw e) (final (h line u1)) (t ++ trace (h line u1)).
Proof.
  intros (bs1 & l1 & l2 & bs2 & -> & Hc & Hp) He.
  rewrite run_batches_app. unfold bind at 1. rewrite Hc.
  cbn [run_batches]. unfold bind at 1.
  destruct (for_of_passes l1 (line :: l2) _ _ Hp) as [t Ht].
  rewrite Ht. cbn [for_of]. rewrite He.
  cbn [after completion final trace].
  exists (trace (run_batches h bs1 u0) ++ t).
  unfold after; cbn [completion final trace].
  rewrite app_assoc. reflexivity.
Qed.

(** A line that is passed over may as well be absent. *)
Lemma for_of_passed_over keep (x : jsstring) (l1 l2 : list jsstring) :
  passed_over h keep x ->
  forall u,
    same_upto keep (for_of (l1 ++ x :: l2) h u) (for_of (l1 ++ l2) h u).
Proof.
  intros Hx. induction l1 as [|y l1 IH]; intros u.
  - cbn [app for_of]. destruct (Hx u) as (Hf & Ht & Hc).
    rewrite Hf.
    destruct Hc as [-> | ->];
      (apply same_upto_drop; [exact Ht | apply same_upto_refl]).
  - cbn [app for_of].
    destruct (completion (h y u)) as [[]| | |e];
      try apply same_upto_refl;
      (apply same_upto_after; [reflexivity | apply IH]).
Qed.

Lemma run_batches_passed_over keep (x : jsstring)
    (bs1 bs2 : list (list jsstring)) (l1 l2 : list jsstring) :
  passed_over h keep x ->
  forall u,
    same_upto keep
      (run_batches h (bs1 ++ (l1 ++ x :: l2) :: bs2) u)
      (run_batches h (bs1 ++ (l1 ++ l2) :: bs2) u).
Proof.
  intros Hx u. rewrite !run_batches_app.
  apply bind_same; [apply same_upto_refl | intros _ u1].
  cbn [run_batches].
  apply bind_same; [|intros; apply same_upto_refl].
  apply for_of_passed_over, Hx.
Qed.

End BatchLemmas.

Lemma same_upto_weaken {UI A} (keep1 keep2 : Observation UI -> bool)
    (r1 r2 : Result UI A) :
  (forall o, keep2 o = true -> keep1 o = true) ->
  same_upto keep1 r1 r2 -> same_upto keep2 r1 r2.
Proof.
  intros Hk (H1 & H2 & H3). repeat split; try assumption.
  assert (F : forall t, filter keep2 (filter keep1 t) = filter keep2 t).
  { intros t. induction t as [|o t IH]; [reflexivity|]. simpl.
    destruct (keep1 o) eqn:E1; simpl; rewrite IH; [reflexivity|].
    destruct (keep2 o) eqn:E2; [|reflexivity].
    apply Hk in E2. congruence. }
  rewrite <- (F (trace r1)), <- (F (trace r2)), H3. reflexivity.
Qed.

Lemma quiet_visible {UI} (o : Observation UI) :
  is_quiet o = true -> is_visible o = true.
Proof. destruct o; simpl; auto. Qed.

(** [runAnalysis] on a streamed body is the run on its batches. *)
Lemma runAnalysis_as_batches (p : RunAnalysis.Page) (ok : bool)
    (statusText : jsstring) (chunks : list (list Z)) (ending : Net.Ending)
    (u : RunAnalysis.UI) :
  same_upto is_visible
    (RunAnalysis.run p (streaming ok statusText chunks ending) u)
    (runAnalysis_batched p (batches TextDecoder.create [] chunks) ending u).
Proof.
  unfold RunAnalysis.run, RunAnalysis.runAnalysis, runAnalysis_batched.
  apply bind_same; [apply same_upto_refl | intros _ ?].
  apply try_finally_same, try_catch_same.
  unfold RunAnalysis.stream, streaming, await_fetch.
  rewrite bind_ret. cbn [Net.body]. rewrite bind_observe.
  apply same_upto_drop; [reflexivity|].
  apply read_loop_batches.
Qed.

(** [handleAnalyze] with its form filled, on a streamed body of a
    successful response, is the run on its batches. *)
Lemma handleAnalyze_as_batches (statusText : jsstring)
    (chunks : list (list Z)) (ending : Net.Ending) (u : HandleAnalyze.UI) :
  same_upto is_visible
    (HandleAnalyze.run true (streaming true statusText chunks ending) u)
    (handleAnalyze_batched (batches TextDecoder.create [] chunks) ending u).
Proof.
  unfold HandleAnalyze.run, HandleAnalyze.handleAnalyze,
    handleAnalyze_batched.
  cbn [negb].
  repeat (apply bind_same; [apply same_upto_refl | intros _ ?]).
  apply try_catch_same.
  unfold HandleAnalyze.stream, streaming, await_fetch.
  rewrite bind_ret. cbn [Net.ok Net.body negb when]. rewrite bind_ret.
  rewrite bind_observe.
  apply same_upto_drop; [reflexivity|].
  apply bind_same; [|intros; apply same_upto_refl].
  apply read_loop_batches.
Qed.

Lemma keep_drops_reader {UI} (keep : Observation UI -> bool) (r : Net.Reader) :
  (forall o, keep o = true -> is_visible o = true) ->
  filter keep [Reader_state r] = [].
Proof.
  intros Hk. simpl. destruct (keep (Reader_state r)) eqn:E; [|reflexivity].
  apply Hk in E. discriminate.
Qed.

Lemma read_loop_congruence {UI} (keep : Observation UI -> bool)
    (h : jsstring -> M UI unit) (ending : Net.Ending)
    (chunks chunks' : list (list Z)) (u : UI) :
  (forall o, keep o = true -> is_visible o = true) ->
  (forall u', same_upto keep
     (run_batches h (batches TextDecoder.create [] chunks) u')
     (run_batches h (batches TextDecoder.create [] chunks') u')) ->
  same_upto keep
    (read_loop h chunks ending TextDecoder.create [] u)
    (read_loop h chunks' ending TextDecoder.create [] u).
Proof.
  intros Hk Hb.
  eapply same_upto_trans;
    [eapply same_upto_weaken; [exact Hk | apply read_loop_batches]|].
  eapply same_upto_trans;
    [|apply same_upto_sym; eapply same_upto_weaken;
      [exact Hk | apply read_loop_batches]].
  apply bind_same; [apply Hb | intros; apply same_upto_refl].
Qed.

(** Two bodies whose batches are handled alike give like runs. *)
Lemma runAnalysis_congruence (keep : Observation RunAnalysis.UI -> bool)
    (p : RunAnalysis.Page) (ok : bool) (statusText : jsstring)
    (ending : Net.Ending) (chunks chunks' : list (list Z))
    (u : RunAnalysis.UI) :
  (forall o, keep o = true -> is_visible o = true) ->
  (forall u', same_upto keep
     (run_batches (RunAnalysis.handle_line p)
        (batches TextDecoder.create [] chunks) u')
     (run_batches (RunAnalysis.handle_line p)
        (batches TextDecoder.create [] chunks') u')) ->
  same_upto keep
    (RunAnalysis.run p (streaming ok statusText chunks ending) u)
    (RunAnalysis.run p (streaming ok statusText chunks' ending) u).
Proof.
  intros Hk Hb.
  unfold RunAnalysis.run, RunAnalysis.runAnalysis.
  apply bind_same; [apply same_upto_refl | intros _ ?].
  apply try_finally_same, try_catch_same.
  unfold RunAnalysis.stream, streaming, await_fetch.
  rewrite !bind_ret. cbn [Net.body]. rewrite !bind_observe.
  apply same_upto_after; [rewrite !keep_drops_reader by exact Hk; reflexivity|].
  apply read_loop_congruence; assumption.
Qed.

Lemma handleAnalyze_congruence (keep : Observation HandleAnalyze.UI -> bool)
    (filled ok : bool) (statusText : jsstring)
    (ending : Net.Ending) (chunks chunks' : list (list Z))
    (u : HandleAnalyze.UI) :
  (forall o, keep o = true -> is_visible o = true) ->
  (forall u', same_upto keep
     (run_batches HandleAnalyze.handle_line
        (batches TextDecoder.create [] chunks) u')
     (run_batches HandleAnalyze.handle_line
        (batches TextDecoder.create [] chunks') u')) ->
  same_upto keep
    (HandleAnalyze.run filled (streaming ok statusText chunks ending) u)
    (HandleAnalyze.run filled (streaming ok statusText chunks' ending) u).
Proof.
  intros Hk Hb.
  unfold HandleAnalyze.run, HandleAnalyze.handleAnalyze.
  destruct filled; cbn [negb]; [|apply same_upto_refl].
  repeat (apply bind_same; [apply same_upto_refl | intros _ ?]).
  apply try_catch_same.
  unfold HandleAnalyze.stream, streaming, await_fetch.
  rewrite !bind_ret. cbn [Net.ok Net.statusText Net.body].
  apply bind_same; [apply same_upto_refl | intros _ ?].
  rewrite !bind_observe.
  apply same_upto_after; [rewrite !keep_drops_reader by exact Hk; reflexivity|].
  apply bind_same; [|intros; apply same_upto_refl].
  apply read_loop_congruence; assumption.
Qed.

(* ===================================================================== *)
(** ** The properties of the specification *)
(* ===================================================================== *)

(** What the code keeps of chunk-boundary independence.  However the
    bytes of a stream are cut into chunks -- in the middle of a record or
    of a UTF-8 sequence -- the complete records handed to the inner loop
    are those of the bytes delivered as a single chunk.  In
    [handleAnalyze] the whole run then completes alike, ends in the same
    state and renders, logs and parses the same things in the same order.
    In [runAnalysis] it does so at least when no record before the last
    complete one has a truthy [done]. *)
Theorem C1_chunk_boundary_independence (chunks : list (list Z)) :
  records chunks = records [List.concat chunks] /\
  (forall filled ok statusText ending u,
     let r := HandleAnalyze.run filled
                (streaming ok statusText chunks ending) u in
     let r1 := HandleAnalyze.run filled
                 (streaming ok statusText [List.concat chunks] ending) u in
     parsed (trace r) = parsed (trace r1) /\
     same_upto is_visible r r1) /\
  (forall p ok statusText ending u,
     Forall (fun line => is_done_record line = false)
       (removelast (records chunks)) ->
     let r := RunAnalysis.run p (streaming ok statusText chunks ending) u in
     let r1 := RunAnalysis.run p
                 (streaming ok statusText [List.concat chunks] ending) u in
     parsed (trace r) = parsed (trace r1) /\
     same_upto is_visible r r1).
Proof.
split; [apply records_one_chunk|]. split.
- intros filled ok statusText ending u r r1.
  pose proof (handleAnalyze_one_chunk filled ok statusText chunks ending u)
    as H.
  split; [|exact H].
  destruct H as (_ & _ & Ht). fold r r1 in Ht.
  rewrite <- (parsed_visible (trace r)), Ht. apply parsed_visible.
- intros p ok statusText ending u Hd r r1.
  pose proof (runAnalysis_one_chunk p ok statusText chunks ending u Hd)
    as H.
  split; [|exact H].
  destruct H as (_ & _ & Ht). fold r r1 in Ht.
  rewrite <- (parsed_visible (trace r)), Ht. apply parsed_visible.
Qed.

(** Chunk-boundary independence at a stream of two records, the first
    cut in two chunks. *)
Lemma C1_witness :
  let chunks := [json "data: {'agent':'m";
                 frame "onitor','content':'ok'}" ++
                 frame "data: {'done':true}"] in
  Forall (fun line => is_done_record line = false)
    (removelast (records chunks)) /\
  parsed (trace (RunAnalysis.run RunAnalysis.CrisisDetector
                   (streaming true [] chunks Net.EOF) idle)) =
  parsed (trace (RunAnalysis.run RunAnalysis.CrisisDetector
                   (streaming true [] [List.concat chunks] Net.EOF) idle)).
Proof.
intros chunks.
assert (H : Forall (fun line => is_done_record line = false)
              (removelast (records chunks))).
{ vm_compute. repeat constructor. }
split; [exact H|].
exact (proj1 (proj2 (proj2 (C1_chunk_boundary_independence chunks))
                RunAnalysis.CrisisDetector true [] Net.EOF idle H)).
Defined.

(** C1 at its failing input.  The events [runAnalysis] parses depend on
    how the bytes are cut: the [break] taken on [done] leaves the inner
    [for] only, so a record that follows a [done] record is parsed when it
    arrives in a later chunk and is not when it arrives in the same
    chunk. *)
Lemma C1_counterexample_record_after_done :
  parsed (trace (RunAnalysis.run RunAnalysis.MarketTrends
            (streaming true []
               [frame "data: {'done':true}";
                frame "data: {'agent':'a','content':'b'}"] Net.EOF) idle))
  <>
  parsed (trace (RunAnalysis.run RunAnalysis.MarketTrends
            (streaming true []
               [frame "data: {'done':true}" ++
                frame "data: {'agent':'a','content':'b'}"] Net.EOF) idle)).
Proof. vm_compute. discriminate. Qed.

(** C2 at its failing inputs.  In [runAnalysis] the [break] taken on
    [done] leaves the inner [for] only: the record of the next chunk is
    dispatched.  In [handleAnalyze] the [continue] taken on [done] goes
    on to the next record of the same chunk. *)
Theorem C2_records_after_done_are_dispatched :
  RunAnalysis.outputs (final (RunAnalysis.run RunAnalysis.MarketTrends
    (streaming true []
       [frame "data: {'done':true}";
        frame "data: {'agent':'a','content':'b'}"] Net.EOF) idle))
  = [RunAnalysis.mkAgentOutput (JString (str "a")) (JString (str "b"))
       JUndefined] /\
  HandleAnalyze.messages (final (HandleAnalyze.run true
    (streaming true []
       [frame "data: {'done':true}" ++
        frame "data: {'agent':'a','content':'b'}"] Net.EOF) idle_form))
  = [JObject [(str "agent", JString (str "a"));
              (str "content", JString (str "b"))]].
Proof. vm_compute. split; reflexivity. Qed.

(* ===================================================================== *)
(** ** How a run ends *)
(* ===================================================================== *)

Lemma reset_cleared (p : RunAnalysis.Page) (u : RunAnalysis.UI) :
  RunAnalysis.outputs (runAnalysis_start p u) = [].
Proof. destruct p; reflexivity. Qed.

Lemma reset_eq (p : RunAnalysis.Page) (u : RunAnalysis.UI) :
  RunAnalysis.reset p u =
  mkResult (Normal tt) (runAnalysis_start p u) (trace (RunAnalysis.reset p u)).
Proof. destruct p; reflexivity. Qed.

Lemma cleanup_eq (u : RunAnalysis.UI) :
  RunAnalysis.cleanup u =
  mkResult (Normal tt)
    (RunAnalysis.mkUI (RunAnalysis.outputs u) false JNull
       (RunAnalysis.forecast u) (RunAnalysis.marketData u)
       (RunAnalysis.threatLevel u))
    [Rendered (RunAnalysis.mkUI (RunAnalysis.outputs u) false
                 (RunAnalysis.activeAgent u)
                 (RunAnalysis.forecast u) (RunAnalysis.marketData u)
                 (RunAnalysis.threatLevel u));
     Rendered (RunAnalysis.mkUI (RunAnalysis.outputs u) false JNull
                 (RunAnalysis.forecast u) (RunAnalysis.marketData u)
                 (RunAnalysis.threatLevel u))].
Proof. reflexivity. Qed.

(** [runAnalysis] when handling the lines throws [e]. *)
Lemma runAnalysis_batched_throw (p : RunAnalysis.Page)
    (bs : list (list jsstring)) (ending : Net.Ending)
    (u u1 : RunAnalysis.UI) (e : Exception.t)
    (t : list (Observation RunAnalysis.UI)) :
  run_batches (RunAnalysis.handle_line p) bs (runAnalysis_start p u) =
    mkResult (Throw e) u1 t ->
  JsString.eqb (Exception.name e) (str "AbortError") = false ->
  runAnalysis_batched p bs ending u =
  mkResult (Normal tt)
    (RunAnalysis.mkUI (RunAnalysis.outputs u1) false JNull
       (RunAnalysis.forecast u1) (RunAnalysis.marketData u1)
       (RunAnalysis.threatLevel u1))
    (trace (RunAnalysis.reset p u) ++
     (t ++ [Console_error (str "Analysis failed:") e]) ++
     [Rendered (RunAnalysis.mkUI (RunAnalysis.outputs u1) false
                  (RunAnalysis.activeAgent u1)
                  (RunAnalysis.forecast u1) (RunAnalysis.marketData u1)
                  (RunAnalysis.threatLevel u1));
      Rendered (RunAnalysis.mkUI (RunAnalysis.outputs u1) false JNull
                  (RunAnalysis.forecast u1) (RunAnalysis.marketData u1)
                  (RunAnalysis.threatLevel u1))]).
Proof.
  intros Hb Hn. unfold runAnalysis_batched.
  rewrite (bind_eq_normal _ _ _ _ _ _ (reset_eq p u)).
  erewrite try_finally_eq;
    [reflexivity
    | erewrite try_catch_eq_throw by (apply bind_eq_throw, Hb);
      unfold RunAnalysis.on_failure; rewrite Hn; reflexivity
    | apply cleanup_eq].
Qed.

(** [runAnalysis] when every line is handled and the body ends at its
    end, or on an [AbortError]. *)
Lemma runAnalysis_batched_normal (p : RunAnalysis.Page)
    (bs : list (list jsstring)) (ending : Net.Ending)
    (u u1 : RunAnalysis.UI) (t : list (Observation RunAnalysis.UI)) :
  run_batches (RunAnalysis.handle_line p) bs (runAnalysis_start p u) =
    mkResult (Normal tt) u1 t ->
  match ending with
  | Net.EOF => True
  | Net.ReadRejects e =>
      JsString.eqb (Exception.name e) (str "AbortError") = true
  end ->
  runAnalysis_batched p bs ending u =
  mkResult (Normal tt)
    (RunAnalysis.mkUI (RunAnalysis.outputs u1) false JNull
       (RunAnalysis.forecast u1) (RunAnalysis.marketData u1)
       (RunAnalysis.threatLevel u1))
    (trace (RunAnalysis.reset p u) ++
     t ++
     [Rendered (RunAnalysis.mkUI (RunAnalysis.outputs u1) false
                  (RunAnalysis.activeAgent u1)
                  (RunAnalysis.forecast u1) (RunAnalysis.marketData u1)
                  (RunAnalysis.threatLevel u1));
      Rendered (RunAnalysis.mkUI (RunAnalysis.outputs u1) false JNull
                  (RunAnalysis.forecast u1) (RunAnalysis.marketData u1)
                  (RunAnalysis.threatLevel u1))]).
Proof.
  intros Hb He. unfold runAnalysis_batched.
  rewrite (bind_eq_normal _ _ _ _ _ _ (reset_eq p u)).
  assert (H1 : try_catch
                 (run_batches (RunAnalysis.handle_line p) bs ;; finish ending)
                 RunAnalysis.on_failure (runAnalysis_start p u) =
               mkResult (Normal tt) u1 t).
  { unfold try_catch, bind. rewrite Hb. cbn [completion final trace].
    destruct ending as [|e]; cbn [finish].
    - unfold after; cbn. rewrite app_nil_r. reflexivity.
    - cbn [after throw completion final trace].
      unfold RunAnalysis.on_failure. rewrite He.
      unfold after; cbn. rewrite !app_nil_r. reflexivity. }
  rewrite (try_finally_eq _ _ _ _ _ _ _ _ H1 (cleanup_eq u1)).
  reflexivity.
Qed.

Lemma bind_set {UI B} (f : UI -> UI) (k : unit -> M UI B) (u : UI) :
  bind (set f) k u = after [Rendered (f u)] (k tt (f u)).
Proof. reflexivity. Qed.

Lemma handleAnalyze_on_failure_eq (e : Exception.t) (u : HandleAnalyze.UI) :
  HandleAnalyze.on_failure e u =
  mkResult (Normal tt)
    (HandleAnalyze.mkUI HandleAnalyze.error_ (HandleAnalyze.messages u)
       JNull (HandleAnalyze.recommendation u)
       (Some (Exception.message e)))
    [Rendered (HandleAnalyze.mkUI (HandleAnalyze.status u)
                 (HandleAnalyze.messages u)
                 (HandleAnalyze.activeAgent u)
                 (HandleAnalyze.recommendation u)
                 (Some (Exception.message e)));
     Rendered (HandleAnalyze.mkUI HandleAnalyze.error_
                 (HandleAnalyze.messages u)
                 (HandleAnalyze.activeAgent u)
                 (HandleAnalyze.recommendation u)
                 (Some (Exception.message e)));
     Rendered (HandleAnalyze.mkUI HandleAnalyze.error_
                 (HandleAnalyze.messages u) JNull
                 (HandleAnalyze.recommendation u)
                 (Some (Exception.message e)))].
Proof. reflexivity. Qed.

(** [handleAnalyze] with its form filled enters its [try] block in the
    same state whatever state it starts from. *)
Lemma handleAnalyze_batched_eq (bs : list (list jsstring))
    (ending : Net.Ending) (u : HandleAnalyze.UI) :
  exists t0,
    parsed t0 = [] /\
    handleAnalyze_batched bs ending u =
    after t0
      (try_catch
         ((run_batches HandleAnalyze.handle_line bs ;; finish ending) ;;
          HandleAnalyze.setStatus HandleAnalyze.complete ;;
          HandleAnalyze.setActiveAgent JNull)
         HandleAnalyze.on_failure handleAnalyze_start).
Proof.
  unfold handleAnalyze_batched.
  unfold HandleAnalyze.setStatus at 1, HandleAnalyze.setMessages at 1,
    HandleAnalyze.setActiveAgent at 1, HandleAnalyze.setRecommendation at 1,
    HandleAnalyze.setError at 1.
  rewrite !bind_set, !after_after.
  cbn [HandleAnalyze.status HandleAnalyze.messages HandleAnalyze.activeAgent
       HandleAnalyze.recommendation HandleAnalyze.error app].
  eexists. refine (conj _ eq_refl). reflexivity.
Qed.

(** [handleAnalyze] when handling the lines throws [e]. *)
Lemma handleAnalyze_batched_throw (bs : list (list jsstring))
    (ending : Net.Ending) (u u1 : HandleAnalyze.UI) (e : Exception.t)
    (t : list (Observation HandleAnalyze.UI)) :
  run_batches HandleAnalyze.handle_line bs handleAnalyze_start =
    mkResult (Throw e) u1 t ->
  exists t0,
    parsed t0 = [] /\
    handleAnalyze_batched bs ending u =
    mkResult (Normal tt)
      (HandleAnalyze.mkUI HandleAnalyze.error_ (HandleAnalyze.messages u1)
         JNull (HandleAnalyze.recommendation u1)
         (Some (Exception.message e)))
      (t0 ++
       t ++
       [Rendered (HandleAnalyze.mkUI (HandleAnalyze.status u1)
                    (HandleAnalyze.messages u1)
                    (HandleAnalyze.activeAgent u1)
                    (HandleAnalyze.recommendation u1)
                    (Some (Exception.message e)));
        Rendered (HandleAnalyze.mkUI HandleAnalyze.error_
                    (HandleAnalyze.messages u1)
                    (HandleAnalyze.activeAgent u1)
                    (HandleAnalyze.recommendation u1)
                    (Some (Exception.message e)));
        Rendered (HandleAnalyze.mkUI HandleAnalyze.error_
                    (HandleAnalyze.messages u1) JNull
                    (HandleAnalyze.recommendation u1)
                    (Some (Exception.message e)))]).
Proof.
  intros Hb.
  destruct (handleAnalyze_batched_eq bs ending u) as (t0 & Hp & ->).
  exists t0. split; [exact Hp|].
  rewrite (try_catch_eq_throw _ _ _ u1 e t)
    by (apply bind_eq_throw, bind_eq_throw, Hb).
  rewrite handleAnalyze_on_failure_eq.
  reflexivity.
Qed.

Lemma result_eta {UI A} (r : Result UI A) :
  r = mkResult (completion r) (final r) (trace r).
Proof. destruct r; reflexivity. Qed.

Lemma console_reset (p : RunAnalysis.Page) (u : RunAnalysis.UI) :
  console (trace (RunAnalysis.reset p u)) = [].
Proof. destruct p; reflexivity. Qed.

Lemma parsed_reset (p : RunAnalysis.Page) (u : RunAnalysis.UI) :
  parsed (trace (RunAnalysis.reset p u)) = [].
Proof. destruct p; reflexivity. Qed.

(** C3, as the code has it.  A data record whose event has a truthy
    [error] (and no truthy [done]) throws [new Error(event.error)] where
    it is handled; for a string that is the [Error] with the literal
    message.  In [handleAnalyze] the run returns in the error state with
    that message.  [runAnalysis] has no failed state: the run returns
    normally with that failure as its last console line, the markers
    cleared and otherwise the state in which the record was met.  In both
    the event is the last one parsed: no later record is handled. *)
Theorem C3_error_record_fails_the_run
    (line : jsstring) (event done error : JsValue) :
  startsWith line data_prefix = true ->
  JSON.parse (slice line 6) = Some event ->
  Get event (str "done") = Some done -> truthy done = false ->
  Get event (str "error") = Some error -> truthy error = true ->
  (forall msg, error = JString msg ->
     Exception.new_Error error = Exception.Error (Exception.Text msg)) /\
  (forall p ok statusText chunks ending u u1,
     handled_at (RunAnalysis.handle_line p)
       (batches TextDecoder.create [] chunks) (runAnalysis_start p u)
       line u1 ->
     let r := RunAnalysis.run p (streaming ok statusText chunks ending) u in
     completion r = Normal tt /\
     final r = RunAnalysis.mkUI (RunAnalysis.outputs u1) false JNull
                 (RunAnalysis.forecast u1) (RunAnalysis.marketData u1)
                 (RunAnalysis.threatLevel u1) /\
     (exists c, console (trace r) =
                c ++ [(str "Analysis failed:", Exception.new_Error error)]) /\
     (exists ps, parsed (trace r) = ps ++ [event])) /\
  (forall statusText chunks ending u u1,
     handled_at HandleAnalyze.handle_line
       (batches TextDecoder.create [] chunks) handleAnalyze_start line u1 ->
     let r := HandleAnalyze.run true
                (streaming true statusText chunks ending) u in
     completion r = Normal tt /\
     final r = HandleAnalyze.mkUI HandleAnalyze.error_
                 (HandleAnalyze.messages u1) JNull
                 (HandleAnalyze.recommendation u1)
                 (Some (Exception.message (Exception.new_Error error))) /\
     (exists ps, parsed (trace r) = ps ++ [event])).
Proof.
  intros H1 H2 H3 H4 H5 H6. split; [|split].
  - intros msg ->. reflexivity.
  - intros p ok statusText chunks ending u u1 Hat r.
    destruct (runAnalysis_as_batches p ok statusText chunks ending u)
      as (Ec & Ef & Et).
    fold r in Ec, Ef, Et.
    pose proof (runAnalysis_error_line p line event done error u1
                  H1 H2 H3 H4 H5 H6) as Hl.
    destruct (run_batches_throws _ _ _ _ _ (Exception.new_Error error) Hat)
      as [t Hb]; [rewrite Hl; reflexivity|].
    rewrite Hl in Hb. cbn [final trace] in Hb.
    rewrite (runAnalysis_batched_throw p _ ending u u1 _ _ Hb
               (new_Error_name error)) in Ec, Ef, Et.
    cbn [completion final trace] in Ec, Ef, Et.
    split; [exact Ec|]. split; [exact Ef|]. split.
    + rewrite <- console_visible, Et, console_visible.
      rewrite !console_app, console_reset. cbn [console app].
      exists (console t). rewrite !app_nil_r. reflexivity.
    + rewrite <- parsed_visible, Et, parsed_visible.
      rewrite !parsed_app, parsed_reset. cbn [parsed app].
      exists (parsed t). rewrite !app_nil_r. reflexivity.
  - intros statusText chunks ending u u1 Hat r.
    destruct (handleAnalyze_as_batches statusText chunks ending u)
      as (Ec & Ef & Et).
    fold r in Ec, Ef, Et.
    pose proof (handleAnalyze_error_line line event done error u1
                  H1 H2 H3 H4 H5 H6) as Hl.
    destruct (run_batches_throws _ _ _ _ _ (Exception.new_Error error) Hat)
      as [t Hb]; [rewrite Hl; reflexivity|].
    rewrite Hl in Hb. cbn [final trace] in Hb.
    destruct (handleAnalyze_batched_throw _ ending u u1 _ _ Hb)
      as (t0 & Hp0 & Hr).
    rewrite Hr in Ec, Ef, Et.
    cbn [completion final trace] in Ec, Ef, Et.
    split; [exact Ec|]. split; [exact Ef|].
    rewrite <- parsed_visible, Et, parsed_visible.
    rewrite !parsed_app, Hp0. cbn [parsed app].
    exists (parsed t). rewrite !app_nil_r. reflexivity.
Qed.

(** C3 at an [error] record that follows a dispatched record and is
    followed by another chunk. *)
Lemma C3_witness :
  let line := json "data: {'error':'boom'}" in
  let event := JObject [(str "error", JString (str "boom"))] in
  let chunks := [frame "data: {'agent':'a','content':'b'}" ++
                 frame "data: {'error':'boom'}";
                 frame "data: {'agent':'c','content':'d'}"] in
  let r := RunAnalysis.run RunAnalysis.MarketTrends
             (streaming true [] chunks Net.EOF) idle in
  startsWith line data_prefix = true /\
  JSON.parse (slice line 6) = Some event /\
  completion r = Normal tt /\
  List.length (RunAnalysis.outputs (final r)) = 1%nat /\
  exists c, console (trace r) =
            c ++ [(str "Analysis failed:",
                   Exception.Error (Exception.Text (str "boom")))].
Proof.
  intros line event chunks r.
  assert (H1 : startsWith line data_prefix = true) by reflexivity.
  assert (H2 : JSON.parse (slice line 6) = Some event)
    by (vm_compute; reflexivity).
  destruct (C3_error_record_fails_the_run line event JUndefined
              (JString (str "boom")) H1 H2 eq_refl eq_refl eq_refl eq_refl)
    as (_ & Hrun & _).
  specialize (Hrun RunAnalysis.MarketTrends true [] chunks Net.EOF idle
    (final (RunAnalysis.handle_line RunAnalysis.MarketTrends
              (json "data: {'agent':'a','content':'b'}")
              (runAnalysis_start RunAnalysis.MarketTrends idle)))).
  destruct Hrun as (Hc & Hf & Hl & _).
  { exists [], [json "data: {'agent':'a','content':'b'}"], [],
      [[json "data: {'agent':'c','content':'d'}"]].
    split; [vm_compute; reflexivity|]. split; vm_compute; reflexivity. }
  split; [exact H1|]. split; [exact H2|]. split; [exact Hc|].
  split; [|exact Hl].
  fold r in Hf. rewrite Hf. reflexivity.
Defined.

(** C3 as stated fails in [runAnalysis]: a run that meets an [error]
    record completes as, ends in the same state as and renders the same
    states as the run on the stream without that record; the message of
    the record is on the console only. *)
Lemma C3_counterexample_error_record_is_only_logged :
  completion (RunAnalysis.run RunAnalysis.MarketTrends
                (streaming true []
                   [frame "data: {'agent':'a','content':'b'}" ++
                    frame "data: {'error':'boom'}"] Net.EOF) idle)
  = completion (RunAnalysis.run RunAnalysis.MarketTrends
                  (streaming true []
                     [frame "data: {'agent':'a','content':'b'}"] Net.EOF)
                  idle) /\
  final (RunAnalysis.run RunAnalysis.MarketTrends
           (streaming true []
              [frame "data: {'agent':'a','content':'b'}" ++
               frame "data: {'error':'boom'}"] Net.EOF) idle)
  = final (RunAnalysis.run RunAnalysis.MarketTrends
             (streaming true []
                [frame "data: {'agent':'a','content':'b'}"] Net.EOF) idle) /\
  rendered (trace (RunAnalysis.run RunAnalysis.MarketTrends
                     (streaming true []
                        [frame "data: {'agent':'a','content':'b'}" ++
                         frame "data: {'error':'boom'}"] Net.EOF) idle))
  = rendered (trace (RunAnalysis.run RunAnalysis.MarketTrends
                       (streaming true []
                          [frame "data: {'agent':'a','content':'b'}"]
                          Net.EOF) idle)) /\
  console (trace (RunAnalysis.run RunAnalysis.MarketTrends
                    (streaming true []
                       [frame "data: {'agent':'a','content':'b'}" ++
                        frame "data: {'error':'boom'}"] Net.EOF) idle))
  = [(str "Analysis failed:",
      Exception.Error (Exception.Text (str "boom")))].
Proof. vm_compute. repeat split. Qed.

(** C7.  A run whose [fetch] or whose pending [read()] rejects with an
    exception named [AbortError] returns normally; it logs no failure
    (the only console lines of the run are the parse diagnostics of the
    records handled before), leaves the running flag false and the active
    agent null, and keeps the accumulator as the records handled before
    the abort left it. *)
Theorem C7_cancellation_is_not_a_failure
    (p : RunAnalysis.Page) (e : Exception.t) :
  JsString.eqb (Exception.name e) (str "AbortError") = true ->
  (forall u,
     let r := RunAnalysis.run p (Net.Rejects e) u in
     completion r = Normal tt /\
     console (trace r) = [] /\
     RunAnalysis.isRunning (final r) = false /\
     RunAnalysis.activeAgent (final r) = JNull /\
     RunAnalysis.outputs (final r) = []) /\
  (forall ok statusText chunks u,
     let handled :=
       run_batches (RunAnalysis.handle_line p)
         (batches TextDecoder.create [] chunks) (runAnalysis_start p u) in
     completion handled = Normal tt ->
     let r := RunAnalysis.run p
                (streaming ok statusText chunks (Net.ReadRejects e)) u in
     completion r = Normal tt /\
     (forall label x,
        In (label, x) (console (trace r)) -> label = str "SSE parse error:") /\
     RunAnalysis.isRunning (final r) = false /\
     RunAnalysis.activeAgent (final r) = JNull /\
     RunAnalysis.outputs (final r) = RunAnalysis.outputs (final handled)).
Proof.
  intros He. split.
  - intros u r. subst r.
    unfold RunAnalysis.run, RunAnalysis.runAnalysis.
    rewrite (bind_eq_normal _ _ _ _ _ _ (reset_eq p u)).
    assert (H1 : try_catch (RunAnalysis.stream p (Net.Rejects e))
                   RunAnalysis.on_failure (runAnalysis_start p u) =
                 mkResult (Normal tt) (runAnalysis_start p u) []).
    { unfold try_catch, RunAnalysis.stream, await_fetch.
      rewrite bind_throw. cbn [throw completion final trace].
      unfold RunAnalysis.on_failure. rewrite He. reflexivity. }
    rewrite (try_finally_eq _ _ _ _ _ _ _ _ H1 (cleanup_eq _)).
    cbn [after completion final trace RunAnalysis.isRunning
         RunAnalysis.activeAgent RunAnalysis.outputs].
    rewrite !console_app, console_reset, reset_cleared.
    repeat split; reflexivity.
  - intros ok statusText chunks u handled Hh r.
    destruct (runAnalysis_as_batches p ok statusText chunks
                (Net.ReadRejects e) u) as (Ec & Ef & Et).
    fold r in Ec, Ef, Et.
    pose proof (keeps_run_batches only_parse_errors
                  (RunAnalysis.handle_line p)
                  (batches TextDecoder.create [] chunks)
                  (runAnalysis_line_console p) (runAnalysis_start p u))
      as Hk.
    fold handled in Hk.
    pose proof (result_eta handled) as Hb. rewrite Hh in Hb.
    rewrite (runAnalysis_batched_normal p _ (Net.ReadRejects e) u _ _ Hb He)
      in Ec, Ef, Et.
    cbn [completion final trace] in Ec, Ef, Et.
    split; [exact Ec|]. split; [|rewrite Ef; repeat split].
    intros label x Hin.
    rewrite <- console_visible, Et, console_visible in Hin.
    rewrite !console_app, console_reset in Hin.
    cbn [console app] in Hin. rewrite app_nil_r in Hin.
    exact (Hk label x Hin).
Qed.

(** C7 at a stream aborted in the middle of its second record. *)
Lemma C7_witness :
  let e := Exception.DOMException (str "AbortError")
             (Exception.Text (str "The user aborted a request.")) in
  let chunks := [frame "data: {'agent':'a','content':'b'}";
                 json "data: {'agent':'c'"] in
  let r := RunAnalysis.run RunAnalysis.LaunchDetector
             (streaming true [] chunks (Net.ReadRejects e)) idle in
  JsString.eqb (Exception.name e) (str "AbortError") = true /\
  completion r = Normal tt /\
  RunAnalysis.isRunning (final r) = false /\
  RunAnalysis.activeAgent (final r) = JNull /\
  List.length (RunAnalysis.outputs (final r)) = 1%nat.
Proof.
  intros e chunks r.
  destruct (C7_cancellation_is_not_a_failure RunAnalysis.LaunchDetector e
              eq_refl) as (_ & Hrun).
  destruct (Hrun true [] chunks idle) as (Hc & _ & Hr & Ha & Ho).
  { vm_compute. reflexivity. }
  fold r in Hc, Hr, Ha, Ho.
  split; [reflexivity|]. split; [exact Hc|]. split; [exact Hr|].
  split; [exact Ha|]. rewrite Ho. vm_compute. reflexivity.
Defined.

(* ===================================================================== *)
(** ** Records that are passed over *)
(* ===================================================================== *)

(** C6.  A complete record that does not start with the data marker is
    passed over by the inner loop: nothing is parsed, rendered, logged or
    thrown, the state is unchanged and the loop goes on to the next line.
    A run on a stream with such a record is the run on the stream without
    it: it completes alike, ends in the same state, and renders, logs and
    parses the same things. *)
Theorem C6_record_without_data_prefix_is_ignored (line : jsstring) :
  startsWith line data_prefix = false ->
  (forall p u, RunAnalysis.handle_line p line u = mkResult Continue u []) /\
  (forall u, HandleAnalyze.handle_line line u = mkResult (Normal tt) u []) /\
  (forall p ok statusText ending u chunks chunks' bs1 l1 l2 bs2,
     batches TextDecoder.create [] chunks = bs1 ++ (l1 ++ line :: l2) :: bs2 ->
     batches TextDecoder.create [] chunks' = bs1 ++ (l1 ++ l2) :: bs2 ->
     same_upto is_visible
       (RunAnalysis.run p (streaming ok statusText chunks ending) u)
       (RunAnalysis.run p (streaming ok statusText chunks' ending) u)) /\
  (forall filled ok statusText ending u chunks chunks' bs1 l1 l2 bs2,
     batches TextDecoder.create [] chunks = bs1 ++ (l1 ++ line :: l2) :: bs2 ->
     batches TextDecoder.create [] chunks' = bs1 ++ (l1 ++ l2) :: bs2 ->
     same_upto is_visible
       (HandleAnalyze.run filled (streaming ok statusText chunks ending) u)
       (HandleAnalyze.run filled (streaming ok statusText chunks' ending) u)).
Proof.
  intros Hp.
  split; [intros; apply runAnalysis_other_line, Hp|].
  split; [intros; apply handleAnalyze_other_line, Hp|].
  split.
  - intros p ok statusText ending u chunks chunks' bs1 l1 l2 bs2 E E'.
    apply runAnalysis_congruence; [auto|].
    intros u'. rewrite E, E'. apply run_batches_passed_over.
    intros u0. rewrite (runAnalysis_other_line p line u0 Hp). auto.
  - intros filled ok statusText ending u chunks chunks' bs1 l1 l2 bs2 E E'.
    apply handleAnalyze_congruence; [auto|].
    intros u'. rewrite E, E'. apply run_batches_passed_over.
    intros u0. rewrite (handleAnalyze_other_line line u0 Hp). auto.
Qed.

(** C6 at a keep-alive comment before a data record. *)
Lemma C6_witness :
  let line := str ": keep-alive" in
  let chunks := [frame ": keep-alive" ++
                 frame "data: {'agent':'a','content':'b'}"] in
  let chunks' := [frame "data: {'agent':'a','content':'b'}"] in
  startsWith line data_prefix = false /\
  same_upto is_visible
    (RunAnalysis.run RunAnalysis.CrisisDetector
       (streaming true [] chunks Net.EOF) idle)
    (RunAnalysis.run RunAnalysis.CrisisDetector
       (streaming true [] chunks' Net.EOF) idle).
Proof.
  intros line chunks chunks'.
  split; [reflexivity|].
  destruct (C6_record_without_data_prefix_is_ignored line eq_refl)
    as (_ & _ & Hrun & _).
  apply (Hrun RunAnalysis.CrisisDetector true [] Net.EOF idle chunks chunks'
           [] [] [json "data: {'agent':'a','content':'b'}"] []);
    vm_compute; reflexivity.
Defined.

(** C4.  A data record whose body [JSON.parse] rejects is logged and
    passed over: no event is parsed from it, no state changes, nothing is
    thrown and the loop goes on to the next line.  A run on a stream with
    such a record is the run on the stream without it, the diagnostic on
    the console apart: it completes alike, ends in the same state, and
    renders and parses the same things. *)
Theorem C4_malformed_record_is_skipped (line : jsstring) :
  startsWith line data_prefix = true ->
  JSON.parse (slice line 6) = None ->
  (forall p u,
     RunAnalysis.handle_line p line u =
     mkResult (Normal tt) u
       [Console_error (str "SSE parse error:")
          (Exception.SyntaxError Exception.EngineDefined)]) /\
  (forall u,
     HandleAnalyze.handle_line line u =
     mkResult (Normal tt) u
       [Console_error (str "SSE parse error:")
          (Exception.SyntaxError Exception.EngineDefined)]) /\
  (forall p ok statusText ending u chunks chunks' bs1 l1 l2 bs2,
     batches TextDecoder.create [] chunks = bs1 ++ (l1 ++ line :: l2) :: bs2 ->
     batches TextDecoder.create [] chunks' = bs1 ++ (l1 ++ l2) :: bs2 ->
     same_upto is_quiet
       (RunAnalysis.run p (streaming ok statusText chunks ending) u)
       (RunAnalysis.run p (streaming ok statusText chunks' ending) u)) /\
  (forall filled ok statusText ending u chunks chunks' bs1 l1 l2 bs2,
     batches TextDecoder.create [] chunks = bs1 ++ (l1 ++ line :: l2) :: bs2 ->
     batches TextDecoder.create [] chunks' = bs1 ++ (l1 ++ l2) :: bs2 ->
     same_upto is_quiet
       (HandleAnalyze.run filled (streaming ok statusText chunks ending) u)
       (HandleAnalyze.run filled (streaming ok statusText chunks' ending) u)).
Proof.
  intros Hp Hj.
  split; [intros; apply runAnalysis_malformed_line; assumption|].
  split; [intros; apply handleAnalyze_malformed_line; assumption|].
  split.
  - intros p ok statusText ending u chunks chunks' bs1 l1 l2 bs2 E E'.
    apply runAnalysis_congruence; [apply quiet_visible|].
    intros u'. rewrite E, E'. apply run_batches_passed_over.
    intros u0. rewrite (runAnalysis_malformed_line p line u0 Hp Hj). auto.
  - intros filled ok statusText ending u chunks chunks' bs1 l1 l2 bs2 E E'.
    apply handleAnalyze_congruence; [apply quiet_visible|].
    intros u'. rewrite E, E'. apply run_batches_passed_over.
    intros u0. rewrite (handleAnalyze_malformed_line line u0 Hp Hj). auto.
Qed.

(** C4 at the malformed record of the specification. *)
Lemma C4_witness :
  let line := json "data: not-json" in
  let chunks := [frame "data: not-json" ++
                 frame "data: {'agent':'a','content':'b'}"] in
  let chunks' := [frame "data: {'agent':'a','content':'b'}"] in
  startsWith line data_prefix = true /\
  JSON.parse (slice line 6) = None /\
  same_upto is_quiet
    (HandleAnalyze.run true (streaming true [] chunks Net.EOF) idle_form)
    (HandleAnalyze.run true (streaming true [] chunks' Net.EOF) idle_form).
Proof.
  intros line chunks chunks'.
  assert (H1 : startsWith line data_prefix = true) by reflexivity.
  assert (H2 : JSON.parse (slice line 6) = None) by (vm_compute; reflexivity).
  split; [exact H1|]. split; [exact H2|].
  destruct (C4_malformed_record_is_skipped line H1 H2) as (_ & _ & _ & Hrun).
  apply (Hrun true true [] Net.EOF idle_form chunks chunks'
           [] [] [json "data: {'agent':'a','content':'b'}"] []);
    vm_compute; reflexivity.
Defined.

(* ===================================================================== *)
(** ** Dispatch *)
(* ===================================================================== *)

#[local] Instance messages_untouched_invariant : Invariant messages_untouched.
Proof.
split; unfold messages_untouched.
- auto.
- intros u t1 u1 t2 u2 [H1 H2] [K1 K2]. split; congruence.
Qed.

Lemma try_catch_swallow_final {UI} (m : M UI unit) (u : UI) :
  final (try_catch m swallow_SyntaxError u) = final (m u).
Proof.
unfold try_catch. destruct (completion (m u)); try reflexivity.
unfold swallow_SyntaxError.
destruct (Exception.instanceof_SyntaxError e); reflexivity.
Qed.

(** Reading the metadata leaves the accumulator and the active agent. *)
Lemma on_metadata_dispatch_untouched (p : RunAnalysis.Page) (event : JsValue) :
  keeps dispatch_untouched (RunAnalysis.on_metadata p event).
Proof.
unfold_pages. repeat keeps_step ltac:(split; reflexivity).
Qed.

Ltac run_get H :=
  rewrite ?bind_assoc; unfold get at 1; rewrite H, bind_ret.

(** An event that is neither [done] nor an [error] reaches the dispatch
    test, and then the reading of its metadata. *)
Lemma runAnalysis_event_eq (p : RunAnalysis.Page)
    (event done error : JsValue) (u : RunAnalysis.UI) :
  Get event (str "done") = Some done -> truthy done = false ->
  Get event (str "error") = Some error -> truthy error = false ->
  let agent := OptGet event (str "agent") in
  let content := OptGet event (str "content") in
  let u1 := RunAnalysis.mkUI (RunAnalysis.outputs u) (RunAnalysis.isRunning u)
              agent (RunAnalysis.forecast u) (RunAnalysis.marketData u)
              (RunAnalysis.threatLevel u) in
  let u2 := RunAnalysis.mkUI
              (RunAnalysis.outputs u ++
               [RunAnalysis.mkAgentOutput agent content
                  (or_undefined (OptGet event (str "thought_type")))])
              (RunAnalysis.isRunning u)
              agent (RunAnalysis.forecast u) (RunAnalysis.marketData u)
              (RunAnalysis.threatLevel u) in
  RunAnalysis.handle_event p event u =
  if truthy agent && truthy content
  then after [Rendered u1; Rendered u2] (RunAnalysis.on_metadata p event u2)
  else RunAnalysis.on_metadata p event u.
Proof.
intros H3 H4 H5 H6 agent content u1 u2.
pose proof (Get_defined event _ (str "agent") _ H3) as Ha.
pose proof (Get_defined event _ (str "content") _ H3) as Hc.
pose proof (Get_defined event _ (str "thought_type") _ H3) as Ht.
fold agent in Ha. fold content in Hc.
unfold RunAnalysis.handle_event.
run_get H3. rewrite H4. cbn [when]. rewrite bind_ret.
run_get H5. rewrite H6. cbn [when]. rewrite bind_ret.
run_get Ha. unfold and_then.
destruct (truthy agent) eqn:Ea; cbn [andb].
- run_get Hc.
  destruct (truthy content) eqn:Ec; cbn [when].
  + rewrite bind_assoc. run_get Ha.
    unfold RunAnalysis.setActiveAgent, RunAnalysis.setOutputs.
    rewrite !bind_assoc, bind_set.
    run_get Ha. run_get Hc. run_get Ht.
    rewrite ?bind_assoc, bind_set, after_after. reflexivity.
  + rewrite bind_ret. reflexivity.
- rewrite bind_ret, Ea. cbn [when]. rewrite bind_ret. reflexivity.
Qed.

Lemma runAnalysis_event_dispatch (p : RunAnalysis.Page)
    (event done error : JsValue) (u : RunAnalysis.UI) :
  Get event (str "done") = Some done -> truthy done = false ->
  Get event (str "error") = Some error -> truthy error = false ->
  let agent := OptGet event (str "agent") in
  let content := OptGet event (str "content") in
  let r := RunAnalysis.handle_event p event u in
  if truthy agent && truthy content
  then RunAnalysis.outputs (final r) =
         RunAnalysis.outputs u ++
         [RunAnalysis.mkAgentOutput agent content
            (or_undefined (OptGet event (str "thought_type")))] /\
       RunAnalysis.activeAgent (final r) = agent
  else RunAnalysis.outputs (final r) = RunAnalysis.outputs u /\
       RunAnalysis.activeAgent (final r) = RunAnalysis.activeAgent u.
Proof.
intros H3 H4 H5 H6 agent content r. subst r.
rewrite (runAnalysis_event_eq p event done error u H3 H4 H5 H6).
fold agent content.
destruct (truthy agent && truthy content).
- cbn [after final].
  match goal with
  | |- context [RunAnalysis.on_metadata p event ?u2] =>
      destruct (on_metadata_dispatch_untouched p event u2) as [Ho Hg]
  end.
  rewrite Ho, Hg. split; reflexivity.
- exact (on_metadata_dispatch_untouched p event u).
Qed.

Lemma handleAnalyze_recommendation_untouched (data : JsValue) (final_ : JsValue) :
  keeps messages_untouched
    (wanted <- and_then final_
                 (metadata <- get data "metadata" ;;
                  ret (OptGet metadata (str "recommendation"))) ;;
     when (truthy wanted)
       (metadata <- get data "metadata" ;;
        rec <- get metadata "recommendation" ;;
        recommended_price <- get rec "recommended_price" ;;
        HandleAnalyze.Number recommended_price ;;
        confidence <- get rec "confidence" ;;
        HandleAnalyze.Number confidence ;;
        price_change_percent <- get rec "price_change_percent" ;;
        HandleAnalyze.Number price_change_percent ;;
        HandleAnalyze.setRecommendation
          (Some (HandleAnalyze.Normalised rec)))).
Proof.
unfold_pages. repeat keeps_step ltac:(split; reflexivity).
Qed.

Lemma handleAnalyze_event_eq (data done error : JsValue)
    (u : HandleAnalyze.UI) :
  Get data (str "done") = Some done -> truthy done = false ->
  Get data (str "error") = Some error -> truthy error = false ->
  let agent := OptGet data (str "agent") in
  exists (final_ : JsValue) (t : list (Observation HandleAnalyze.UI)),
    HandleAnalyze.handle_data data u =
    if truthy agent
    then
      after t
        ((wanted <- and_then final_
                      (metadata <- get data "metadata" ;;
                       ret (OptGet metadata (str "recommendation"))) ;;
          when (truthy wanted)
            (metadata <- get data "metadata" ;;
             rec <- get metadata "recommendation" ;;
             recommended_price <- get rec "recommended_price" ;;
             HandleAnalyze.Number recommended_price ;;
             confidence <- get rec "confidence" ;;
             HandleAnalyze.Number confidence ;;
             price_change_percent <- get rec "price_change_percent" ;;
             HandleAnalyze.Number price_change_percent ;;
             HandleAnalyze.setRecommendation
               (Some (HandleAnalyze.Normalised rec))))
           (HandleAnalyze.mkUI (HandleAnalyze.status u)
              (HandleAnalyze.messages u ++ [data]) agent
              (HandleAnalyze.recommendation u) (HandleAnalyze.error u)))
    else mkResult (Normal tt) u [].
Proof.
intros H3 H4 H5 H6 agent.
pose proof (Get_defined data _ (str "agent") _ H3) as Ha.
pose proof (Get_defined data _ (str "is_final") _ H3) as Hf.
fold agent in Ha.
unfold HandleAnalyze.handle_data.
destruct (truthy agent) eqn:Ea.
- destruct (truthy (JBool (strict_eq_string agent (str "strategist"))))
    eqn:Es.
  + exists (OptGet data (str "is_final")). eexists.
    run_get H3. rewrite H4. cbn [when]. rewrite bind_ret.
    run_get H5. rewrite H6. cbn [when]. rewrite bind_ret.
    run_get Ha. rewrite Ea. cbn [when].
    run_get Ha.
    unfold HandleAnalyze.setActiveAgent at 1, HandleAnalyze.setMessages.
    rewrite !bind_set, after_after.
    cbn [HandleAnalyze.status HandleAnalyze.messages
         HandleAnalyze.activeAgent HandleAnalyze.recommendation
         HandleAnalyze.error].
    run_get Ha.
    unfold and_then at 1. rewrite Es. run_get Hf.
    reflexivity.
  + exists (JBool (strict_eq_string agent (str "strategist"))). eexists.
    run_get H3. rewrite H4. cbn [when]. rewrite bind_ret.
    run_get H5. rewrite H6. cbn [when]. rewrite bind_ret.
    run_get Ha. rewrite Ea. cbn [when].
    run_get Ha.
    unfold HandleAnalyze.setActiveAgent at 1, HandleAnalyze.setMessages.
    rewrite !bind_set, after_after.
    cbn [HandleAnalyze.status HandleAnalyze.messages
         HandleAnalyze.activeAgent HandleAnalyze.recommendation
         HandleAnalyze.error].
    run_get Ha.
    unfold and_then at 1. rewrite Es, bind_ret.
    reflexivity.
- exists JUndefined, [].
  run_get H3. rewrite H4. cbn [when]. rewrite bind_ret.
  run_get H5. rewrite H6. cbn [when]. rewrite bind_ret.
  run_get Ha. rewrite Ea. reflexivity.
Qed.

Lemma handleAnalyze_event_dispatch (data done error : JsValue)
    (u : HandleAnalyze.UI) :
  Get data (str "done") = Some done -> truthy done = false ->
  Get data (str "error") = Some error -> truthy error = false ->
  let agent := OptGet data (str "agent") in
  let r := HandleAnalyze.handle_data data u in
  if truthy agent
  then HandleAnalyze.messages (final r) =
         HandleAnalyze.messages u ++ [data] /\
       HandleAnalyze.activeAgent (final r) = agent
  else final r = u.
Proof.
intros H3 H4 H5 H6 agent r. subst r.
destruct (handleAnalyze_event_eq data done error u H3 H4 H5 H6)
  as (final_ & t & ->).
fold agent.
destruct (truthy agent); [|reflexivity].
cbn [after final].
match goal with
| |- context [bind ?m ?k ?u2] =>
    destruct (handleAnalyze_recommendation_untouched data final_ u2)
      as [Ho Hg]
end.
rewrite Ho, Hg. split; reflexivity.
Qed.

Lemma runAnalysis_line_final (p : RunAnalysis.Page) (line : jsstring)
    (event : JsValue) (u : RunAnalysis.UI) :
  startsWith line data_prefix = true ->
  JSON.parse (slice line 6) = Some event ->
  final (RunAnalysis.handle_line p line u) =
  final (RunAnalysis.handle_event p event u).
Proof.
intros H1 H2. unfold RunAnalysis.handle_line. rewrite H1. cbn [negb].
rewrite try_catch_swallow_final. unfold JSON_parse. rewrite H2.
rewrite bind_assoc, bind_observe, bind_ret. reflexivity.
Qed.

Lemma handleAnalyze_line_final (line : jsstring) (data : JsValue)
    (u : HandleAnalyze.UI) :
  startsWith line data_prefix = true ->
  JSON.parse (slice line 6) = Some data ->
  final (HandleAnalyze.handle_line line u) =
  final (HandleAnalyze.handle_data data u).
Proof.
intros H1 H2. unfold HandleAnalyze.handle_line. rewrite H1. cbn [when].
rewrite try_catch_swallow_final. unfold JSON_parse. rewrite H2.
rewrite bind_assoc, bind_observe, bind_ret. reflexivity.
Qed.

(** C5, as the code has it.  For a data record whose event has neither a
    truthy [done] nor a truthy [error]: [runAnalysis] appends the event to
    [outputs] and makes its agent the active one exactly when both
    [event.agent] and [event.content] are truthy, and otherwise leaves
    both as they were; [handleAnalyze] appends the event to [messages]
    and makes its agent the active one exactly when [data.agent] is
    truthy, whatever its content, and otherwise changes nothing. *)
Theorem C5_dispatch_condition (line : jsstring) (event done error : JsValue) :
  startsWith line data_prefix = true ->
  JSON.parse (slice line 6) = Some event ->
  Get event (str "done") = Some done -> truthy done = false ->
  Get event (str "error") = Some error -> truthy error = false ->
  let agent := OptGet event (str "agent") in
  let content := OptGet event (str "content") in
  (forall p u,
     let r := RunAnalysis.handle_line p line u in
     if truthy agent && truthy content
     then RunAnalysis.outputs (final r) =
            RunAnalysis.outputs u ++
            [RunAnalysis.mkAgentOutput agent content
               (or_undefined (OptGet event (str "thought_type")))] /\
          RunAnalysis.activeAgent (final r) = agent
     else RunAnalysis.outputs (final r) = RunAnalysis.outputs u /\
          RunAnalysis.activeAgent (final r) = RunAnalysis.activeAgent u) /\
  (forall u,
     let r := HandleAnalyze.handle_line line u in
     if truthy agent
     then HandleAnalyze.messages (final r) =
            HandleAnalyze.messages u ++ [event] /\
          HandleAnalyze.activeAgent (final r) = agent
     else final r = u).
Proof.
intros H1 H2 H3 H4 H5 H6 agent content. split.
- intros p u r. subst r.
  rewrite (runAnalysis_line_final p line event u H1 H2).
  exact (runAnalysis_event_dispatch p event done error u H3 H4 H5 H6).
- intros u r. subst r.
  rewrite (handleAnalyze_line_final line event u H1 H2).
  exact (handleAnalyze_event_dispatch event done error u H3 H4 H5 H6).
Qed.

(** C5 at an event with an agent and a content. *)
Lemma C5_witness :
  let line := json "data: {'agent':'scanner','content':'scan start'}" in
  let event := JObject [(str "agent", JString (str "scanner"));
                        (str "content", JString (str "scan start"))] in
  startsWith line data_prefix = true /\
  JSON.parse (slice line 6) = Some event /\
  RunAnalysis.outputs
    (final (RunAnalysis.handle_line RunAnalysis.LaunchDetector line idle)) =
  [RunAnalysis.mkAgentOutput (JString (str "scanner"))
     (JString (str "scan start")) JUndefined].
Proof.
intros line event.
assert (H1 : startsWith line data_prefix = true) by reflexivity.
assert (H2 : JSON.parse (slice line 6) = Some event)
  by (vm_compute; reflexivity).
split; [exact H1|]. split; [exact H2|].
destruct (C5_dispatch_condition line event JUndefined JUndefined
            H1 H2 eq_refl eq_refl eq_refl eq_refl) as (Hrun & _).
exact (proj1 (Hrun RunAnalysis.LaunchDetector idle)).
Defined.

(** C5 as stated fails in [handleAnalyze]: an event with an agent and no
    content is appended to the messages and its agent made active. *)
Lemma C5_counterexample_agent_without_content :
  let event := JObject [(str "agent", JString (str "scout"))] in
  let r := HandleAnalyze.handle_line (json "data: {'agent':'scout'}")
             idle_form in
  JSON.parse (json "{'agent':'scout'}") = Some event /\
  Get event (str "content") = Some JUndefined /\
  HandleAnalyze.messages (final r) = [event] /\
  HandleAnalyze.messages (final r) <> HandleAnalyze.messages idle_form /\
  HandleAnalyze.activeAgent (final r) = JString (str "scout").
Proof. vm_compute. repeat split. discriminate. Qed.

(* ===================================================================== *)
(** ** The accumulator *)
(* ===================================================================== *)

Lemma last_cons {A} (b a : A) (l : list A) : last (b :: l) a = last l b.
Proof.
revert a b. induction l as [|c l IH]; intros a b; [reflexivity|].
change (last (b :: c :: l) a) with (last (c :: l) a).
rewrite (IH a c), (IH b c). reflexivity.
Qed.

Lemma last_app_default {A} (l1 l2 : list A) (a : A) :
  last (l1 ++ l2) a = last l2 (last l1 a).
Proof.
revert a. induction l1 as [|b l1 IH]; intros a; [reflexivity|].
change ((b :: l1) ++ l2) with (b :: (l1 ++ l2)).
rewrite !last_cons. apply IH.
Qed.

Lemma only_extended_app {A} (l1 l2 : list (list A)) (a : list A) :
  only_extended (a :: l1) ->
  only_extended (last l1 a :: l2) ->
  only_extended (a :: l1 ++ l2).
Proof.
revert a. induction l1 as [|b l1 IH]; intros a H1 H2; [exact H2|].
rewrite last_cons in H2. destruct H1 as [Hab H1].
split; [exact Hab|]. apply IH; assumption.
Qed.

Lemma extends_refl {A} (a : list A) : extends a a.
Proof. exists []. symmetry. apply app_nil_r. Qed.

Lemma extends_app {A} (a s : list A) : extends a (a ++ s).
Proof. exists s. reflexivity. Qed.

#[local] Instance grown_invariant : Invariant grown.
Proof.
split; unfold grown.
- intros u. split; [exact I | reflexivity].
- intros u t1 u1 t2 u2 [H1 E1] [H2 E2].
  rewrite rendered_app, map_app. split.
  + apply only_extended_app; [exact H1|]. rewrite <- E1. exact H2.
  + rewrite last_app_default, <- E1. exact E2.
Qed.

(** The read loop keeps what handling a line keeps, if its two ghost
    marks do. *)
Lemma keeps_read_loop {UI} (R : UI -> list (Observation UI) -> UI -> Prop)
    `{!Invariant R} (h : jsstring -> M UI unit) (ending : Net.Ending) :
  (forall x, keeps R (h x)) ->
  (forall u r, R u [Reader_state r] u) ->
  (forall u b, includes b delimiter = false -> R u [Iteration_end b] u) ->
  forall queue td buffer, keeps R (read_loop h queue ending td buffer).
Proof.
intros Hh Hr Hi queue.
induction queue as [|value rest IH]; intros td buffer.
- cbn [read_loop]. destruct ending.
  + intros u. apply Hr.
  + apply keeps_bind; [typeclasses eauto | intros u; apply Hr |].
    intros _. apply keeps_throw. typeclasses eauto.
- cbn [read_loop]. rewrite consume_eq.
  destruct (TextDecoder.decode td value) as [td' text].
  apply keeps_bind; [typeclasses eauto | intros u; apply Hr |].
  intros _.
  apply keeps_bind; [typeclasses eauto | |].
  + apply keeps_for_of; [typeclasses eauto | exact Hh].
  + intros _.
    apply keeps_bind; [typeclasses eauto | |].
    * intros u. apply Hi, last_split_no_delimiter.
    * intros _. apply IH.
Qed.

Ltac grown_atom :=
  unfold grown; cbn;
  split; [| reflexivity];
  first [ exact I
        | split; [first [apply extends_refl | apply extends_app] | exact I] ].

Lemma runAnalysis_line_grown (p : RunAnalysis.Page) (line : jsstring) :
  keeps grown (RunAnalysis.handle_line p line).
Proof.
unfold_pages. repeat keeps_step grown_atom.
Qed.

(** After its resets a run only ever extends the accumulator. *)
Lemma runAnalysis_try_grown (p : RunAnalysis.Page) (f : Net.Fetch) :
  keeps grown
    (try_finally (try_catch (RunAnalysis.stream p f) RunAnalysis.on_failure)
       RunAnalysis.cleanup).
Proof.
unfold RunAnalysis.stream, RunAnalysis.on_failure, RunAnalysis.cleanup,
  RunAnalysis.setIsRunning, RunAnalysis.setActiveAgent.
repeat keeps_step grown_atom.
apply keeps_read_loop;
  [typeclasses eauto
  | intros; apply runAnalysis_line_grown
  | intros; grown_atom
  | intros; grown_atom].
Qed.

(** C8.  The second state a run renders, after the one that shows it
    running, has the accumulator cleared; from there on every state the
    run renders has the accumulator of the state before it, extended at
    its end or unchanged. *)
Theorem C8_outputs_cleared_then_append_only
    (p : RunAnalysis.Page) (f : Net.Fetch) (u : RunAnalysis.UI) :
  exists first cleared later,
    rendered (trace (RunAnalysis.run p f u)) = first :: cleared :: later /\
    RunAnalysis.outputs cleared = [] /\
    only_extended (map RunAnalysis.outputs (cleared :: later)).
Proof.
unfold RunAnalysis.run, RunAnalysis.runAnalysis.
rewrite (bind_eq_normal _ _ _ _ _ _ (reset_eq p u)).
cbn [after trace]. rewrite rendered_app.
destruct (runAnalysis_try_grown p f (runAnalysis_start p u)) as [Hg _].
rewrite reset_cleared in Hg.
destruct p; cbn [RunAnalysis.reset] in *; cbn in *;
  do 3 eexists; (split; [reflexivity|]); (split; [reflexivity|]);
  cbn; repeat (split; [apply extends_refl|]); exact Hg.
Qed.

(* ===================================================================== *)
(** ** The leftover buffer *)
(* ===================================================================== *)

Ltac leftovers_atom :=
  unfold leftovers_undelimited; cbn; constructor.

Lemma runAnalysis_line_leftovers (p : RunAnalysis.Page) (line : jsstring) :
  keeps leftovers_undelimited (RunAnalysis.handle_line p line).
Proof.
unfold_pages. repeat keeps_step leftovers_atom.
Qed.

Lemma handleAnalyze_line_leftovers (line : jsstring) :
  keeps leftovers_undelimited (HandleAnalyze.handle_line line).
Proof.
unfold_pages. repeat keeps_step leftovers_atom.
Qed.

Lemma read_loop_leftovers {UI} (h : jsstring -> M UI unit)
    (ending : Net.Ending) (queue : list (list Z)) (td : TextDecoder.t)
    (buffer : jsstring) :
  (forall x, keeps leftovers_undelimited (h x)) ->
  keeps leftovers_undelimited (read_loop h queue ending td buffer).
Proof.
intros Hh. apply keeps_read_loop; [typeclasses eauto | exact Hh | |].
- intros u r. constructor.
- intros u b Hb. constructor; [exact Hb | constructor].
Qed.

Lemma runAnalysis_leftovers (p : RunAnalysis.Page) (f : Net.Fetch) :
  keeps leftovers_undelimited (RunAnalysis.runAnalysis p f).
Proof.
unfold RunAnalysis.runAnalysis, RunAnalysis.reset, RunAnalysis.stream,
  RunAnalysis.on_failure, RunAnalysis.cleanup,
  RunAnalysis.setOutputs, RunAnalysis.setIsRunning,
  RunAnalysis.setActiveAgent, RunAnalysis.setForecast,
  RunAnalysis.setMarketData, RunAnalysis.setThreatLevel.
repeat keeps_step leftovers_atom;
  apply read_loop_leftovers, runAnalysis_line_leftovers.
Qed.

Lemma handleAnalyze_leftovers (filled : bool) (f : Net.Fetch) :
  keeps leftovers_undelimited (HandleAnalyze.handleAnalyze filled f).
Proof.
unfold HandleAnalyze.handleAnalyze, HandleAnalyze.stream,
  HandleAnalyze.on_failure,
  HandleAnalyze.setStatus, HandleAnalyze.setMessages,
  HandleAnalyze.setActiveAgent, HandleAnalyze.setRecommendation,
  HandleAnalyze.setError.
repeat keeps_step leftovers_atom;
  apply read_loop_leftovers, handleAnalyze_line_leftovers.
Qed.

(** C10.  The head of an iteration leaves a buffer without the delimiter,
    and its lines and that buffer, joined by the delimiter, are the old
    buffer followed by the text just decoded: every record completed by
    the chunk is among the lines of this iteration.  So in every run the
    buffer at the end of each iteration of the read loop holds no
    delimiter. *)
Theorem C10_leftover_buffer_has_no_delimiter :
  (forall td buffer value,
     let '(td', buffer', lines) := consume td buffer value in
     includes buffer' delimiter = false /\
     join (lines ++ [buffer']) delimiter =
     buffer ++ snd (TextDecoder.decode td value)) /\
  (forall p f u,
     Forall (fun b => includes b delimiter = false)
       (iteration_ends (trace (RunAnalysis.run p f u)))) /\
  (forall filled f u,
     Forall (fun b => includes b delimiter = false)
       (iteration_ends (trace (HandleAnalyze.run filled f u)))).
Proof.
split; [|split].
- intros td buffer value. rewrite consume_eq.
  destruct (TextDecoder.decode td value) as [td' text]. cbn [snd].
  split; [apply last_split_no_delimiter|].
  rewrite <- app_removelast_last by apply split_not_nil.
  apply join_split.
- intros p f u. apply (runAnalysis_leftovers p f u).
- intros filled f u. apply (handleAnalyze_leftovers filled f u).
Qed.

(* ===================================================================== *)
(** ** The reader *)
(* ===================================================================== *)

Lemma unmarked_no_reader {UI A} (m : M UI A) (u : UI) :
  keeps unmarked m -> reader_states (trace (m u)) = [].
Proof. intros H. apply unmarked_reader_states, H. Qed.

Lemma reader_states_bind_r {UI A B} (m : M UI A) (k : A -> M UI B) (u : UI) :
  (forall a, keeps unmarked (k a)) ->
  reader_states (trace (bind m k u)) = reader_states (trace (m u)).
Proof.
intros Hk. unfold bind. destruct (completion (m u)); try reflexivity.
cbn [after trace].
rewrite reader_states_app, (unmarked_no_reader (k a) _ (Hk a)).
apply app_nil_r.
Qed.

Lemma reader_states_try_catch {UI A} (m : M UI A)
    (h : Exception.t -> M UI A) (u : UI) :
  (forall e, keeps unmarked (h e)) ->
  reader_states (trace (try_catch m h u)) = reader_states (trace (m u)).
Proof.
intros Hh. unfold try_catch. destruct (completion (m u)); try reflexivity.
cbn [after trace].
rewrite reader_states_app, (unmarked_no_reader (h e) _ (Hh e)).
apply app_nil_r.
Qed.

Lemma reader_states_try_finally {UI A} (m : M UI A) (c : M UI unit) (u : UI) :
  keeps unmarked c ->
  reader_states (trace (try_finally m c u)) = reader_states (trace (m u)).
Proof.
intros Hc. unfold try_finally. cbn [trace].
rewrite reader_states_app, (unmarked_no_reader c _ Hc).
apply app_nil_r.
Qed.

Lemma reader_after_last {UI} (t : list (Observation UI))
    (l : list Net.Reader) (rd : Net.Reader) :
  reader_states t = l ++ [rd] -> reader_after t = Some rd.
Proof.
intros H. unfold reader_after. rewrite H, rev_unit. reflexivity.
Qed.

(** The reader as the read loop leaves it: still locked, and on a stream
    still readable exactly when handling a line threw. *)
Lemma read_loop_reader {UI} (h : jsstring -> M UI unit)
    (ending : Net.Ending) (queue : list (list Z)) :
  (forall x, keeps unmarked (h x)) ->
  forall td buffer u,
    exists l rd,
      reader_states (trace (read_loop h queue ending td buffer u)) =
        l ++ [rd] /\
      Net.locked rd = true /\
      (Net.stream rd = Net.Readable <->
       exists x,
         completion (run_batches h (batches td buffer queue) u) = Throw x).
Proof.
intros Hh. induction queue as [|value rest IH]; intros td buffer u.
- cbn [read_loop batches run_batches].
  destruct ending as [|e].
  + exists [], (Net.mkReader [] Net.EOF Net.Closed true).
    split; [reflexivity|]. split; [reflexivity|].
    split; [discriminate | intros [x Hx]; discriminate].
  + exists [], (Net.mkReader [] (Net.ReadRejects e) Net.Errored true).
    split; [reflexivity|]. split; [reflexivity|].
    split; [discriminate | intros [x Hx]; discriminate].
- cbn [read_loop batches].
  destruct (consume td buffer value) as [[td' buffer'] lines].
  cbn [run_batches]. rewrite bind_observe.
  cbn [after trace app reader_states].
  pose proof (unmarked_no_reader (for_of lines h) u
                (keeps_for_of unmarked lines h Hh)) as Hf.
  unfold bind at 1 3.
  destruct (for_of_completion h lines u) as [E | [e E]]; rewrite E.
  + rewrite bind_observe. cbn [after trace app].
    rewrite reader_states_app, Hf. cbn [app reader_states].
    destruct (IH td' buffer' (final (for_of lines h u)))
      as (l & rd & Hl & Hk & Hs).
    exists (Net.mkReader rest ending Net.Readable true :: l), rd.
    rewrite Hl. split; [reflexivity|]. split; [exact Hk|].
    cbn [after completion]. exact Hs.
  + cbn [trace completion]. rewrite Hf.
    exists [], (Net.mkReader rest ending Net.Readable true).
    split; [reflexivity|]. split; [reflexivity|].
    split; [eauto | reflexivity].
Qed.

Lemma reader_states_reset (p : RunAnalysis.Page) (u : RunAnalysis.UI) :
  reader_states (trace (RunAnalysis.reset p u)) = [].
Proof. destruct p; reflexivity. Qed.

Lemma runAnalysis_on_failure_unmarked (e : Exception.t) :
  keeps unmarked (RunAnalysis.on_failure e).
Proof. unfold_pages. repeat keeps_step ltac:(reflexivity). Qed.

Lemma runAnalysis_cleanup_unmarked : keeps unmarked RunAnalysis.cleanup.
Proof. unfold_pages. repeat keeps_step ltac:(reflexivity). Qed.

Lemma handleAnalyze_on_failure_unmarked (e : Exception.t) :
  keeps unmarked (HandleAnalyze.on_failure e).
Proof. unfold_pages. repeat keeps_step ltac:(reflexivity). Qed.

Lemma holds_connection_iff (rd : Net.Reader) :
  Net.locked rd = true ->
  (Net.holds_connection rd = true <-> Net.stream rd = Net.Readable).
Proof.
intros H. unfold Net.holds_connection. rewrite H.
destruct (Net.stream rd); simpl; split; intros; congruence.
Qed.

(** C9, as the code has it.  A run never releases or cancels the reader
    it takes: at every exit the reader still holds its lock.  The
    connection behind it is no longer held only when the loop read the
    body to its end (the stream closed) or a [read()] was rejected (the
    stream errored, as on cancellation); when handling a record threw --
    an [error] record, a [TypeError] -- the run leaves the reader locked
    on a stream that is still readable. *)
Theorem C9_reader_is_never_released :
  (forall p ok statusText chunks ending u,
     exists rd,
       reader_after
         (trace (RunAnalysis.run p (streaming ok statusText chunks ending) u))
       = Some rd /\
       Net.locked rd = true /\
       (Net.holds_connection rd = true <->
        exists x,
          completion
            (run_batches (RunAnalysis.handle_line p)
               (batches TextDecoder.create [] chunks)
               (runAnalysis_start p u)) = Throw x)) /\
  (forall statusText chunks ending u,
     exists rd,
       reader_after
         (trace (HandleAnalyze.run true
                   (streaming true statusText chunks ending) u))
       = Some rd /\
       Net.locked rd = true /\
       (Net.holds_connection rd = true <->
        exists x,
          completion
            (run_batches HandleAnalyze.handle_line
               (batches TextDecoder.create [] chunks)
               handleAnalyze_start) = Throw x)).
Proof.
split.
- intros p ok statusText chunks ending u.
  destruct (read_loop_reader (RunAnalysis.handle_line p) ending chunks
              (runAnalysis_line_unmarked p) TextDecoder.create []
              (runAnalysis_start p u)) as (l & rd & Hl & Hk & Hs).
  exists rd. split; [|split; [exact Hk|]].
  + apply (reader_after_last _ (Net.getReader (Net.mkBody chunks ending) :: l)).
    unfold RunAnalysis.run, RunAnalysis.runAnalysis.
    rewrite (bind_eq_normal _ _ _ _ _ _ (reset_eq p u)).
    cbn [after trace].
    rewrite reader_states_app, reader_states_reset. cbn [app].
    rewrite reader_states_try_finally by apply runAnalysis_cleanup_unmarked.
    rewrite reader_states_try_catch
      by apply runAnalysis_on_failure_unmarked.
    unfold RunAnalysis.stream, streaming, await_fetch.
    rewrite bind_ret. cbn [Net.body Net.chunks Net.ending].
    rewrite bind_observe. cbn [after trace app reader_states].
    rewrite Hl. reflexivity.
  + rewrite (holds_connection_iff rd Hk). exact Hs.
- intros statusText chunks ending u.
  destruct (read_loop_reader HandleAnalyze.handle_line ending chunks
              handleAnalyze_line_unmarked TextDecoder.create []
              handleAnalyze_start) as (l & rd & Hl & Hk & Hs).
  exists rd. split; [|split; [exact Hk|]].
  + apply (reader_after_last _ (Net.getReader (Net.mkBody chunks ending) :: l)).
    unfold HandleAnalyze.run, HandleAnalyze.handleAnalyze. cbn [negb].
    unfold HandleAnalyze.setStatus at 1, HandleAnalyze.setMessages at 1,
      HandleAnalyze.setActiveAgent at 1,
      HandleAnalyze.setRecommendation at 1, HandleAnalyze.setError at 1.
    rewrite !bind_set, !after_after.
    cbn [HandleAnalyze.status HandleAnalyze.messages
         HandleAnalyze.activeAgent HandleAnalyze.recommendation
         HandleAnalyze.error app].
    fold handleAnalyze_start.
    cbn [after trace]. rewrite reader_states_app. cbn [reader_states app].
    rewrite reader_states_try_catch
      by apply handleAnalyze_on_failure_unmarked.
    unfold HandleAnalyze.stream, streaming, await_fetch.
    rewrite bind_ret. cbn [Net.ok Net.body Net.chunks Net.ending negb when].
    rewrite bind_ret, bind_observe. cbn [after trace app reader_states].
    rewrite reader_states_bind_r.
    * rewrite Hl. reflexivity.
    * intros _. unfold_pages. repeat keeps_step ltac:(reflexivity).
  + rewrite (holds_connection_iff rd Hk). exact Hs.
Qed.

(** C9 as stated fails: after an [error] record has ended the run, the
    reader is still locked on a readable stream, the next chunk unread. *)
Lemma C9_counterexample_error_record_leaves_reader_open :
  exists rd,
    reader_after
      (trace (RunAnalysis.run RunAnalysis.MarketTrends
                (streaming true []
                   [frame "data: {'error':'boom'}";
                    frame "data: {'agent':'a','content':'b'}"] Net.EOF)
                idle)) = Some rd /\
    Net.holds_connection rd = true /\
    Net.pending rd = [frame "data: {'agent':'a','content':'b'}"].
Proof. vm_compute. eexists. repeat split. Qed.

(* ===================================================================== *)
(** ** The platform operations on examples *)
(* ===================================================================== *)

Example split_keeps_the_last_fragment :
  split (str "a" ++ delimiter ++ str "b" ++ delimiter ++ str "c") delimiter
  = [str "a"; str "b"; str "c"] /\
  split (str "a" ++ delimiter) delimiter = [str "a"; []] /\
  split [] delimiter = [[]] /\
  split (str "a" ++ [10; 10; 10] ++ str "b") delimiter
  = [str "a"; 10 :: str "b"].
Proof. vm_compute. repeat split. Qed.

Example decode_pending_bom_and_errors :
  snd (TextDecoder.decode TextDecoder.create [0xEF; 0xBB; 0xBF; 0x61]) = [0x61]
  /\ snd (TextDecoder.decode TextDecoder.create [0xF0; 0x9F; 0x98; 0x80])
     = [0xD83D; 0xDE00]
  /\ snd (TextDecoder.decode TextDecoder.create [0x61; 0xE2; 0x82]) = [0x61]
  /\ snd (TextDecoder.decode TextDecoder.create [0xE2; 0x41; 0xFF])
     = [0xFFFD; 0x41; 0xFFFD]
  /\ snd (TextDecoder.decode TextDecoder.create [0xC0; 0x80])
     = [0xFFFD; 0xFFFD].
Proof. vm_compute. repeat split. Qed.

Example parse_values :
  JSON.parse (json " {'a': [1, -2.5e3, true, null, 'x\u0041\n'], 'a': {}} ")
  = Some (JObject
            [(str "a",
              JArray [JNumber (mk_number 1 0); JNumber (mk_number (-25) 2);
                      JBool true; JNull; JString [120; 65; 10]]);
             (str "a", JObject [])])
  /\ option_map (fun v => Get v (str "a"))
       (JSON.parse (json "{'a': 1, 'a': 2}"))
     = Some (Some (JNumber (mk_number 2 0)))
  /\ JSON.parse (json "not-json") = None
  /\ JSON.parse (json "{'a': 1,}") = None
  /\ JSON.parse (json "[01]") = None
  /\ JSON.parse (json "'tab	inside'") = None
  /\ JSON.parse (json "{'done':true} x") = None
  /\ JSON.parse [] = None.
Proof. vm_compute. repeat split. Qed.

Example truthiness :
  map truthy
    [JUndefined; JNull; JBool false; JNumber (mk_number 0 0);
     JNumber (mk_number 1 (-400)); JString []]
  = [false; false; false; false; false; false] /\
  map truthy
    [JBool true; JNumber (mk_number 5 (-324)); JString (str "0");
     JArray []; JObject []]
  = [true; true; true; true; true].
Proof. vm_compute. split; reflexivity. Qed.

(* ===================================================================== *)
(** ** The scenarios of the specification *)
(* ===================================================================== *)

(** Two fragments of one agent, then [done]: two entries, no console
    line, the markers cleared. *)
Example scenario_two_fragments_then_done :
  let r := RunAnalysis.run RunAnalysis.LaunchDetector
             (streaming true []
                [frame "data: {'agent':'scanner','content':'scan start','thought_type':'observation'}";
                 frame "data: {'agent':'scanner','content':'found signal','is_final':true}";
                 frame "data: {'done':true}"] Net.EOF) idle in
  completion r = Normal tt /\
  console (trace r) = [] /\
  final r =
  RunAnalysis.mkUI
    [RunAnalysis.mkAgentOutput (JString (str "scanner"))
       (JString (str "scan start")) (JString (str "observation"));
     RunAnalysis.mkAgentOutput (JString (str "scanner"))
       (JString (str "found signal")) JUndefined]
    false JNull JNull JNull JNull.
Proof. vm_compute. repeat split. Qed.

(** A record cut in two chunks is dispatched once, whole. *)
Example scenario_record_cut_in_two :
  RunAnalysis.outputs
    (final (RunAnalysis.run RunAnalysis.CrisisDetector
              (streaming true []
                 [json "data: {'agent':'m";
                  frame "onitor','content':'ok'}"] Net.EOF) idle)) =
  [RunAnalysis.mkAgentOutput (JString (str "monitor")) (JString (str "ok"))
     JUndefined].
Proof. vm_compute. reflexivity. Qed.

(** A record that is not JSON, then a valid one: one entry, one parse
    diagnostic, a normal end. *)
Example scenario_malformed_then_valid :
  let r := RunAnalysis.run RunAnalysis.CrisisDetector
             (streaming true []
                [frame "data: not-json" ++
                 frame "data: {'agent':'a','content':'b'}"] Net.EOF) idle in
  completion r = Normal tt /\
  console (trace r) =
    [(str "SSE parse error:",
      Exception.SyntaxError Exception.EngineDefined)] /\
  RunAnalysis.outputs (final r) =
    [RunAnalysis.mkAgentOutput (JString (str "a")) (JString (str "b"))
       JUndefined].
Proof. vm_compute. repeat split. Qed.

(** A multi-byte character cut between two chunks is decoded whole. *)
Example scenario_utf8_cut_in_two :
  RunAnalysis.outputs
    (final (RunAnalysis.run RunAnalysis.CrisisDetector
              (streaming true []
                 [json "data: {'agent':'a','content':'" ++ [0xE2; 0x82];
                  [0xAC] ++ frame "'}"] Net.EOF) idle)) =
  [RunAnalysis.mkAgentOutput (JString (str "a")) (JString [0x20AC])
     JUndefined].
Proof. vm_compute. reflexivity. Qed.

(** A record that parses to [null] is no event: reading [done] of it
    throws a [TypeError], which ends the run as a failure. *)
Example scenario_null_record :
  let r := HandleAnalyze.run true
             (streaming true [] [frame "data: null"] Net.EOF) idle_form in
  HandleAnalyze.status (final r) = HandleAnalyze.error_ /\
  HandleAnalyze.error (final r) = Some Exception.EngineDefined.
Proof. vm_compute. split; reflexivity. Qed.

(** In [runAnalysis] a [done] record does end the inner loop it is
    handled in: the lines after it in the same iteration are not
    handled. *)
Lemma runAnalysis_done_ends_the_batch (p : RunAnalysis.Page)
    (line : jsstring) (rest : list jsstring) (u : RunAnalysis.UI) :
  completion (RunAnalysis.handle_line p line u) = Break ->
  for_of (line :: rest) (RunAnalysis.handle_line p) u =
  mkResult (Normal tt) (final (RunAnalysis.handle_line p line u))
    (trace (RunAnalysis.handle_line p line u)).
Proof.
intros H. cbn [for_of]. rewrite H. reflexivity.
Qed.

Lemma runAnalysis_done_breaks (p : RunAnalysis.Page) (line : jsstring)
    (u : RunAnalysis.UI) :
  is_done_record line = true ->
  completion (RunAnalysis.handle_line p line u) = Break.
Proof.
unfold is_done_record. intros H.
apply andb_true_iff in H as [H1 H2].
destruct (JSON.parse (slice line 6)) as [event|] eqn:Hj; [|discriminate].
destruct (Get event (str "done")) as [done|] eqn:Hd; [|discriminate].
pose proof (Get_defined event _ (str "metadata") _ Hd) as Hm.
unfold RunAnalysis.handle_line. rewrite H1. cbn [negb].
unfold try_catch, JSON_parse. rewrite Hj.
rewrite bind_assoc, bind_observe, bind_ret.
assert (E : completion (RunAnalysis.handle_event p event u) = Break).
{ unfold RunAnalysis.handle_event. run_get Hd. rewrite H2. cbn [when].
  unfold RunAnalysis.on_done. destruct p.
  - run_get Hm.
    destruct (truthy (OptGet (OptGet event (str "metadata"))
                        (str "market_data"))) eqn:Et; cbn [when].
    + run_get Hm.
      assert (Hk : Get (OptGet event (str "metadata")) (str "market_data") =
                   Some (OptGet (OptGet event (str "metadata"))
                           (str "market_data"))).
      { destruct (OptGet event (str "metadata")); try discriminate Et;
          reflexivity. }
      run_get Hk. reflexivity.
    + rewrite ?bind_assoc, bind_ret. reflexivity.
  - reflexivity.
  - reflexivity. }
unfold after. cbn [completion]. rewrite E. reflexivity.
Qed.

(* ===================================================================== *)
(** ** How every run returns *)
(* ===================================================================== *)

Section Settling.

Context {UI : Type}.

Lemma settles_ret {A} (a : A) : settles (@ret UI A a).
Proof. intros u. left. exists a. reflexivity. Qed.

Lemma settles_throw {A} (e : Exception.t) : settles (@throw UI A e).
Proof. intros u. right. exists e. reflexivity. Qed.

Lemma settles_set (f : UI -> UI) : settles (set f).
Proof. intros u. left. exists tt. reflexivity. Qed.

Lemma settles_observe (o : Observation UI) : settles (observe o).
Proof. intros u. left. exists tt. reflexivity. Qed.

Lemma settles_bind {A B} (m : M UI A) (k : A -> M UI B) :
  settles m -> (forall a, settles (k a)) -> settles (bind m k).
Proof.
intros Hm Hk u. unfold bind.
destruct (Hm u) as [[a Ha]|[e He]].
- rewrite Ha. cbn [after completion]. apply Hk.
- rewrite He. right. exists e. reflexivity.
Qed.

Lemma settles_when (c : bool) (m : M UI unit) :
  settles m -> settles (when c m).
Proof. intros Hm. destruct c; [exact Hm | apply settles_ret]. Qed.

Lemma settles_for_of (l : list jsstring) (h : jsstring -> M UI unit) :
  settles (for_of l h).
Proof.
intros u. destruct (for_of_completion h l u) as [E|[e E]].
- left. exists tt. exact E.
- right. exists e. exact E.
Qed.

Lemma settles_run_batches (h : jsstring -> M UI unit)
    (bs : list (list jsstring)) :
  settles (run_batches h bs).
Proof.
induction bs as [|b bs IH]; cbn [run_batches].
- apply settles_ret.
- apply settles_bind; [apply settles_for_of | intros _; exact IH].
Qed.

Lemma settles_read_loop (h : jsstring -> M UI unit) (ending : Net.Ending)
    (queue : list (list Z)) :
  forall td buffer, settles (read_loop h queue ending td buffer).
Proof.
induction queue as [|value rest IH]; intros td buffer; cbn [read_loop].
- destruct ending.
  + apply settles_observe.
  + apply settles_bind; [apply settles_observe|].
    intros _. apply settles_throw.
- destruct (consume td buffer value) as [[td' buffer'] lines].
  apply settles_bind; [apply settles_observe|]. intros _.
  apply settles_bind; [apply settles_for_of|]. intros _.
  apply settles_bind; [apply settles_observe|]. intros _.
  apply IH.
Qed.

Lemma settles_await_fetch (f : Net.Fetch) : settles (@await_fetch UI f).
Proof.
destruct f; cbn [await_fetch]; [apply settles_throw | apply settles_ret].
Qed.

Lemma resolves_ret {A} (a : A) : resolves (@ret UI A a).
Proof. intros u. exists a. reflexivity. Qed.

Lemma resolves_set (f : UI -> UI) : resolves (set f).
Proof. intros u. exists tt. reflexivity. Qed.

Lemma resolves_observe (o : Observation UI) : resolves (observe o).
Proof. intros u. exists tt. reflexivity. Qed.

Lemma resolves_bind {A B} (m : M UI A) (k : A -> M UI B) :
  resolves m -> (forall a, resolves (k a)) -> resolves (bind m k).
Proof.
intros Hm Hk u. unfold bind. destruct (Hm u) as [a Ha].
rewrite Ha. cbn [after completion]. apply Hk.
Qed.

Lemma resolves_when (c : bool) (m : M UI unit) :
  resolves m -> resolves (when c m).
Proof. intros Hm. destruct c; [exact Hm | apply resolves_ret]. Qed.

Lemma resolves_try_catch {A} (m : M UI A) (h : Exception.t -> M UI A) :
  settles m -> (forall e, resolves (h e)) -> resolves (try_catch m h).
Proof.
intros Hm Hh u. unfold try_catch.
destruct (Hm u) as [[a Ha]|[e He]].
- rewrite Ha. exists a. exact Ha.
- rewrite He. cbn [after completion]. apply Hh.
Qed.

Lemma resolves_try_finally {A} (m : M UI A) (c : M UI unit) :
  resolves m -> resolves c -> resolves (try_finally m c).
Proof.
intros Hm Hc u. unfold try_finally. cbn [completion].
destruct (Hc (final (m u))) as [x Hx]. rewrite Hx. apply Hm.
Qed.

End Settling.

Lemma runAnalysis_stream_settles (p : RunAnalysis.Page) (f : Net.Fetch) :
  settles (RunAnalysis.stream p f).
Proof.
unfold RunAnalysis.stream.
apply settles_bind; [apply settles_await_fetch|]. intros response.
destruct (Net.body response) as [b|]; [|apply settles_throw].
apply settles_bind; [apply settles_observe|]. intros _.
apply settles_read_loop.
Qed.

Lemma runAnalysis_resolves (p : RunAnalysis.Page) (f : Net.Fetch) :
  resolves (RunAnalysis.runAnalysis p f).
Proof.
unfold RunAnalysis.runAnalysis.
apply resolves_bind.
- unfold RunAnalysis.reset, RunAnalysis.setIsRunning, RunAnalysis.setOutputs,
    RunAnalysis.setForecast, RunAnalysis.setMarketData,
    RunAnalysis.setThreatLevel.
  destruct p;
    repeat first [ apply resolves_set | apply resolves_ret
                 | apply resolves_bind; [|intros _] ].
- intros _. apply resolves_try_finally.
  + apply resolves_try_catch; [apply runAnalysis_stream_settles|].
    intros e. unfold RunAnalysis.on_failure, console_error.
    apply resolves_when, resolves_observe.
  + unfold RunAnalysis.cleanup, RunAnalysis.setIsRunning,
      RunAnalysis.setActiveAgent.
    apply resolves_bind; [apply resolves_set | intros _; apply resolves_set].
Qed.

(** X1.  Whatever the request meets -- a rejected [fetch], a response
    without a body, a stream cut by a transport failure or by the caller,
    an [error] record, a record that is no object -- [runAnalysis] returns
    normally: its promise is never rejected.  It leaves the running flag
    false and the active agent null. *)
Theorem runAnalysis_always_returns_with_the_markers_cleared
    (p : RunAnalysis.Page) (f : Net.Fetch) (u : RunAnalysis.UI) :
  let r := RunAnalysis.run p f u in
  completion r = Normal tt /\
  RunAnalysis.isRunning (final r) = false /\
  RunAnalysis.activeAgent (final r) = JNull.
Proof.
intros r. split.
- destruct (runAnalysis_resolves p f u) as [[] E]. exact E.
- subst r. unfold RunAnalysis.run, RunAnalysis.runAnalysis.
  rewrite (bind_eq_normal _ _ _ _ _ _ (reset_eq p u)).
  unfold after, try_finally. cbn [final].
  rewrite cleanup_eq. cbn [final RunAnalysis.isRunning RunAnalysis.activeAgent].
  split; reflexivity.
Qed.

#[local] Instance error_untouched_invariant : Invariant error_untouched.
Proof.
split; unfold error_untouched.
- reflexivity.
- intros u t1 u1 t2 u2 H1 H2. rewrite H2. exact H1.
Qed.

Ltac error_atom := unfold error_untouched; cbn; reflexivity.

Lemma handleAnalyze_line_error (line : jsstring) :
  keeps error_untouched (HandleAnalyze.handle_line line).
Proof.
unfold_pages. repeat keeps_step error_atom.
Qed.

(** The [try] block of [handleAnalyze] either throws or ends with the
    status complete, the active agent null and the error slot as it
    was. *)
Lemma handleAnalyze_stream_result (f : Net.Fetch) (u : HandleAnalyze.UI) :
  let r := HandleAnalyze.stream f u in
  (completion r = Normal tt /\
   HandleAnalyze.status (final r) = HandleAnalyze.complete /\
   HandleAnalyze.activeAgent (final r) = JNull /\
   HandleAnalyze.error (final r) = HandleAnalyze.error u) \/
  (exists e, completion r = Throw e).
Proof.
unfold HandleAnalyze.stream.
destruct f as [e|response]; cbn [await_fetch].
- right. exists e. reflexivity.
- rewrite bind_ret.
  destruct (Net.ok response); cbn [negb when].
  + rewrite bind_ret.
    destruct (Net.body response) as [b|].
    * rewrite bind_observe. cbn [after completion final].
      pose proof (keeps_read_loop error_untouched
                    HandleAnalyze.handle_line (Net.ending b)
                    handleAnalyze_line_error
                    (fun u r => eq_refl) (fun u b _ => eq_refl)
                    (Net.chunks b) TextDecoder.create [] u) as Hk.
      unfold error_untouched in Hk.
      pose proof (settles_read_loop HandleAnalyze.handle_line (Net.ending b)
                    (Net.chunks b) TextDecoder.create [] u) as Hs.
      unfold bind.
      destruct (read_loop HandleAnalyze.handle_line (Net.chunks b)
                  (Net.ending b) TextDecoder.create [] u) as [c u1 t].
      cbn [completion final trace] in *.
      destruct Hs as [[[] E]|[e E]]; subst c.
      -- left. cbn. repeat split. exact Hk.
      -- right. exists e. reflexivity.
    * right. eexists. reflexivity.
  + right. eexists. reflexivity.
Qed.

(** X2.  With its form filled [handleAnalyze] always returns normally,
    whatever the request meets, and never leaves the page analyzing: it
    ends with the status complete and no error, or with the status error
    and an error message; in both cases the active agent is null. *)
Theorem handleAnalyze_always_ends_complete_or_in_error
    (f : Net.Fetch) (u : HandleAnalyze.UI) :
  let r := HandleAnalyze.run true f u in
  completion r = Normal tt /\
  HandleAnalyze.activeAgent (final r) = JNull /\
  (HandleAnalyze.status (final r) = HandleAnalyze.complete /\
   HandleAnalyze.error (final r) = None \/
   HandleAnalyze.status (final r) = HandleAnalyze.error_ /\
   exists m, HandleAnalyze.error (final r) = Some m).
Proof.
intros r.
assert (Er : exists t0,
          r = after t0 (try_catch (HandleAnalyze.stream f)
                          HandleAnalyze.on_failure handleAnalyze_start)).
{ subst r. unfold HandleAnalyze.run, HandleAnalyze.handleAnalyze.
  cbn [negb].
  unfold HandleAnalyze.setStatus at 1, HandleAnalyze.setMessages,
    HandleAnalyze.setActiveAgent at 1, HandleAnalyze.setRecommendation,
    HandleAnalyze.setError.
  rewrite !bind_set, !after_after. eexists. reflexivity. }
destruct Er as [t0 Er]. rewrite Er. clear Er r.
cbn [after completion final].
unfold try_catch.
destruct (handleAnalyze_stream_result f handleAnalyze_start)
  as [(Ec & Es & Ea & Ee)|[e Ec]]; rewrite Ec.
- split; [exact Ec|]. split; [exact Ea|]. left. split; [exact Es|].
  rewrite Ee. reflexivity.
- rewrite handleAnalyze_on_failure_eq. cbn.
  split; [reflexivity|]. split; [reflexivity|].
  right. split; [reflexivity|]. eexists. reflexivity.
Qed.

(** X3.  [handleAnalyze] checks the HTTP status before it touches the
    body: on a response that is not ok it ends in the error state with
    the message made of the status text, with no message, no
    recommendation and no active agent, and it never takes a reader on the
    body, whatever that body holds. *)
Theorem handleAnalyze_fails_on_a_response_that_is_not_ok
    (statusText : jsstring) (body : option Net.Body) (u : HandleAnalyze.UI) :
  let r := HandleAnalyze.run true
             (Net.Resolves (Net.mkResponse false statusText body)) u in
  completion r = Normal tt /\
  final r =
    HandleAnalyze.mkUI HandleAnalyze.error_ [] JNull None
      (Some (Exception.Text (str "Analysis failed: " ++ statusText))) /\
  reader_after (trace r) = None /\
  parsed (trace r) = [].
Proof.
cbv -[str app]. repeat split.
Qed.

(** X5.  A response without a body fails the run before anything is
    read: [runAnalysis] logs the [Error] it throws, with the message
    No reader, and leaves the accumulator empty; [handleAnalyze] ends in
    the error state with the message No response body. *)
Theorem a_response_without_a_body_fails_the_run :
  (forall p ok statusText u,
     let r := RunAnalysis.run p
                (Net.Resolves (Net.mkResponse ok statusText None)) u in
     console (trace r) =
       [(str "Analysis failed:",
         Exception.Error (Exception.Text (str "No reader")))] /\
     parsed (trace r) = [] /\
     reader_after (trace r) = None /\
     RunAnalysis.outputs (final r) = [] /\
     RunAnalysis.isRunning (final r) = false) /\
  (forall statusText u,
     let r := HandleAnalyze.run true
                (Net.Resolves (Net.mkResponse true statusText None)) u in
     parsed (trace r) = [] /\
     reader_after (trace r) = None /\
     final r =
       HandleAnalyze.mkUI HandleAnalyze.error_ [] JNull None
         (Some (Exception.Text (str "No response body")))).
Proof.
split.
- intros p ok statusText u. destruct p; cbv; repeat split.
- intros statusText u. cbv. repeat split.
Qed.

(* ===================================================================== *)
(** ** Transport failures *)
(* ===================================================================== *)

Lemma rendered_visible {UI} (t : list (Observation UI)) :
  rendered (filter is_visible t) = rendered t.
Proof.
induction t as [|[] t IH]; cbn; rewrite ?IH; reflexivity.
Qed.

(** [runAnalysis] when every line is handled and the pending read is
    rejected by anything but an [AbortError]. *)
Lemma runAnalysis_batched_rejected (p : RunAnalysis.Page)
    (bs : list (list jsstring)) (e : Exception.t)
    (u u1 : RunAnalysis.UI) (t : list (Observation RunAnalysis.UI)) :
  run_batches (RunAnalysis.handle_line p) bs (runAnalysis_start p u) =
    mkResult (Normal tt) u1 t ->
  JsString.eqb (Exception.name e) (str "AbortError") = false ->
  runAnalysis_batched p bs (Net.ReadRejects e) u =
  mkResult (Normal tt)
    (RunAnalysis.mkUI (RunAnalysis.outputs u1) false JNull
       (RunAnalysis.forecast u1) (RunAnalysis.marketData u1)
       (RunAnalysis.threatLevel u1))
    (trace (RunAnalysis.reset p u) ++
     (t ++ [Console_error (str "Analysis failed:") e]) ++
     [Rendered (RunAnalysis.mkUI (RunAnalysis.outputs u1) false
                  (RunAnalysis.activeAgent u1)
                  (RunAnalysis.forecast u1) (RunAnalysis.marketData u1)
                  (RunAnalysis.threatLevel u1));
      Rendered (RunAnalysis.mkUI (RunAnalysis.outputs u1) false JNull
                  (RunAnalysis.forecast u1) (RunAnalysis.marketData u1)
                  (RunAnalysis.threatLevel u1))]).
Proof.
intros Hb He. unfold runAnalysis_batched.
rewrite (bind_eq_normal _ _ _ _ _ _ (reset_eq p u)).
assert (H1 : try_catch
               (run_batches (RunAnalysis.handle_line p) bs ;;
                finish (Net.ReadRejects e))
               RunAnalysis.on_failure (runAnalysis_start p u) =
             mkResult (Normal tt) u1
               (t ++ [Console_error (str "Analysis failed:") e])).
{ unfold try_catch, bind. rewrite Hb. cbn [completion final trace finish].
  cbn [after throw completion final trace].
  unfold RunAnalysis.on_failure. rewrite He.
  unfold after; cbn. rewrite !app_nil_r. reflexivity. }
rewrite (try_finally_eq _ _ _ _ _ _ _ _ H1 (cleanup_eq u1)).
reflexivity.
Qed.

(** [runAnalysis] when handling the lines throws: the end of the body is
    never met. *)
Lemma runAnalysis_batched_thrown (p : RunAnalysis.Page)
    (bs : list (list jsstring)) (ending ending' : Net.Ending)
    (u u1 : RunAnalysis.UI) (e : Exception.t)
    (t : list (Observation RunAnalysis.UI)) :
  run_batches (RunAnalysis.handle_line p) bs (runAnalysis_start p u) =
    mkResult (Throw e) u1 t ->
  runAnalysis_batched p bs ending u = runAnalysis_batched p bs ending' u.
Proof.
intros Hb. unfold runAnalysis_batched.
rewrite !(bind_eq_normal _ _ _ _ _ _ (reset_eq p u)).
f_equal. unfold try_finally, try_catch, bind. rewrite Hb. reflexivity.
Qed.

(** X6.  A transport failure in the middle of a stream shows nowhere on
    the page.  The run whose pending [read()] is rejected completes as,
    ends in the same state as, and renders and parses the same things as
    the run on the same chunks followed by the end of the stream; the
    only trace of the failure is at most one more line on the console.
    The same holds of a rejected [fetch] and the empty stream. *)
Theorem a_transport_failure_shows_as_a_normal_end
    (p : RunAnalysis.Page) (e : Exception.t) (u : RunAnalysis.UI) :
  (forall ok statusText chunks,
     let r := RunAnalysis.run p
                (streaming ok statusText chunks (Net.ReadRejects e)) u in
     let r0 := RunAnalysis.run p
                 (streaming ok statusText chunks Net.EOF) u in
     completion r = completion r0 /\
     final r = final r0 /\
     rendered (trace r) = rendered (trace r0) /\
     parsed (trace r) = parsed (trace r0) /\
     (console (trace r) = console (trace r0) \/
      console (trace r) =
        console (trace r0) ++ [(str "Analysis failed:", e)])) /\
  (let r := RunAnalysis.run p (Net.Rejects e) u in
   let r0 := RunAnalysis.run p (streaming true [] [] Net.EOF) u in
   completion r = completion r0 /\
   final r = final r0 /\
   rendered (trace r) = rendered (trace r0)).
Proof.
split.
- intros ok statusText chunks r r0.
  destruct (runAnalysis_as_batches p ok statusText chunks
              (Net.ReadRejects e) u) as (Ec & Ef & Et).
  destruct (runAnalysis_as_batches p ok statusText chunks Net.EOF u)
    as (Ec0 & Ef0 & Et0).
  fold r in Ec, Ef, Et. fold r0 in Ec0, Ef0, Et0.
  rewrite Ec, Ef, Ec0, Ef0.
  rewrite <- (rendered_visible (trace r)), <- (rendered_visible (trace r0)).
  rewrite <- (parsed_visible (trace r)), <- (parsed_visible (trace r0)).
  rewrite <- (console_visible (trace r)), <- (console_visible (trace r0)).
  rewrite Et, Et0.
  rewrite !rendered_visible, !parsed_visible, !console_visible.
  clear Ec Ef Et Ec0 Ef0 Et0 r r0.
  set (bs := batches TextDecoder.create [] chunks).
  pose proof (settles_run_batches (RunAnalysis.handle_line p) bs
                (runAnalysis_start p u)) as Hs.
  destruct (run_batches (RunAnalysis.handle_line p) bs
              (runAnalysis_start p u)) as [c u1 t] eqn:Hb.
  cbn [completion] in Hs. destruct Hs as [[[] E]|[x E]]; subst c.
  + rewrite (runAnalysis_batched_normal p bs Net.EOF u u1 t Hb I).
    destruct (JsString.eqb (Exception.name e) (str "AbortError")) eqn:Ha.
    * rewrite (runAnalysis_batched_normal p bs (Net.ReadRejects e)
                 u u1 t Hb Ha).
      repeat split. left. reflexivity.
    * rewrite (runAnalysis_batched_rejected p bs e u u1 t Hb Ha).
      cbn [completion final trace].
      rewrite !rendered_app, !parsed_app, !console_app.
      cbn [rendered parsed console app]. rewrite !app_nil_r.
      repeat split. right.
      rewrite <- !app_assoc. reflexivity.
  + rewrite (runAnalysis_batched_thrown p bs (Net.ReadRejects e) Net.EOF
               u u1 x t Hb).
    repeat split. left. reflexivity.
- destruct p; destruct (JsString.eqb (Exception.name e) (str "AbortError"))
    eqn:Ha; cbv -[JsString.eqb Exception.name str]; rewrite Ha;
    repeat split.
Qed.

(* ===================================================================== *)
(** ** The records of a stream *)
(* ===================================================================== *)

(** The records handled are the pieces of the text that a delimiter
    ends: all the pieces of the split but the last. *)
Lemma records_decoded (chunks : list (list Z)) :
  records chunks = removelast (split (decoded chunks) delimiter).
Proof.
unfold records, decoded.
apply (batches_concat chunks TextDecoder.create []). reflexivity.
Qed.

Lemma batches_one_chunk (chunk : list Z) :
  batches TextDecoder.create [] [chunk] = [records [chunk]].
Proof.
unfold records. cbn [batches].
destruct (consume TextDecoder.create [] chunk) as [[td' buffer'] lines].
cbn [List.concat]. rewrite app_nil_r. reflexivity.
Qed.

Lemma batches_same_records (chunks chunks' : list (list Z)) :
  records chunks = records chunks' ->
  batches TextDecoder.create [] [List.concat chunks] =
  batches TextDecoder.create [] [List.concat chunks'].
Proof.
intros H. rewrite !batches_one_chunk, <- !records_one_chunk, H.
reflexivity.
Qed.

Lemma handleAnalyze_same_records (filled ok : bool) (statusText : jsstring)
    (ending : Net.Ending) (u : HandleAnalyze.UI)
    (chunks chunks' : list (list Z)) :
  records chunks = records chunks' ->
  same_upto is_visible
    (HandleAnalyze.run filled (streaming ok statusText chunks ending) u)
    (HandleAnalyze.run filled (streaming ok statusText chunks' ending) u).
Proof.
intros H.
eapply same_upto_trans; [apply handleAnalyze_one_chunk|].
eapply same_upto_trans;
  [|apply same_upto_sym, handleAnalyze_one_chunk].
apply handleAnalyze_congruence; [auto|].
intros u'. rewrite (batches_same_records chunks chunks' H).
apply same_upto_refl.
Qed.

Lemma runAnalysis_same_records (p : RunAnalysis.Page) (ok : bool)
    (statusText : jsstring) (ending : Net.Ending) (u : RunAnalysis.UI)
    (chunks chunks' : list (list Z)) :
  records chunks = records chunks' ->
  Forall (fun line => is_done_record line = false)
    (removelast (records chunks)) ->
  same_upto is_visible
    (RunAnalysis.run p (streaming ok statusText chunks ending) u)
    (RunAnalysis.run p (streaming ok statusText chunks' ending) u).
Proof.
intros H Hd.
eapply same_upto_trans; [apply runAnalysis_one_chunk, Hd|].
eapply same_upto_trans;
  [|apply same_upto_sym, runAnalysis_one_chunk; rewrite <- H; exact Hd].
apply runAnalysis_congruence; [auto|].
intros u'. rewrite (batches_same_records chunks chunks' H).
apply same_upto_refl.
Qed.

(** X7.  Only what a delimiter ends is a record: the records of a stream
    are the pieces of its text split on the delimiter, the last piece
    left out -- an unterminated last record is never handled, and at the
    end of the stream it is dropped.  So two streams with the same
    complete records give the same run, whatever follows their last
    delimiter and however they are cut into chunks: always in
    [handleAnalyze], and in [runAnalysis] when no record before the last
    has a truthy [done]. *)
Theorem only_what_a_delimiter_ends_is_handled
    (chunks chunks' : list (list Z)) :
  records chunks = removelast (split (decoded chunks) delimiter) /\
  (records chunks = records chunks' ->
   (forall filled ok statusText ending u,
      same_upto is_visible
        (HandleAnalyze.run filled (streaming ok statusText chunks ending) u)
        (HandleAnalyze.run filled (streaming ok statusText chunks' ending) u))
   /\
   (forall p ok statusText ending u,
      Forall (fun line => is_done_record line = false)
        (removelast (records chunks)) ->
      same_upto is_visible
        (RunAnalysis.run p (streaming ok statusText chunks ending) u)
        (RunAnalysis.run p (streaming ok statusText chunks' ending) u))).
Proof.
split; [apply records_decoded|].
intros H. split.
- intros. apply handleAnalyze_same_records, H.
- intros. apply runAnalysis_same_records; assumption.
Qed.

(** X7 at a stream of one record and the same stream followed by a
    record that no blank line ends. *)
Lemma only_what_a_delimiter_ends_is_handled_witness :
  let chunks := [frame "data: {'agent':'a','content':'b'}"] in
  let chunks' := [frame "data: {'agent':'a','content':'b'}";
                  json "data: {'agent':'c','content':'d'}"] in
  records chunks = records chunks' /\
  same_upto is_visible
    (RunAnalysis.run RunAnalysis.CrisisDetector
       (streaming true [] chunks Net.EOF) idle)
    (RunAnalysis.run RunAnalysis.CrisisDetector
       (streaming true [] chunks' Net.EOF) idle).
Proof.
intros chunks chunks'.
assert (H : records chunks = records chunks') by (vm_compute; reflexivity).
split; [exact H|].
apply (proj2 (proj2 (only_what_a_delimiter_ends_is_handled chunks chunks')
                H)).
vm_compute. constructor.
Defined.

(** X4.  [runAnalysis] never examines the HTTP status.  A response that
    is not ok is read like any other, and when its body holds no blank
    line -- a JSON or HTML error page -- the run is the run on an empty
    successful stream: nothing is parsed, nothing is logged, the
    accumulator stays empty and the run returns normally. *)
Theorem runAnalysis_reads_an_error_page_as_an_empty_stream
    (p : RunAnalysis.Page) (ok : bool) (statusText : jsstring)
    (chunks : list (list Z)) (u : RunAnalysis.UI) :
  includes (decoded chunks) delimiter = false ->
  let r := RunAnalysis.run p (streaming ok statusText chunks Net.EOF) u in
  same_upto is_visible r
    (RunAnalysis.run p (streaming true [] [] Net.EOF) u) /\
  completion r = Normal tt /\
  parsed (trace r) = [] /\
  console (trace r) = [] /\
  RunAnalysis.outputs (final r) = [].
Proof.
intros H r.
assert (Hr : records chunks = records []).
{ rewrite records_decoded, (split_no_delimiter _ H). reflexivity. }
assert (Hs : same_upto is_visible r
               (RunAnalysis.run p (streaming true [] [] Net.EOF) u)).
{ apply (runAnalysis_same_records p ok statusText Net.EOF u chunks [] Hr).
  rewrite Hr. constructor. }
split; [exact Hs|].
destruct Hs as (Ec & Ef & Et).
rewrite Ec, Ef, <- parsed_visible, <- console_visible, Et,
  parsed_visible, console_visible.
destruct p; cbv; repeat split.
Qed.

(** X4 at a response with status 500 whose body is a JSON error. *)
Lemma runAnalysis_reads_an_error_page_as_an_empty_stream_witness :
  let chunks := [json "{'detail':'Internal Server Error'}"] in
  let r := RunAnalysis.run RunAnalysis.MarketTrends
             (streaming false (str "Internal Server Error") chunks Net.EOF)
             idle in
  includes (decoded chunks) delimiter = false /\
  completion r = Normal tt /\
  console (trace r) = [] /\
  RunAnalysis.outputs (final r) = [].
Proof.
intros chunks r.
assert (H : includes (decoded chunks) delimiter = false)
  by (vm_compute; reflexivity).
split; [exact H|].
destruct (runAnalysis_reads_an_error_page_as_an_empty_stream
            RunAnalysis.MarketTrends false (str "Internal Server Error")
            chunks idle H) as (_ & Hc & _ & Hl & Ho).
split; [exact Hc|]. split; [exact Hl | exact Ho].
Defined.

(* ===================================================================== *)
(** ** Records that are no objects *)
(* ===================================================================== *)

(** A line that throws where it is handled ends [runAnalysis] as a
    failure logged on the console. *)
Lemma runAnalysis_thrown_where_handled (p : RunAnalysis.Page)
    (ok : bool) (statusText : jsstring) (chunks : list (list Z))
    (ending : Net.Ending) (u u1 u2 : RunAnalysis.UI) (line : jsstring)
    (e : Exception.t) (t1 : list (Observation RunAnalysis.UI)) :
  handled_at (RunAnalysis.handle_line p)
    (batches TextDecoder.create [] chunks) (runAnalysis_start p u) line u1 ->
  RunAnalysis.handle_line p line u1 = mkResult (Throw e) u2 t1 ->
  JsString.eqb (Exception.name e) (str "AbortError") = false ->
  let r := RunAnalysis.run p (streaming ok statusText chunks ending) u in
  completion r = Normal tt /\
  final r = RunAnalysis.mkUI (RunAnalysis.outputs u2) false JNull
              (RunAnalysis.forecast u2) (RunAnalysis.marketData u2)
              (RunAnalysis.threatLevel u2) /\
  (exists c, console (trace r) =
             c ++ console t1 ++ [(str "Analysis failed:", e)]) /\
  (exists ps, parsed (trace r) = ps ++ parsed t1).
Proof.
intros Hat Hl Hn r.
destruct (runAnalysis_as_batches p ok statusText chunks ending u)
  as (Ec & Ef & Et).
fold r in Ec, Ef, Et.
destruct (run_batches_throws _ _ _ _ _ e Hat) as [t Hb];
  [rewrite Hl; reflexivity|].
rewrite Hl in Hb. cbn [final trace] in Hb.
rewrite (runAnalysis_batched_throw p _ ending u u2 _ _ Hb Hn) in Ec, Ef, Et.
cbn [completion final trace] in Ec, Ef, Et.
split; [exact Ec|]. split; [exact Ef|]. split.
- rewrite <- console_visible, Et, console_visible.
  rewrite !console_app, console_reset. cbn [console app].
  exists (console t). rewrite !app_nil_r, <- !app_assoc. reflexivity.
- rewrite <- parsed_visible, Et, parsed_visible.
  rewrite !parsed_app, parsed_reset. cbn [parsed app].
  exists (parsed t). rewrite !app_nil_r. reflexivity.
Qed.

Lemma handleAnalyze_thrown_where_handled
    (statusText : jsstring) (chunks : list (list Z))
    (ending : Net.Ending) (u u1 u2 : HandleAnalyze.UI) (line : jsstring)
    (e : Exception.t) (t1 : list (Observation HandleAnalyze.UI)) :
  handled_at HandleAnalyze.handle_line
    (batches TextDecoder.create [] chunks) handleAnalyze_start line u1 ->
  HandleAnalyze.handle_line line u1 = mkResult (Throw e) u2 t1 ->
  let r := HandleAnalyze.run true
             (streaming true statusText chunks ending) u in
  completion r = Normal tt /\
  final r = HandleAnalyze.mkUI HandleAnalyze.error_
              (HandleAnalyze.messages u2) JNull
              (HandleAnalyze.recommendation u2)
              (Some (Exception.message e)) /\
  (exists ps, parsed (trace r) = ps ++ parsed t1).
Proof.
intros Hat Hl r.
destruct (handleAnalyze_as_batches statusText chunks ending u)
  as (Ec & Ef & Et).
fold r in Ec, Ef, Et.
destruct (run_batches_throws _ _ _ _ _ e Hat) as [t Hb];
  [rewrite Hl; reflexivity|].
rewrite Hl in Hb. cbn [final trace] in Hb.
destruct (handleAnalyze_batched_throw _ ending u u2 _ _ Hb)
  as (t0 & Hp0 & Hr).
rewrite Hr in Ec, Ef, Et.
cbn [completion final trace] in Ec, Ef, Et.
split; [exact Ec|]. split; [exact Ef|].
rewrite <- parsed_visible, Et, parsed_visible.
rewrite !parsed_app, Hp0. cbn [parsed app].
exists (parsed t). rewrite !app_nil_r. reflexivity.
Qed.

(** X8.  A data record whose body is valid JSON but no object.  A
    boolean, a number, a string or an array is parsed and then ignored:
    no state changes, nothing is logged, the loop goes on.  The literal
    [null] is not: reading [done] of it throws a [TypeError] the inner
    catch does not swallow, and the run ends there as a failure --
    logged by [runAnalysis], shown in the error state by [handleAnalyze]
    -- with no later record handled. *)
Theorem a_record_that_is_no_object (line : jsstring) (v : JsValue) :
  startsWith line data_prefix = true ->
  JSON.parse (slice line 6) = Some v ->
  (match v with
   | JBool _ | JNumber _ | JString _ | JArray _ => True
   | _ => False
   end ->
   (forall p u,
      RunAnalysis.handle_line p line u = mkResult (Normal tt) u [Parsed v]) /\
   (forall u,
      HandleAnalyze.handle_line line u = mkResult (Normal tt) u [Parsed v]))
  /\
  (v = JNull ->
   let e := Exception.TypeError Exception.EngineDefined in
   (forall p ok statusText chunks ending u u1,
      handled_at (RunAnalysis.handle_line p)
        (batches TextDecoder.create [] chunks) (runAnalysis_start p u)
        line u1 ->
      let r := RunAnalysis.run p (streaming ok statusText chunks ending) u in
      completion r = Normal tt /\
      final r = RunAnalysis.mkUI (RunAnalysis.outputs u1) false JNull
                  (RunAnalysis.forecast u1) (RunAnalysis.marketData u1)
                  (RunAnalysis.threatLevel u1) /\
      (exists c, console (trace r) = c ++ [(str "Analysis failed:", e)]) /\
      (exists ps, parsed (trace r) = ps ++ [JNull])) /\
   (forall statusText chunks ending u u1,
      handled_at HandleAnalyze.handle_line
        (batches TextDecoder.create [] chunks) handleAnalyze_start line u1 ->
      let r := HandleAnalyze.run true
                 (streaming true statusText chunks ending) u in
      completion r = Normal tt /\
      final r = HandleAnalyze.mkUI HandleAnalyze.error_
                  (HandleAnalyze.messages u1) JNull
                  (HandleAnalyze.recommendation u1)
                  (Some Exception.EngineDefined) /\
      (exists ps, parsed (trace r) = ps ++ [JNull]))).
Proof.
intros H1 H2. split.
- intros Hv. split.
  + intros p u. unfold RunAnalysis.handle_line, JSON_parse.
    rewrite H1, H2. destruct v; try contradiction; destruct p; reflexivity.
  + intros u. unfold HandleAnalyze.handle_line, JSON_parse.
    rewrite H1, H2. destruct v; try contradiction; reflexivity.
- intros -> e. split.
  + intros p ok statusText chunks ending u u1 Hat r.
    assert (Hl : RunAnalysis.handle_line p line u1 =
                 mkResult (Throw e) u1 [Parsed JNull]).
    { unfold RunAnalysis.handle_line, JSON_parse.
      rewrite H1, H2. destruct p; reflexivity. }
    destruct (runAnalysis_thrown_where_handled p ok statusText chunks
                ending u u1 u1 line e _ Hat Hl eq_refl)
      as (Ec & Ef & [c Ek] & Ep).
    split; [exact Ec|]. split; [exact Ef|]. split; [|exact Ep].
    exists c. exact Ek.
  + intros statusText chunks ending u u1 Hat r.
    assert (Hl : HandleAnalyze.handle_line line u1 =
                 mkResult (Throw e) u1 [Parsed JNull]).
    { unfold HandleAnalyze.handle_line, JSON_parse.
      rewrite H1, H2. reflexivity. }
    exact (handleAnalyze_thrown_where_handled statusText chunks ending
             u u1 u1 line e _ Hat Hl).
Qed.

(** X8 at the four kinds of value that are ignored, and at [null] after
    a dispatched record. *)
Lemma a_record_that_is_no_object_witness :
  let chunks := [frame "data: {'agent':'a','content':'b'}" ++
                 frame "data: null";
                 frame "data: {'agent':'c','content':'d'}"] in
  let r := RunAnalysis.run RunAnalysis.LaunchDetector
             (streaming true [] chunks Net.EOF) idle in
  RunAnalysis.handle_line RunAnalysis.MarketTrends (json "data: [1,2]") idle
  = mkResult (Normal tt) idle
      [Parsed (JArray [JNumber (mk_number 1 0); JNumber (mk_number 2 0)])] /\
  HandleAnalyze.handle_line (json "data: 'scout'") idle_form
  = mkResult (Normal tt) idle_form [Parsed (JString (str "scout"))] /\
  List.length (RunAnalysis.outputs (final r)) = 1%nat /\
  exists c, console (trace r) =
            c ++ [(str "Analysis failed:",
                   Exception.TypeError Exception.EngineDefined)].
Proof.
intros chunks r.
split; [|split].
- apply (proj1 (a_record_that_is_no_object (json "data: [1,2]")
                  (JArray [JNumber (mk_number 1 0); JNumber (mk_number 2 0)])
                  eq_refl ltac:(vm_compute; reflexivity))).
  exact I.
- apply (proj1 (a_record_that_is_no_object (json "data: 'scout'")
                  (JString (str "scout"))
                  eq_refl ltac:(vm_compute; reflexivity))).
  exact I.
- destruct (proj2 (a_record_that_is_no_object (json "data: null") JNull
                     eq_refl ltac:(vm_compute; reflexivity)) eq_refl)
    as [Hrun _].
  specialize (Hrun RunAnalysis.LaunchDetector true [] chunks Net.EOF idle
    (final (RunAnalysis.handle_line RunAnalysis.LaunchDetector
              (json "data: {'agent':'a','content':'b'}")
              (runAnalysis_start RunAnalysis.LaunchDetector idle)))).
  destruct Hrun as (_ & Hf & Hl & _).
  { exists [], [json "data: {'agent':'a','content':'b'}"], [],
      [[json "data: {'agent':'c','content':'d'}"]].
    split; [vm_compute; reflexivity|]. split; vm_compute; reflexivity. }
  split; [|exact Hl].
  fold r in Hf. rewrite Hf. reflexivity.
Defined.

(* ===================================================================== *)
(** ** The accumulator and the events parsed *)
(* ===================================================================== *)

#[local] Instance parses_nothing_invariant {UI} :
  Invariant (@parses_nothing UI).
Proof.
split; unfold parses_nothing.
- reflexivity.
- intros u t1 u1 t2 u2 H1 H2. rewrite parsed_app, H1, H2. reflexivity.
Qed.

#[local] Instance outputs_follow_invariant : Invariant outputs_follow.
Proof.
split; unfold outputs_follow.
- intros u. cbn. rewrite app_nil_r. reflexivity.
- intros u t1 u1 t2 u2 H1 H2.
  rewrite H2, H1, parsed_app, flat_map_app, app_assoc. reflexivity.
Qed.

#[local] Instance messages_follow_invariant : Invariant messages_follow.
Proof.
split; unfold messages_follow.
- intros u. cbn. rewrite app_nil_r. reflexivity.
- intros u t1 u1 t2 u2 H1 H2.
  rewrite H2, H1, parsed_app, filter_app, app_assoc. reflexivity.
Qed.

Ltac parses_nothing_atom := unfold parses_nothing; reflexivity.

Lemma runAnalysis_event_parses_nothing (p : RunAnalysis.Page)
    (event : JsValue) :
  keeps parses_nothing (RunAnalysis.handle_event p event).
Proof.
unfold_pages. repeat keeps_step parses_nothing_atom.
Qed.

Lemma handleAnalyze_data_parses_nothing (data : JsValue) :
  keeps parses_nothing (HandleAnalyze.handle_data data).
Proof.
unfold_pages. repeat keeps_step parses_nothing_atom.
Qed.

(** The inner catch parses nothing. *)
Lemma parsed_try_catch_swallow {UI} (m : M UI unit) (u : UI) :
  parsed (trace (try_catch m swallow_SyntaxError u)) = parsed (trace (m u)).
Proof.
unfold try_catch, swallow_SyntaxError, console_error.
destruct (completion (m u)) as [a| | |e]; try reflexivity.
destruct (Exception.instanceof_SyntaxError e); cbn;
  rewrite parsed_app; cbn; rewrite app_nil_r; reflexivity.
Qed.

Lemma Get_null (v : JsValue) (k k' : jsstring) :
  Get v k = None -> OptGet v k' = JUndefined.
Proof.
destruct v; cbn; intros H; try discriminate; reflexivity.
Qed.

Lemma OptGet_Some (v : JsValue) (k : jsstring) (w : JsValue) :
  Get v k = Some w -> OptGet v k = w.
Proof. unfold OptGet. intros ->. reflexivity. Qed.

(** A computation that ends in [break] never completes normally, and
    neither does what follows it. *)
Lemma bind_final_abrupt {UI A B} (m : M UI A) (k : A -> M UI B) (u : UI) :
  (forall a, completion (m u) <> Normal a) ->
  final (bind m k u) = final (m u).
Proof.
intros H. unfold bind.
destruct (completion (m u)) as [a| | |e] eqn:E; try reflexivity.
exfalso. exact (H a eq_refl).
Qed.

Lemma on_done_outputs (p : RunAnalysis.Page) (event : JsValue)
    (u : RunAnalysis.UI) :
  RunAnalysis.outputs (final (RunAnalysis.on_done p event u)) =
  RunAnalysis.outputs u /\
  forall a, completion (RunAnalysis.on_done p event u) <> Normal a.
Proof.
destruct p; cbn [RunAnalysis.on_done];
  [| split; [reflexivity | intros ? H0; cbv in H0; discriminate H0] ..].
unfold get, RunAnalysis.setMarketData.
destruct (Get event (str "metadata")) as [metadata|];
  [| split; [reflexivity | intros ? H0; cbv in H0; discriminate H0]].
rewrite bind_ret.
destruct (truthy (OptGet metadata (str "market_data"))); cbn [when];
  [| split; [reflexivity | intros ? H0; cbv in H0; discriminate H0]].
rewrite !bind_assoc, bind_ret.
destruct (Get metadata (str "market_data")) as [market_data|];
  split; first [reflexivity | intros ? H0; cbv in H0; discriminate H0].
Qed.

(** What handling an event does to the accumulator. *)
Lemma runAnalysis_event_outputs (p : RunAnalysis.Page) (event : JsValue)
    (u : RunAnalysis.UI) :
  RunAnalysis.outputs (final (RunAnalysis.handle_event p event u)) =
  RunAnalysis.outputs u ++ dispatched event.
Proof.
unfold dispatched.
destruct (Get event (str "done")) as [done|] eqn:Hd.
- rewrite (OptGet_Some _ _ _ Hd).
  destruct (truthy done) eqn:Htd; cbn [negb andb].
  + rewrite app_nil_r. unfold RunAnalysis.handle_event.
    unfold get at 1. rewrite Hd, bind_ret, Htd. cbn [when].
    rewrite bind_final_abrupt; apply on_done_outputs.
  + pose proof (Get_defined event _ (str "error") _ Hd) as He.
    destruct (truthy (OptGet event (str "error"))) eqn:Hte; cbn [negb andb].
    * rewrite (runAnalysis_error_event p event done _ u Hd Htd He Hte).
      cbn. rewrite app_nil_r. reflexivity.
    * pose proof (runAnalysis_event_dispatch p event done _ u Hd Htd He Hte)
        as H. cbv zeta in H.
      destruct (truthy (OptGet event (str "agent")) &&
                truthy (OptGet event (str "content")));
        destruct H as [H _]; rewrite H; [reflexivity|].
      rewrite app_nil_r. reflexivity.
- rewrite !(Get_null event _ _ Hd). cbn. rewrite app_nil_r.
  unfold RunAnalysis.handle_event, get at 1. rewrite Hd, bind_throw.
  reflexivity.
Qed.

Lemma runAnalysis_line_outputs (p : RunAnalysis.Page) (line : jsstring) :
  keeps outputs_follow (RunAnalysis.handle_line p line).
Proof.
intros u. unfold outputs_follow.
destruct (startsWith line data_prefix) eqn:H1.
- destruct (JSON.parse (slice line 6)) as [event|] eqn:H2.
  + rewrite (runAnalysis_line_final p line event u H1 H2).
    rewrite runAnalysis_event_outputs. f_equal.
    unfold RunAnalysis.handle_line. rewrite H1. cbn [negb].
    rewrite parsed_try_catch_swallow.
    unfold JSON_parse. rewrite H2.
    rewrite bind_assoc, bind_observe, bind_ret. cbn [after trace parsed app].
    rewrite (runAnalysis_event_parses_nothing p event u). cbn.
    rewrite app_nil_r. reflexivity.
  + rewrite (runAnalysis_malformed_line p line u H1 H2). cbn.
    rewrite app_nil_r. reflexivity.
- rewrite (runAnalysis_other_line p line u H1). cbn.
  rewrite app_nil_r. reflexivity.
Qed.

Ltac outputs_atom :=
  unfold outputs_follow; cbn; rewrite ?app_nil_r; reflexivity.

Lemma runAnalysis_try_outputs (p : RunAnalysis.Page) (f : Net.Fetch) :
  keeps outputs_follow
    (try_finally (try_catch (RunAnalysis.stream p f) RunAnalysis.on_failure)
       RunAnalysis.cleanup).
Proof.
unfold RunAnalysis.stream, RunAnalysis.on_failure, RunAnalysis.cleanup,
  RunAnalysis.setIsRunning, RunAnalysis.setActiveAgent.
repeat keeps_step outputs_atom.
apply keeps_read_loop;
  [typeclasses eauto
  | intros; apply runAnalysis_line_outputs
  | intros; outputs_atom
  | intros; outputs_atom].
Qed.

(** X9.  When [runAnalysis] returns, the accumulator holds exactly what
    the events it parsed dispatch, in the order they were parsed: one
    entry, with the agent, the content and the thought type of the event,
    for each parsed event that has neither a truthy [done] nor a truthy
    [error] and has a truthy agent and a truthy content -- nothing is
    lost, repeated or reordered, and nothing of the state before the run
    remains. *)
Theorem the_accumulator_holds_the_events_dispatched
    (p : RunAnalysis.Page) (f : Net.Fetch) (u : RunAnalysis.UI) :
  let r := RunAnalysis.run p f u in
  RunAnalysis.outputs (final r) = flat_map dispatched (parsed (trace r)).
Proof.
intros r. subst r. unfold RunAnalysis.run, RunAnalysis.runAnalysis.
rewrite (bind_eq_normal _ _ _ _ _ _ (reset_eq p u)).
cbn [after final trace]. rewrite parsed_app, parsed_reset. cbn [app].
rewrite (runAnalysis_try_outputs p f (runAnalysis_start p u)).
rewrite reset_cleared. reflexivity.
Qed.

(** What handling an event does to the messages. *)
Lemma handleAnalyze_data_messages (data : JsValue) (u : HandleAnalyze.UI) :
  HandleAnalyze.messages (final (HandleAnalyze.handle_data data u)) =
  HandleAnalyze.messages u ++ filter shown [data].
Proof.
unfold shown. cbn [filter].
destruct (Get data (str "done")) as [done|] eqn:Hd.
- rewrite (OptGet_Some _ _ _ Hd).
  destruct (truthy done) eqn:Htd; cbn [negb andb].
  + rewrite app_nil_r. unfold HandleAnalyze.handle_data.
    unfold get at 1. rewrite Hd, bind_ret, Htd. cbn [when].
    unfold HandleAnalyze.setStatus, HandleAnalyze.setActiveAgent.
    rewrite bind_final_abrupt; [reflexivity|].
    intros ? H0. cbv in H0. discriminate H0.
  + pose proof (Get_defined data _ (str "error") _ Hd) as He.
    destruct (truthy (OptGet data (str "error"))) eqn:Hte; cbn [negb andb].
    * rewrite (handleAnalyze_error_event data done _ u Hd Htd He Hte).
      cbn. rewrite app_nil_r. reflexivity.
    * pose proof (handleAnalyze_event_dispatch data done _ u Hd Htd He Hte)
        as H. cbv zeta in H.
      destruct (truthy (OptGet data (str "agent"))).
      -- destruct H as [H _]. exact H.
      -- rewrite H, app_nil_r. reflexivity.
- rewrite !(Get_null data _ _ Hd). cbn. rewrite app_nil_r.
  unfold HandleAnalyze.handle_data, get at 1. rewrite Hd, bind_throw.
  reflexivity.
Qed.

Lemma handleAnalyze_line_messages (line : jsstring) :
  keeps messages_follow (HandleAnalyze.handle_line line).
Proof.
intros u. unfold messages_follow.
destruct (startsWith line data_prefix) eqn:H1.
- destruct (JSON.parse (slice line 6)) as [data|] eqn:H2.
  + rewrite (handleAnalyze_line_final line data u H1 H2).
    rewrite handleAnalyze_data_messages. f_equal.
    unfold HandleAnalyze.handle_line. rewrite H1. cbn [when].
    rewrite parsed_try_catch_swallow.
    unfold JSON_parse. rewrite H2.
    rewrite bind_assoc, bind_observe, bind_ret. cbn [after trace parsed app].
    rewrite (handleAnalyze_data_parses_nothing data u). reflexivity.
  + rewrite (handleAnalyze_malformed_line line u H1 H2). cbn.
    rewrite app_nil_r. reflexivity.
- rewrite (handleAnalyze_other_line line u H1). cbn.
  rewrite app_nil_r. reflexivity.
Qed.

Ltac messages_atom :=
  unfold messages_follow; cbn; rewrite ?app_nil_r; reflexivity.

Lemma handleAnalyze_try_messages (f : Net.Fetch) :
  keeps messages_follow
    (try_catch (HandleAnalyze.stream f) HandleAnalyze.on_failure).
Proof.
unfold HandleAnalyze.stream, HandleAnalyze.on_failure,
  HandleAnalyze.setStatus, HandleAnalyze.setActiveAgent,
  HandleAnalyze.setError.
repeat keeps_step messages_atom.
apply keeps_read_loop;
  [typeclasses eauto
  | intros; apply handleAnalyze_line_messages
  | intros; messages_atom
  | intros; messages_atom].
Qed.

(** X10.  When [handleAnalyze] returns from a run with its form filled,
    the messages are exactly the events it parsed that have neither a
    truthy [done] nor a truthy [error] and have a truthy agent, each
    whole and in the order they were parsed -- also when the run ended in
    the error state.  Nothing of the messages shown before the run
    remains. *)
Theorem the_messages_are_the_events_shown
    (f : Net.Fetch) (u : HandleAnalyze.UI) :
  let r := HandleAnalyze.run true f u in
  HandleAnalyze.messages (final r) = filter shown (parsed (trace r)).
Proof.
intros r.
assert (Er : exists t0,
          parsed t0 = [] /\
          r = after t0 (try_catch (HandleAnalyze.stream f)
                          HandleAnalyze.on_failure handleAnalyze_start)).
{ subst r. unfold HandleAnalyze.run, HandleAnalyze.handleAnalyze.
  cbn [negb].
  unfold HandleAnalyze.setStatus at 1, HandleAnalyze.setMessages,
    HandleAnalyze.setActiveAgent at 1, HandleAnalyze.setRecommendation,
    HandleAnalyze.setError.
  rewrite !bind_set, !after_after. eexists. split; [|reflexivity].
  reflexivity. }
destruct Er as (t0 & Hp & Er). rewrite Er. clear Er r.
cbn [after final trace]. rewrite parsed_app, Hp. cbn [app].
rewrite (handleAnalyze_try_messages f handleAnalyze_start).
reflexivity.
Qed.

(* ===================================================================== *)
(** ** The result slots *)
(* ===================================================================== *)

#[local] Instance slots_follow_invariant (p : RunAnalysis.Page) :
  Invariant (slots_follow p).
Proof.
split; destruct p; unfold slots_follow; cbn [parsed flat_map last]; auto.
- intros u t1 u1 t2 u2 [H1 H1'] [H2 H2'].
  rewrite parsed_app, !flat_map_app, !last_app_default, <- H1, <- H1'.
  split; assumption.
- intros u t1 u1 t2 u2 H1 H2.
  rewrite parsed_app, !flat_map_app, !last_app_default, <- H1.
  assumption.
Qed.

Lemma truthy_OptGet (v : JsValue) (k : jsstring) :
  truthy (OptGet v k) = true -> Get v k = Some (OptGet v k).
Proof.
unfold OptGet. destruct (Get v k); [reflexivity | discriminate].
Qed.

Lemma Get_truthy (v : JsValue) (k : jsstring) :
  truthy v = true -> Get v k = Some (OptGet v k).
Proof.
destruct v; cbn; intros H; try discriminate; reflexivity.
Qed.

(** The statements under [if (event.done)] on the market trends page. *)
Lemma on_done_market_trends (event done : JsValue) (u : RunAnalysis.UI) :
  Get event (str "done") = Some done ->
  let market_data :=
    OptGet (OptGet event (str "metadata")) (str "market_data") in
  let u1 := RunAnalysis.mkUI (RunAnalysis.outputs u) (RunAnalysis.isRunning u)
              (RunAnalysis.activeAgent u) (RunAnalysis.forecast u)
              market_data (RunAnalysis.threatLevel u) in
  RunAnalysis.on_done RunAnalysis.MarketTrends event u =
  if truthy market_data
  then mkResult Break u1 [Rendered u1]
  else mkResult Break u [].
Proof.
intros Hd market_data u1. subst u1 market_data.
cbn [RunAnalysis.on_done].
unfold get at 1.
rewrite (Get_defined event _ (str "metadata") _ Hd), bind_ret.
set (metadata := OptGet event (str "metadata")).
destruct (truthy (OptGet metadata (str "market_data"))) eqn:Hm;
  cbn [when].
- rewrite !bind_assoc. unfold get at 1.
  rewrite (Get_defined event _ (str "metadata") _ Hd), bind_ret.
  fold metadata. rewrite !bind_assoc. unfold get at 1.
  rewrite (truthy_OptGet _ _ Hm), bind_ret.
  unfold RunAnalysis.setMarketData. rewrite bind_set. reflexivity.
- rewrite bind_ret. reflexivity.
Qed.

(** The reading of the metadata on the market trends page. *)
Lemma on_metadata_market_trends (event done : JsValue)
    (u : RunAnalysis.UI) :
  Get event (str "done") = Some done ->
  let forecast := OptGet (OptGet event (str "metadata")) (str "forecast") in
  let u1 := RunAnalysis.mkUI (RunAnalysis.outputs u) (RunAnalysis.isRunning u)
              (RunAnalysis.activeAgent u) forecast
              (RunAnalysis.marketData u) (RunAnalysis.threatLevel u) in
  RunAnalysis.on_metadata RunAnalysis.MarketTrends event u =
  if truthy forecast
  then mkResult (Normal tt) u1 [Rendered u1]
  else mkResult (Normal tt) u [].
Proof.
intros Hd forecast u1. subst u1 forecast.
cbn [RunAnalysis.on_metadata].
unfold get at 1.
rewrite (Get_defined event _ (str "metadata") _ Hd), bind_ret.
set (metadata := OptGet event (str "metadata")).
destruct (truthy (OptGet metadata (str "forecast"))) eqn:Hm;
  cbn [when]; [|reflexivity].
unfold get at 1.
rewrite (Get_defined event _ (str "metadata") _ Hd), bind_ret.
fold metadata. unfold get at 1.
rewrite (truthy_OptGet _ _ Hm), bind_ret. reflexivity.
Qed.

(** The reading of the metadata on the launch detector page. *)
Lemma on_metadata_launch_detector (event done : JsValue)
    (u : RunAnalysis.UI) :
  Get event (str "done") = Some done ->
  let assessment :=
    OptGet (OptGet event (str "metadata")) (str "assessment") in
  let threat_level := OptGet assessment (str "threat_level") in
  let u1 := RunAnalysis.mkUI (RunAnalysis.outputs u) (RunAnalysis.isRunning u)
              (RunAnalysis.activeAgent u) (RunAnalysis.forecast u)
              (RunAnalysis.marketData u) threat_level in
  RunAnalysis.on_metadata RunAnalysis.LaunchDetector event u =
  if truthy assessment && truthy threat_level
  then mkResult (Normal tt) u1 [Rendered u1]
  else mkResult (Normal tt) u [].
Proof.
intros Hd assessment threat_level u1. subst u1 threat_level assessment.
cbn [RunAnalysis.on_metadata].
unfold get at 1.
rewrite (Get_defined event _ (str "metadata") _ Hd), bind_ret.
set (metadata := OptGet event (str "metadata")).
destruct (truthy (OptGet metadata (str "assessment"))) eqn:Hm;
  cbn [when andb]; [|reflexivity].
unfold get at 1.
rewrite (Get_defined event _ (str "metadata") _ Hd), bind_ret.
fold metadata. unfold get at 1.
pose proof (truthy_OptGet _ _ Hm) as Ha.
rewrite Ha, bind_ret.
set (assessment := OptGet metadata (str "assessment")) in *.
unfold get at 1.
rewrite (Get_truthy assessment (str "threat_level") Hm), bind_ret.
destruct (truthy (OptGet assessment (str "threat_level"))) eqn:Ht;
  cbn [when]; [|reflexivity].
unfold get at 1.
rewrite (Get_truthy assessment (str "threat_level") Hm), bind_ret.
reflexivity.
Qed.

(** What handling an event does to the result slots. *)
Lemma runAnalysis_event_slots (p : RunAnalysis.Page) (event : JsValue)
    (u : RunAnalysis.UI) :
  slots_follow p u [Parsed event]
    (final (RunAnalysis.handle_event p event u)).
Proof.
destruct (Get event (str "done")) as [done|] eqn:Hd.
- destruct (truthy done) eqn:Htd.
  + assert (E : final (RunAnalysis.handle_event p event u) =
                final (RunAnalysis.on_done p event u)).
    { unfold RunAnalysis.handle_event.
      unfold get at 1. rewrite Hd, bind_ret, Htd. cbn [when].
      apply bind_final_abrupt, on_done_outputs. }
    rewrite E.
    destruct p; unfold slots_follow; cbn [parsed flat_map];
      rewrite ?app_nil_r; auto;
      unfold forecast_of, market_data_of, threat_level_of, goes_on;
      rewrite (OptGet_Some _ _ _ Hd), Htd; cbn [negb andb last];
      [|reflexivity].
    rewrite (on_done_market_trends event done u Hd). cbv zeta.
    destruct (truthy (OptGet (OptGet event (str "metadata"))
                        (str "market_data")));
      split; reflexivity.
  + pose proof (Get_defined event _ (str "error") _ Hd) as He.
    destruct (truthy (OptGet event (str "error"))) eqn:Hte.
    * rewrite (runAnalysis_error_event p event done _ u Hd Htd He Hte).
      cbn [final].
      destruct p; unfold slots_follow; cbn [parsed flat_map];
        rewrite ?app_nil_r; auto;
        unfold forecast_of, market_data_of, threat_level_of, goes_on;
        rewrite (OptGet_Some _ _ _ Hd), Htd, Hte; cbn [negb andb last];
        try split; reflexivity.
    * rewrite (runAnalysis_event_eq p event done _ u Hd Htd He Hte).
      assert (Hg : goes_on event = true).
      { unfold goes_on. rewrite (OptGet_Some _ _ _ Hd), Htd, Hte.
        reflexivity. }
      destruct p; unfold slots_follow; cbn [parsed flat_map];
        rewrite ?app_nil_r; auto;
        unfold forecast_of, market_data_of, threat_level_of;
        rewrite Hg; rewrite ?(OptGet_Some _ _ _ Hd), ?Htd;
        cbn [negb andb last].
      -- rewrite !(on_metadata_market_trends event done _ Hd). cbv zeta.
         destruct (truthy (OptGet event (str "agent")) &&
                   truthy (OptGet event (str "content")));
           destruct (truthy (OptGet (OptGet event (str "metadata"))
                               (str "forecast")));
           split; reflexivity.
      -- rewrite !(on_metadata_launch_detector event done _ Hd). cbv zeta.
         destruct (truthy (OptGet event (str "agent")) &&
                   truthy (OptGet event (str "content")));
           destruct (truthy (OptGet (OptGet event (str "metadata"))
                               (str "assessment")));
           destruct (truthy (OptGet
                               (OptGet (OptGet event (str "metadata"))
                                  (str "assessment"))
                               (str "threat_level")));
           reflexivity.
- unfold RunAnalysis.handle_event, get at 1. rewrite Hd, bind_throw.
  cbn [final throw].
  destruct p; unfold slots_follow; cbn [parsed flat_map];
    rewrite ?app_nil_r; auto;
    unfold forecast_of, market_data_of, threat_level_of, goes_on;
    rewrite !(Get_null event _ _ Hd); try split; reflexivity.
Qed.

Lemma runAnalysis_line_slots (p : RunAnalysis.Page) (line : jsstring) :
  keeps (slots_follow p) (RunAnalysis.handle_line p line).
Proof.
intros u.
destruct (startsWith line data_prefix) eqn:H1.
- destruct (JSON.parse (slice line 6)) as [event|] eqn:H2.
  + rewrite (runAnalysis_line_final p line event u H1 H2).
    assert (Ep : parsed (trace (RunAnalysis.handle_line p line u)) =
                 [event]).
    { unfold RunAnalysis.handle_line. rewrite H1. cbn [negb].
      rewrite parsed_try_catch_swallow.
      unfold JSON_parse. rewrite H2.
      rewrite bind_assoc, bind_observe, bind_ret.
      cbn [after trace parsed app].
      rewrite (runAnalysis_event_parses_nothing p event u). reflexivity. }
    pose proof (runAnalysis_event_slots p event u) as H.
    destruct p; unfold slots_follow in *; cbn [parsed] in H;
      rewrite ?Ep; exact H.
  + rewrite (runAnalysis_malformed_line p line u H1 H2).
    destruct p; unfold slots_follow; cbn; auto.
- rewrite (runAnalysis_other_line p line u H1).
  destruct p; unfold slots_follow; cbn; auto.
Qed.

Ltac slots_atom :=
  idtac;
  match goal with
  | |- slots_follow ?p _ _ _ => destruct p; unfold slots_follow; cbn; auto
  end.

Lemma runAnalysis_try_slots (p : RunAnalysis.Page) (f : Net.Fetch) :
  keeps (slots_follow p)
    (try_finally (try_catch (RunAnalysis.stream p f) RunAnalysis.on_failure)
       RunAnalysis.cleanup).
Proof.
unfold RunAnalysis.stream, RunAnalysis.on_failure, RunAnalysis.cleanup,
  RunAnalysis.setIsRunning, RunAnalysis.setActiveAgent.
repeat keeps_step slots_atom.
apply keeps_read_loop;
  [typeclasses eauto
  | intros; apply runAnalysis_line_slots
  | intros; slots_atom
  | intros; slots_atom].
Qed.

(** X11.  The result slots show the last result received.  When a run
    of the market trends page returns, the forecast is that of the last
    parsed event that passed the [done] and the [error] test and had a
    truthy [metadata.forecast], and the market data is that of the last
    parsed event with a truthy [done] and a truthy [metadata.market_data];
    on the launch detector page the threat level is that of the last
    event that passed both tests and had a truthy [metadata.assessment]
    with a truthy [threat_level].  With no such event the slot is null:
    nothing of the run before remains. *)
Theorem the_result_slots_hold_the_last_result
    (f : Net.Fetch) (u : RunAnalysis.UI) :
  (let r := RunAnalysis.run RunAnalysis.MarketTrends f u in
   RunAnalysis.forecast (final r) =
     last (flat_map forecast_of (parsed (trace r))) JNull /\
   RunAnalysis.marketData (final r) =
     last (flat_map market_data_of (parsed (trace r))) JNull) /\
  (let r := RunAnalysis.run RunAnalysis.LaunchDetector f u in
   RunAnalysis.threatLevel (final r) =
     last (flat_map threat_level_of (parsed (trace r))) JNull).
Proof.
split.
- intros r. subst r. unfold RunAnalysis.run, RunAnalysis.runAnalysis.
  rewrite (bind_eq_normal _ _ _ _ _ _ (reset_eq RunAnalysis.MarketTrends u)).
  cbn [after final trace]. rewrite parsed_app, parsed_reset. cbn [app].
  exact (runAnalysis_try_slots RunAnalysis.MarketTrends f
           (runAnalysis_start RunAnalysis.MarketTrends u)).
- intros r. subst r. unfold RunAnalysis.run, RunAnalysis.runAnalysis.
  rewrite (bind_eq_normal _ _ _ _ _ _
             (reset_eq RunAnalysis.LaunchDetector u)).
  cbn [after final trace]. rewrite parsed_app, parsed_reset. cbn [app].
  exact (runAnalysis_try_slots RunAnalysis.LaunchDetector f
           (runAnalysis_start RunAnalysis.LaunchDetector u)).
Qed.

(* ===================================================================== *)
(** ** The file picker *)
(* ===================================================================== *)

Lemma jsstring_eqb_eq (s t : jsstring) : JsString.eqb s t = true <-> s = t.
Proof.
revert t. induction s as [|c s IH]; intros [|d t]; cbn; split;
  try discriminate; try reflexivity.
- intros H. apply andb_true_iff in H. destruct H as [Hc Hs].
  apply Z.eqb_eq in Hc. apply IH in Hs. subst. reflexivity.
- intros H. injection H as -> ->. rewrite Z.eqb_refl. cbn.
  apply IH. reflexivity.
Qed.

Lemma includes_In (a : list jsstring) (s : jsstring) :
  ScreenshotUploader.includes a s = true <-> In s a.
Proof.
unfold ScreenshotUploader.includes. rewrite existsb_exists. split.
- intros (x & Hx & E). apply jsstring_eqb_eq in E. subst. exact Hx.
- intros H. exists s. split; [exact H | apply jsstring_eqb_eq; reflexivity].
Qed.

(** What [validateFile] lets through. *)
Lemma validateFile_None (file : ScreenshotUploader.File) :
  ScreenshotUploader.validateFile file = None <->
  In (ScreenshotUploader.type file) ScreenshotUploader.ACCEPTED_TYPES /\
  ScreenshotUploader.size file <= ScreenshotUploader.MAX_FILE_SIZE.
Proof.
unfold ScreenshotUploader.validateFile.
rewrite <- includes_In.
destruct (ScreenshotUploader.includes ScreenshotUploader.ACCEPTED_TYPES
            (ScreenshotUploader.type file)); cbn [negb].
- destruct (Z.ltb_spec ScreenshotUploader.MAX_FILE_SIZE
              (ScreenshotUploader.size file)).
  + split; [discriminate | intros [_ H']; lia].
  + split; [intros _; split; [reflexivity | lia] | reflexivity].
- split; [discriminate | intros [H _]; discriminate].
Qed.

(** Both refusals are messages that are not empty. *)
Lemma validateFile_message (file : ScreenshotUploader.File) :
  ScreenshotUploader.validateFile file <> Some [].
Proof.
unfold ScreenshotUploader.validateFile.
destruct (negb _); [discriminate|].
destruct (_ <? _); discriminate.
Qed.

Lemma handleFileSelect_valid (file : ScreenshotUploader.File)
    (s : ScreenshotUploader.State) :
  valid_screenshot s ->
  valid_screenshot
    (fold_left ScreenshotUploader.apply
       (ScreenshotUploader.handleFileSelect file) s).
Proof.
intros Hs. unfold ScreenshotUploader.handleFileSelect.
pose proof (validateFile_None file) as Hv.
pose proof (validateFile_message file) as Hm.
destruct (ScreenshotUploader.validateFile file) as [[|c e]|].
- contradiction.
- exact Hs.
- intros file' H. cbn in H. injection H as <-. apply Hv. reflexivity.
Qed.

Lemma step_valid (s : ScreenshotUploader.State)
    (e : ScreenshotUploader.Event) :
  valid_screenshot s -> valid_screenshot (ScreenshotUploader.step s e).
Proof.
intros Hs. unfold ScreenshotUploader.step.
destruct e as [type|files|files|mounted]; cbn [ScreenshotUploader.handle].
- unfold ScreenshotUploader.handleDrag.
  destruct (_ || _); [exact Hs|].
  destruct (JsString.eqb _ _); exact Hs.
- unfold ScreenshotUploader.handleDrop.
  destruct (ScreenshotUploader.first_file files) as [file|];
    [|exact Hs].
  rewrite fold_left_app. apply handleFileSelect_valid. exact Hs.
- unfold ScreenshotUploader.handleChange.
  destruct (ScreenshotUploader.first_file files) as [file|];
    [|exact Hs].
  apply handleFileSelect_valid. exact Hs.
- unfold ScreenshotUploader.handleClear.
  destruct mounted; intros file H; discriminate H.
Qed.

(** X12.  Whatever is dragged, dropped, picked or cleared, in whatever
    order, the screenshot the page holds is always either none or a file
    of an accepted image type of at most 10 MiB: [onFileSelect] is only
    ever called with a file that [validateFile] lets through, and a
    refused file leaves the selection as it was. *)
Theorem the_screenshot_is_always_an_accepted_image
    (events : list ScreenshotUploader.Event) (file : ScreenshotUploader.File) :
  ScreenshotUploader.screenshot
    (fold_left ScreenshotUploader.step events ScreenshotUploader.initial)
  = Some file ->
  In (ScreenshotUploader.type file)
     [str "image/png"; str "image/jpeg"; str "image/webp"; str "image/gif"] /\
  ScreenshotUploader.size file <= 10485760.
Proof.
assert (H : forall s, valid_screenshot s ->
            valid_screenshot (fold_left ScreenshotUploader.step events s)).
{ induction events as [|e events IH]; intros s Hs; cbn [fold_left].
  - exact Hs.
  - apply IH, step_valid, Hs. }
apply (H ScreenshotUploader.initial).
intros file' H'. discriminate H'.
Qed.

(** X12 at a refused file followed by an accepted one. *)
Lemma the_screenshot_is_always_an_accepted_image_witness :
  let big := ScreenshotUploader.mkFile (str "a.png") (str "image/png")
               20000000 in
  let pdf := ScreenshotUploader.mkFile (str "b.pdf") (str "application/pdf")
               1000 in
  let ok := ScreenshotUploader.mkFile (str "c.webp") (str "image/webp")
              10485760 in
  let events := [ScreenshotUploader.Drag (str "dragenter");
                 ScreenshotUploader.Drop (Some [big; ok]);
                 ScreenshotUploader.Change (Some [pdf]);
                 ScreenshotUploader.Change (Some [ok; pdf])] in
  ScreenshotUploader.screenshot
    (fold_left ScreenshotUploader.step events ScreenshotUploader.initial)
  = Some ok /\
  ScreenshotUploader.size ok <= 10485760.
Proof.
intros big pdf ok events.
assert (H : ScreenshotUploader.screenshot
              (fold_left ScreenshotUploader.step events
                 ScreenshotUploader.initial) = Some ok)
  by (vm_compute; reflexivity).
split; [exact H|].
exact (proj2 (the_screenshot_is_always_an_accepted_image events ok H)).
Defined.

(** X13.  The size a refusal reports is rounded to one decimal, so a
    file of an accepted type that is over the limit by less than a
    twentieth of a mebibyte is refused with a message that reports the
    limit itself as its size. *)
Theorem a_file_barely_too_large_is_reported_at_the_limit
    (file : ScreenshotUploader.File) :
  In (ScreenshotUploader.type file) ScreenshotUploader.ACCEPTED_TYPES ->
  10485760 < ScreenshotUploader.size file <= 10538188 ->
  ScreenshotUploader.validateFile file =
  Some (str "File too large (10.0MB). Maximum is 10MB.").
Proof.
intros Ht Hs. unfold ScreenshotUploader.validateFile.
apply includes_In in Ht. rewrite Ht. cbn [negb].
replace (ScreenshotUploader.MAX_FILE_SIZE <? ScreenshotUploader.size file)
  with true
  by (symmetry; apply Z.ltb_lt; unfold ScreenshotUploader.MAX_FILE_SIZE; lia).
unfold ScreenshotUploader.toFixed.
replace ((2 * ScreenshotUploader.size file * 10 ^ Z.of_nat 1 + 1024 * 1024)
         / (2 * (1024 * 1024))) with 100.
- vm_compute. reflexivity.
- apply Z.div_unique with
    (r := 2 * ScreenshotUploader.size file * 10 + 1024 * 1024
          - 100 * (2 * (1024 * 1024))).
  + left. lia.
  + change (10 ^ Z.of_nat 1) with 10. lia.
Qed.

(** X13 at a file one byte over the limit. *)
Lemma a_file_barely_too_large_is_reported_at_the_limit_witness :
  ScreenshotUploader.validateFile
    (ScreenshotUploader.mkFile (str "shot.png") (str "image/png") 10485761)
  = Some (str "File too large (10.0MB). Maximum is 10MB.").
Proof.
apply a_file_barely_too_large_is_reported_at_the_limit.
- left. reflexivity.
- cbn. lia.
Defined.

(* ===================================================================== *)
(** ** Rendering the analysis stream *)
(* ===================================================================== *)

Lemma each_throws {A B} (f : A -> Component.Rendering B) (xs : list A) :
  (exists e, Component.each f xs = Component.Throws e) <->
  Exists (fun x => exists e, f x = Component.Throws e) xs.
Proof.
induction xs as [|x xs IH]; cbn [Component.each].
- split; [intros [e H]; discriminate | intros H; inversion H].
- destruct (f x) as [e|y] eqn:E.
  + split; [|intros _; exists e; reflexivity].
    intros _. left. exists e. exact E.
  + split.
    * intros [e H]. right. apply IH.
      destruct (Component.each f xs) as [e'|ys]; [|discriminate].
      exists e'. reflexivity.
    * intros H. inversion H as [? ? [e He]|? ? H']; subst.
      -- rewrite E in He. discriminate.
      -- apply IH in H'. destruct H' as [e He]. rewrite He.
         exists e. reflexivity.
Qed.

Lemma each_shows {A B} (f : A -> Component.Rendering B) (xs : list A)
    (ys : list B) :
  Component.each f xs = Component.Shows ys ->
  Forall2 (fun x y => f x = Component.Shows y) xs ys.
Proof.
revert ys. induction xs as [|x xs IH]; intros ys; cbn [Component.each].
- intros H. injection H as <-. constructor.
- destruct (f x) as [e|y] eqn:E; [discriminate|].
  destruct (Component.each f xs) as [e'|ys']; [discriminate|].
  intros H. injection H as <-. constructor; [exact E | apply IH; reflexivity].
Qed.

Lemma member_name_None (member : jsstring) :
  PlainObject.member_name member = None <-> member = str "__proto__".
Proof.
unfold PlainObject.member_name.
destruct (JsString.eqb member (str "__proto__")) eqn:E.
- apply jsstring_eqb_eq in E. split; [intros _; exact E | reflexivity].
- split.
  + destruct (JsString.eqb member (str "constructor")); discriminate.
  + intros ->. discriminate E.
Qed.

Lemma get_Inherited {V} (table : list (jsstring * V)) (key member : jsstring) :
  PlainObject.get table key = PlainObject.Inherited member -> member = key.
Proof.
unfold PlainObject.get.
destruct (PlainObject.own table key); [discriminate|].
destruct (PlainObject.inherited key); [|discriminate].
intros H. injection H as <-. reflexivity.
Qed.

(** The [__proto__] of a table of agents is not one of its agents. *)
Lemma get_proto (p : RunAnalysis.Page) :
  PlainObject.get (OutputStream.AGENTS p) (str "__proto__") =
  PlainObject.Inherited (str "__proto__").
Proof. destruct p; reflexivity. Qed.

(** When a line of the stream cannot be rendered. *)
Lemma line_throws (p : RunAnalysis.Page) (o : OutputStream.AgentOutput) :
  (exists e, OutputStream.line p o = Component.Throws e) <->
  OutputStream.agent o = str "__proto__" \/
  (p <> RunAnalysis.MarketTrends /\
   PlainObject.get (OutputStream.AGENTS p) (OutputStream.agent o) =
   PlainObject.Absent).
Proof.
unfold OutputStream.line.
destruct (PlainObject.get (OutputStream.AGENTS p) (OutputStream.agent o))
  as [config|member|] eqn:G.
- split.
  + intros [e H]. destruct p; discriminate H.
  + intros [H|[_ H]]; [|discriminate H].
    rewrite H, get_proto in G. discriminate G.
- pose proof (get_Inherited _ _ _ G) as ->.
  pose proof (member_name_None (OutputStream.agent o)) as Hm.
  destruct (PlainObject.member_name (OutputStream.agent o)) as [n|].
  + split.
    * intros [e H]. destruct p; discriminate H.
    * intros [H|[_ H]]; [|discriminate H].
      apply Hm in H. discriminate H.
  + split.
    * intros _. left. apply Hm. reflexivity.
    * intros _. destruct p; eexists; reflexivity.
- split.
  + intros [e H]. destruct p; [discriminate H| |];
      right; (split; [discriminate | reflexivity]).
  + intros [H|[Hp _]].
    * rewrite H, get_proto in G. discriminate G.
    * destruct p; [contradiction| |]; eexists; reflexivity.
Qed.

(** The entries that stop the rendering of the stream. *)
Lemma when_the_analysis_stream_cannot_be_rendered_aux
    (p : RunAnalysis.Page) (outputs : list OutputStream.AgentOutput) :
  (exists e, OutputStream.render p outputs = Component.Throws e) <->
  Exists (fun o =>
            OutputStream.agent o = str "__proto__" \/
            (p <> RunAnalysis.MarketTrends /\
             PlainObject.own (OutputStream.AGENTS p) (OutputStream.agent o)
             = None /\
             ~ In (OutputStream.agent o) PlainObject.Object_prototype))
    outputs.
Proof.
assert (Ha : forall o,
          PlainObject.get (OutputStream.AGENTS p) (OutputStream.agent o) =
          PlainObject.Absent <->
          PlainObject.own (OutputStream.AGENTS p) (OutputStream.agent o)
          = None /\
          ~ In (OutputStream.agent o) PlainObject.Object_prototype).
{ intros o. unfold PlainObject.get, PlainObject.inherited.
  destruct (PlainObject.own _ _).
  - split; [discriminate | intros [H _]; discriminate H].
  - destruct (existsb _ _) eqn:E.
    + split; [discriminate|]. intros [_ H]. exfalso. apply H.
      apply existsb_exists in E. destruct E as (x & Hx & E).
      apply jsstring_eqb_eq in E. subst. exact Hx.
    + split; [|reflexivity]. intros _. split; [reflexivity|].
      intros H. apply Bool.not_true_iff_false in E. apply E.
      apply existsb_exists. exists (OutputStream.agent o).
      split; [exact H | apply jsstring_eqb_eq; reflexivity]. }
transitivity
  (Exists (fun o => exists e, OutputStream.line p o = Component.Throws e)
     outputs).
- unfold OutputStream.render. destruct outputs as [|o outputs].
  + split; [intros [e H]; discriminate H | intros H; inversion H].
  + rewrite <- each_throws.
    destruct (Component.each (OutputStream.line p) (o :: outputs)) as [e|ls].
    * split; intros _; exists e; reflexivity.
    * split; intros [e H]; discriminate H.
- split; apply Exists_impl; intros o H.
  + apply line_throws in H. destruct H as [H|[Hp H]]; [left; exact H|].
    right. split; [exact Hp | apply Ha, H].
  + apply line_throws. destruct H as [H|[Hp H]]; [left; exact H|].
    right. split; [exact Hp | apply Ha, H].
Qed.

(** X14.  The analysis stream of the launch detector and of the crisis
    detector page cannot be rendered exactly when the accumulator holds an
    entry whose agent is not one the page configures (reading a property
    of the missing configuration throws a [TypeError]) or is named
    [__proto__]; on the market trends page, which guards the same lookup,
    only in the second case.  [runAnalysis] dispatches any truthy agent,
    so a stream decides this. *)
Theorem when_the_analysis_stream_cannot_be_rendered
    (p : RunAnalysis.Page) (outputs : list OutputStream.AgentOutput) :
  (exists e, OutputStream.render p outputs = Component.Throws e) <->
  Exists (fun o =>
            OutputStream.agent o = str "__proto__" \/
            (p <> RunAnalysis.MarketTrends /\
             PlainObject.own (OutputStream.AGENTS p) (OutputStream.agent o)
             = None /\
             ~ In (OutputStream.agent o) PlainObject.Object_prototype))
    outputs.
Proof.
apply when_the_analysis_stream_cannot_be_rendered_aux.
Qed.

Lemma own_In {V} (table : list (jsstring * V)) (key : jsstring) (v : V) :
  PlainObject.own table key = Some v -> In v (map snd table).
Proof.
induction table as [|[k w] table IH]; cbn; [discriminate|].
destruct (JsString.eqb k key).
- intros H. injection H as <-. left. reflexivity.
- intros H. right. apply IH, H.
Qed.

(** Every agent the market trends page configures has a label colour
    and a name that starts with a word. *)
Lemma TREND_AGENTS_filled (config : OutputStream.AgentConfig) :
  In config (map snd OutputStream.TREND_AGENTS) ->
  OutputStream.labelColor config <> [] /\
  Component.first_word (OutputStream.name config) <> [].
Proof.
intros [<-|[<-|[<-|[]]]]; split; discriminate.
Qed.

Lemma line_text (p : RunAnalysis.Page) (o : OutputStream.AgentOutput)
    (l : OutputStream.Line) :
  OutputStream.line p o = Component.Shows l ->
  OutputStream.text l = OutputStream.content o.
Proof.
unfold OutputStream.line.
destruct (PlainObject.get (OutputStream.AGENTS p) (OutputStream.agent o))
  as [config|member|];
  [| destruct (PlainObject.member_name member) |];
  destruct p; intros H; try discriminate H; injection H as <-; reflexivity.
Qed.

Lemma line_market_trends_own (o : OutputStream.AgentOutput)
    (config : OutputStream.AgentConfig) :
  PlainObject.own OutputStream.TREND_AGENTS (OutputStream.agent o)
  = Some config ->
  OutputStream.line RunAnalysis.MarketTrends o =
  Component.Shows
    (OutputStream.mkLine
       (OutputStream.labelColor config ++ str " font-semibold shrink-0")
       (Component.first_word (OutputStream.name config))
       (OutputStream.thought_of RunAnalysis.MarketTrends o)
       (OutputStream.content o)).
Proof.
intros G. destruct (TREND_AGENTS_filled config (own_In _ _ _ G)) as [Hc Hn].
unfold OutputStream.line, PlainObject.get. cbn [OutputStream.AGENTS].
rewrite G.
destruct (OutputStream.labelColor config); [contradiction|].
destruct (Component.first_word (OutputStream.name config));
  [contradiction|].
reflexivity.
Qed.

Lemma line_market_trends_absent (o : OutputStream.AgentOutput) :
  PlainObject.get OutputStream.TREND_AGENTS (OutputStream.agent o)
  = PlainObject.Absent ->
  OutputStream.line RunAnalysis.MarketTrends o =
  Component.Shows
    (OutputStream.mkLine (str "text-gray-400 font-semibold shrink-0")
       (OutputStream.agent o)
       (OutputStream.thought_of RunAnalysis.MarketTrends o)
       (OutputStream.content o)).
Proof.
intros G. unfold OutputStream.line. cbn [OutputStream.AGENTS].
rewrite G. reflexivity.
Qed.

(** X15.  The analysis stream of the market trends page shows every
    entry, in order, with its content; an entry whose agent the page does
    not configure is shown under the agent's own name, in gray, and one
    whose agent is configured under the first word of the configured
    name, in the configured colour. *)
Theorem the_market_trends_stream_shows_every_entry
    (o : OutputStream.AgentOutput) (outputs : list OutputStream.AgentOutput) :
  Forall (fun o => OutputStream.agent o <> str "__proto__") (o :: outputs) ->
  exists lines,
    OutputStream.render RunAnalysis.MarketTrends (o :: outputs) =
    Component.Shows (OutputStream.Lines lines) /\
    Forall2
      (fun o l =>
         OutputStream.text l = OutputStream.content o /\
         (PlainObject.get OutputStream.TREND_AGENTS (OutputStream.agent o)
          = PlainObject.Absent ->
          OutputStream.badge l = OutputStream.agent o /\
          OutputStream.badge_class l =
            str "text-gray-400 font-semibold shrink-0") /\
         (forall config,
            PlainObject.own OutputStream.TREND_AGENTS (OutputStream.agent o)
            = Some config ->
            OutputStream.badge l =
              Component.first_word (OutputStream.name config) /\
            OutputStream.badge_class l =
              OutputStream.labelColor config ++
              str " font-semibold shrink-0"))
      (o :: outputs) lines.
Proof.
intros Hp.
destruct (OutputStream.render RunAnalysis.MarketTrends (o :: outputs))
  as [e|v] eqn:R.
- exfalso.
  assert (He : exists e, OutputStream.render RunAnalysis.MarketTrends
                           (o :: outputs) = Component.Throws e)
    by (exists e; exact R).
  apply when_the_analysis_stream_cannot_be_rendered_aux in He.
  apply Exists_exists in He. destruct He as (x & Hx & [H|[H _]]).
  + rewrite Forall_forall in Hp. exact (Hp x Hx H).
  + apply H. reflexivity.
- unfold OutputStream.render in R.
  destruct (Component.each (OutputStream.line RunAnalysis.MarketTrends)
              (o :: outputs)) as [e|lines] eqn:E; [discriminate R|].
  exists lines. split; [injection R as <-; reflexivity|].
  apply each_shows in E.
  eapply Forall2_impl; [|exact E].
  intros x l Hl. cbv beta in Hl.
  split; [exact (line_text _ _ _ Hl)|]. split.
  + intros G. rewrite (line_market_trends_absent x G) in Hl.
    injection Hl as <-. split; reflexivity.
  + intros config G. rewrite (line_market_trends_own x config G) in Hl.
    injection Hl as <-. split; reflexivity.
Qed.

(** X15 at a configured agent and one that is not. *)
Lemma the_market_trends_stream_shows_every_entry_witness :
  let o1 := OutputStream.mkAgentOutput (str "observer") (str "volume is up")
              (Some (str "observation")) in
  let o2 := OutputStream.mkAgentOutput (str "ghost") (str "boo") None in
  exists lines,
    OutputStream.render RunAnalysis.MarketTrends [o1; o2] =
    Component.Shows (OutputStream.Lines lines) /\
    map OutputStream.badge lines = [str "Market"; str "ghost"].
Proof.
intros o1 o2.
destruct (the_market_trends_stream_shows_every_entry o1 [o2])
  as (lines & R & H).
- repeat constructor; discriminate.
- exists lines. split; [exact R|].
  inversion H as [|? l1 ? ls1 H1 H']; subst.
  inversion H' as [|? l2 ? ls2 H2 H'']; subst.
  inversion H''; subst.
  destruct H1 as (_ & _ & H1). destruct H2 as (_ & H2 & _).
  destruct (H1 _ eq_refl) as [E1 _]. destruct (H2 eq_refl) as [E2 _].
  cbn [map]. rewrite E1, E2. reflexivity.
Defined.

(** A stream whose agent the launch detector does not configure: the
    entry is dispatched, and the page can no longer render its stream;
    the market trends page shows the same entry in gray. *)
Example an_unknown_agent_on_the_launch_detector_page :
  let r := RunAnalysis.run RunAnalysis.LaunchDetector
             (streaming true []
                [frame "data: {'agent':'ghost','content':'boo'}"] Net.EOF)
             idle in
  let entries := [OutputStream.mkAgentOutput (str "ghost") (str "boo") None] in
  completion r = Normal tt /\
  console (trace r) = [] /\
  OutputStream.all_typed (RunAnalysis.outputs (final r)) = Some entries /\
  OutputStream.render RunAnalysis.LaunchDetector entries =
    Component.Throws OutputStream.type_error /\
  OutputStream.render RunAnalysis.MarketTrends entries =
    Component.Shows
      (OutputStream.Lines
         [OutputStream.mkLine (str "text-gray-400 font-semibold shrink-0")
            (str "ghost") None (str "boo")]).
Proof. vm_compute. repeat split. Qed.

(* ===================================================================== *)
(** ** Grouping the messages by agent *)
(* ===================================================================== *)

Lemma jsstring_eqb_refl (s : jsstring) : JsString.eqb s s = true.
Proof. apply jsstring_eqb_eq. reflexivity. Qed.

Lemma jsstring_eqb_neq (s t : jsstring) :
  JsString.eqb s t = false <-> s <> t.
Proof.
split.
- intros H E. subst. rewrite jsstring_eqb_refl in H. discriminate.
- intros H. destruct (JsString.eqb s t) eqn:E; [|reflexivity].
  apply jsstring_eqb_eq in E. contradiction.
Qed.

Lemma own_push (acc : AgentStream.Groups) (key k : jsstring)
    (msg : AgentStream.AgentMessage) :
  PlainObject.own (AgentStream.push acc key msg) k =
  match PlainObject.own acc k with
  | Some arr => Some (if JsString.eqb key k then arr ++ [msg] else arr)
  | None => None
  end.
Proof.
induction acc as [|[k0 arr] acc IH]; cbn [AgentStream.push PlainObject.own].
- reflexivity.
- destruct (JsString.eqb k0 key) eqn:E0; cbn [PlainObject.own].
  + apply jsstring_eqb_eq in E0. subst k0.
    destruct (JsString.eqb key k); [reflexivity|].
    destruct (PlainObject.own acc k); reflexivity.
  + destruct (JsString.eqb k0 k) eqn:E1; [|exact IH].
    apply jsstring_eqb_eq in E1. subst k0.
    apply jsstring_eqb_neq in E0.
    destruct (JsString.eqb key k) eqn:E2; [|reflexivity].
    apply jsstring_eqb_eq in E2. subst. contradiction.
Qed.

Lemma own_app_new {V} (acc : list (jsstring * V)) (key k : jsstring) (v : V) :
  PlainObject.own (acc ++ [(key, v)]) k =
  match PlainObject.own acc k with
  | Some w => Some w
  | None => if JsString.eqb key k then Some v else None
  end.
Proof.
induction acc as [|[k0 w] acc IH]; cbn [app PlainObject.own].
- reflexivity.
- destruct (JsString.eqb k0 k); [reflexivity | exact IH].
Qed.

(** One step of the reduction, on a message whose agent names no member
    of [Object.prototype]. *)
Lemma group_step (acc : AgentStream.Groups) (msg : AgentStream.AgentMessage) :
  hides_nothing acc ->
  PlainObject.inherited (AgentStream.agent msg) = false ->
  exists acc',
    AgentStream.group acc msg = Component.Shows acc' /\
    hides_nothing acc' /\
    forall k, group_of acc' k =
              group_of acc k ++ messages_of [msg] k.
Proof.
intros Hh Hi. unfold AgentStream.group, PlainObject.get. rewrite Hi.
destruct (PlainObject.own acc (AgentStream.agent msg)) as [arr|] eqn:G.
- eexists. split; [reflexivity|]. split.
  + intros k Hk. apply Hh. rewrite own_push in Hk.
    destruct (PlainObject.own acc k); [discriminate | exact Hk].
  + intros k. unfold group_of, messages_of. rewrite own_push. cbn [filter].
    destruct (JsString.eqb (AgentStream.agent msg) k) eqn:E.
    * apply jsstring_eqb_eq in E. subst k. rewrite G. reflexivity.
    * destruct (PlainObject.own acc k); rewrite ?app_nil_r; reflexivity.
- eexists. split; [reflexivity|]. split.
  + intros k Hk. rewrite own_app_new in Hk.
    destruct (PlainObject.own acc k) eqn:Gk.
    * apply Hh. rewrite Gk. discriminate.
    * destruct (JsString.eqb (AgentStream.agent msg) k) eqn:E;
        [|contradiction].
      apply jsstring_eqb_eq in E. subst k. exact Hi.
  + intros k. unfold group_of, messages_of. rewrite own_app_new.
    cbn [filter].
    destruct (JsString.eqb (AgentStream.agent msg) k) eqn:E.
    * apply jsstring_eqb_eq in E. subst k. rewrite G. reflexivity.
    * destruct (PlainObject.own acc k); rewrite ?app_nil_r; reflexivity.
Qed.

(** The reduction groups the messages by agent, each group in the order
    of arrival. *)
Lemma reduce_groups (messages : list AgentStream.AgentMessage) :
  forall acc,
    hides_nothing acc ->
    Forall (fun msg => PlainObject.inherited (AgentStream.agent msg) = false)
      messages ->
    exists acc',
      AgentStream.reduce messages acc = Component.Shows acc' /\
      forall k, group_of acc' k = group_of acc k ++ messages_of messages k.
Proof.
induction messages as [|msg messages IH]; intros acc Hh Hf;
  cbn [AgentStream.reduce].
- exists acc. split; [reflexivity|]. intros k. cbn. rewrite app_nil_r.
  reflexivity.
- inversion Hf as [|? ? Hm Hf']; subst.
  destruct (group_step acc msg Hh Hm) as (acc1 & -> & Hh1 & H1).
  destruct (IH acc1 Hh1 Hf') as (acc' & -> & H').
  exists acc'. split; [reflexivity|]. intros k.
  rewrite H', H1, <- app_assoc. f_equal.
  unfold messages_of. cbn [filter].
  destruct (JsString.eqb (AgentStream.agent msg) k); reflexivity.
Qed.

(** The reduction throws exactly at a message whose agent names a
    member of [Object.prototype]. *)
Lemma reduce_throws (messages : list AgentStream.AgentMessage) :
  forall acc,
    hides_nothing acc ->
    ((exists e, AgentStream.reduce messages acc = Component.Throws e) <->
     Exists (fun msg => PlainObject.inherited (AgentStream.agent msg) = true)
       messages).
Proof.
induction messages as [|msg messages IH]; intros acc Hh;
  cbn [AgentStream.reduce].
- split; [intros [e H]; discriminate H | intros H; inversion H].
- destruct (PlainObject.inherited (AgentStream.agent msg)) eqn:Hi.
  + split; [intros _; left; exact Hi|]. intros _.
    unfold AgentStream.group, PlainObject.get. rewrite Hi.
    destruct (PlainObject.own acc (AgentStream.agent msg)) eqn:G.
    * assert (Hn : PlainObject.inherited (AgentStream.agent msg) = false)
        by (apply Hh; rewrite G; discriminate).
      rewrite Hn in Hi. discriminate Hi.
    * eexists. reflexivity.
  + destruct (group_step acc msg Hh Hi) as (acc1 & -> & Hh1 & _).
    rewrite (IH acc1 Hh1). split.
    * intros H. right. exact H.
    * intros H. inversion H as [? ? H0|? ? H0]; subst; [|exact H0].
      rewrite Hi in H0. discriminate H0.
Qed.

Lemma hides_nothing_nil : hides_nothing [].
Proof. intros k H. cbn in H. contradiction. Qed.

Lemma inherited_In (key : jsstring) :
  PlainObject.inherited key = true <-> In key PlainObject.Object_prototype.
Proof.
unfold PlainObject.inherited. rewrite existsb_exists. split.
- intros (x & Hx & E). apply jsstring_eqb_eq in E. subst. exact Hx.
- intros H. exists key. split; [exact H | apply jsstring_eqb_refl].
Qed.

(** X16.  [AgentStream] throws exactly when one of its messages has an
    agent named like a member of [Object.prototype] -- [constructor],
    [toString], [__proto__] and the like: the object the messages are
    grouped in inherits a truthy value under that name, which has no
    [push].  [handleAnalyze] appends every event with a truthy agent to
    the messages, so a stream decides this. *)
Theorem when_the_message_cards_cannot_be_rendered
    (messages : list AgentStream.AgentMessage)
    (activeAgent : option jsstring) :
  (exists e, AgentStream.AgentStream messages activeAgent
             = Component.Throws e) <->
  Exists (fun msg => In (AgentStream.agent msg) PlainObject.Object_prototype)
    messages.
Proof.
transitivity
  (Exists (fun msg => PlainObject.inherited (AgentStream.agent msg) = true)
     messages).
- rewrite <- (reduce_throws messages [] hides_nothing_nil).
  unfold AgentStream.AgentStream.
  destruct messages as [|msg messages].
  + destruct (AgentStream.truthy_agent activeAgent); cbn;
      split; intros [e H]; discriminate H.
  + destruct (AgentStream.reduce (msg :: messages) []) as [e|acc].
    * split; intros _; exists e; reflexivity.
    * split; intros [e H]; discriminate H.
- split; apply Exists_impl; intros msg; apply inherited_In.
Qed.

(** The card of a configured agent. *)
Lemma card_eq (acc : AgentStream.Groups) (activeAgent : option jsstring)
    (k : jsstring) (cfg : AgentStream.AgentConfig) :
  PlainObject.own AgentStream.AGENT_CONFIG k = Some cfg ->
  let mine := group_of acc k in
  let active := AgentStream.is_active activeAgent k in
  AgentStream.card acc activeAgent k =
  if negb (is_empty mine) || active
  then [AgentStream.mkCard k cfg
          (active && negb (existsb AgentStream.is_final mine))
          (existsb AgentStream.is_final mine)
          (map AgentStream.row mine)
          (active && is_empty mine)]
  else [].
Proof.
intros H. unfold AgentStream.card, group_of. rewrite H.
destruct (PlainObject.own acc k) as [[|m ms]|];
  destruct (AgentStream.is_active activeAgent k); reflexivity.
Qed.

Lemma cards_spec (messages : list AgentStream.AgentMessage)
    (acc : AgentStream.Groups) (activeAgent : option jsstring) :
  (forall k, group_of acc k = messages_of messages k) ->
  let shown k :=
    negb (is_empty (messages_of messages k)) ||
    AgentStream.is_active activeAgent k in
  let cards := flat_map (AgentStream.card acc activeAgent)
                 AgentStream.agentOrder in
  map AgentStream.key cards = filter shown AgentStream.agentOrder /\
  Forall (card_of messages activeAgent) cards.
Proof.
intros Hg shown cards. subst shown cards.
unfold AgentStream.agentOrder. cbn [flat_map filter].
rewrite (card_eq acc activeAgent (str "scout") _ eq_refl).
rewrite (card_eq acc activeAgent (str "analyst") _ eq_refl).
rewrite (card_eq acc activeAgent (str "strategist") _ eq_refl).
cbv zeta. rewrite !Hg.
destruct (negb (is_empty (messages_of messages (str "scout"))) ||
          AgentStream.is_active activeAgent (str "scout"));
  destruct (negb (is_empty (messages_of messages (str "analyst"))) ||
            AgentStream.is_active activeAgent (str "analyst"));
  destruct (negb (is_empty (messages_of messages (str "strategist"))) ||
            AgentStream.is_active activeAgent (str "strategist"));
  (split; [reflexivity|]);
  repeat constructor.
Qed.

(** X17.  When no message has an agent named like a member of
    [Object.prototype], [AgentStream] returns [null] exactly when there
    is no message and no active agent, and otherwise a view in which:
    the cards are those of the agents scout, analyst and strategist, in
    this order, that have a message or are the active agent; the rows of
    a card are the messages of its agent, all of them, in the order they
    came; the card shows Complete when one of them is final, Processing
    when its agent is active and none is, and the description of the
    agent in place of rows when its agent is active and has no message.
    A message of any other agent is in no card. *)
Theorem the_message_cards_group_the_messages_by_agent
    (messages : list AgentStream.AgentMessage)
    (activeAgent : option jsstring) :
  Forall (fun msg =>
            ~ In (AgentStream.agent msg) PlainObject.Object_prototype)
    messages ->
  if is_empty messages && negb (AgentStream.truthy_agent activeAgent)
  then AgentStream.AgentStream messages activeAgent = Component.Shows None
  else
    exists view,
      AgentStream.AgentStream messages activeAgent =
        Component.Shows (Some view) /\
      AgentStream.busy view = AgentStream.truthy_agent activeAgent /\
      map AgentStream.key (AgentStream.cards view) =
        filter (fun k => negb (is_empty (messages_of messages k)) ||
                         AgentStream.is_active activeAgent k)
          AgentStream.agentOrder /\
      Forall (card_of messages activeAgent) (AgentStream.cards view).
Proof.
intros Hf.
assert (Hf' : Forall (fun msg =>
                PlainObject.inherited (AgentStream.agent msg) = false)
                messages).
{ eapply Forall_impl; [|exact Hf]. intros msg H. cbv beta in H.
  destruct (PlainObject.inherited (AgentStream.agent msg)) eqn:E;
    [|reflexivity].
  apply inherited_In in E. contradiction. }
destruct (reduce_groups messages [] hides_nothing_nil Hf')
  as (acc & Hr & Hg).
assert (Hg' : forall k, group_of acc k = messages_of messages k)
  by (intros k; rewrite Hg; reflexivity).
destruct (cards_spec messages acc activeAgent Hg') as [Hk Hc].
unfold AgentStream.AgentStream. rewrite Hr.
destruct messages as [|msg messages];
  destruct (AgentStream.truthy_agent activeAgent) eqn:Ht;
  cbn [is_empty andb negb];
  try reflexivity;
  (eexists; split; [reflexivity|]; split; [reflexivity|];
   split; [exact Hk | exact Hc]).
Qed.

(** X17 at the messages of a run: two of the scout, one of an agent the
    page does not know, none of the strategist, who is active. *)
Lemma the_message_cards_group_the_messages_by_agent_witness :
  let m1 := AgentStream.mkAgentMessage (str "scout") (Some (str "analysis"))
              (str "reading the page") false in
  let m2 := AgentStream.mkAgentMessage (str "ghost") None (str "boo") true in
  let m3 := AgentStream.mkAgentMessage (str "scout") None (str "done") true in
  exists view,
    AgentStream.AgentStream [m1; m2; m3] (Some (str "strategist")) =
      Component.Shows (Some view) /\
    map AgentStream.key (AgentStream.cards view) =
      [str "scout"; str "strategist"] /\
    Forall (card_of [m1; m2; m3] (Some (str "strategist")))
      (AgentStream.cards view).
Proof.
intros m1 m2 m3.
destruct (the_message_cards_group_the_messages_by_agent [m1; m2; m3]
            (Some (str "strategist"))) as (view & Hv & _ & Hk & Hc).
- repeat constructor; cbn; intros H;
    repeat (destruct H as [H|H]; [discriminate H|]); exact H.
- exists view. split; [exact Hv|]. split; [exact Hk | exact Hc].
Defined.

(** A stream that names an agent [constructor]: the event is appended
    to the messages, and [AgentStream] throws on them. *)
Example a_message_of_an_agent_named_constructor :
  let r := HandleAnalyze.run true
             (streaming true []
                [frame "data: {'agent':'constructor','thought_type':null,'content':'x','is_final':false}"]
                Net.EOF) idle_form in
  HandleAnalyze.status (final r) = HandleAnalyze.complete /\
  map AgentStream.typed (HandleAnalyze.messages (final r)) =
    [Some (AgentStream.mkAgentMessage (str "constructor") None (str "x")
             false)] /\
  AgentStream.AgentStream
    [AgentStream.mkAgentMessage (str "constructor") None (str "x") false]
    None
  = Component.Throws (Exception.TypeError Exception.EngineDefined).
Proof. vm_compute. repeat split. Qed.

(* ===================================================================== *)
(** ** The request of a run *)
(* ===================================================================== *)

Lemma startsWith_nil (s : jsstring) : startsWith s [] = true.
Proof. destruct s; reflexivity. Qed.

Lemma split_char_app (c : Z) (a b : jsstring) :
  ~ In c a -> split (a ++ c :: b) [c] = a :: split b [c].
Proof.
  unfold split. induction a as [|x a IH]; intros Hn.
  - cbn [app split_from startsWith List.length Nat.pred].
    rewrite Z.eqb_refl, startsWith_nil. reflexivity.
  - cbn [app split_from startsWith List.length Nat.pred].
    rewrite startsWith_nil.
    destruct (Z.eqb_spec x c) as [->|_].
    + exfalso. apply Hn. left. reflexivity.
    + cbn [andb]. rewrite IH.
      * reflexivity.
      * intros Hin. apply Hn. right. exact Hin.
Qed.

Lemma split_char_none (c : Z) (a : jsstring) :
  ~ In c a -> split a [c] = [a].
Proof.
  unfold split. induction a as [|x a IH]; intros Hn.
  - reflexivity.
  - cbn [split_from startsWith List.length Nat.pred].
    rewrite startsWith_nil.
    destruct (Z.eqb_spec x c) as [->|_].
    + exfalso. apply Hn. left. reflexivity.
    + cbn [andb]. rewrite IH.
      * reflexivity.
      * intros Hin. apply Hn. right. exact Hin.
Qed.

Lemma split_join_char (c : Z) (parts : list jsstring) :
  parts <> [] -> Forall (fun p => ~ In c p) parts ->
  split (join parts [c]) [c] = parts.
Proof.
  induction parts as [|p ps IH]; intros Hne H.
  - contradiction.
  - inversion H as [|? ? Hp Hps]; subst.
    destruct ps as [|q ps].
    + cbn [join]. apply split_char_none. exact Hp.
    + change (join (p :: q :: ps) [c]) with (p ++ c :: join (q :: ps) [c]).
      rewrite split_char_app by exact Hp.
      rewrite IH; [reflexivity | discriminate | exact Hps].
Qed.

Lemma inert_not_In (s : jsstring) :
  inert_string s -> ~ In 38 s /\ ~ In 61 s.
Proof.
  intros H. unfold inert_string in H. rewrite Forall_forall in H.
  split; intros Hin; apply H in Hin; unfold inert in Hin; lia.
Qed.

(** A query written as names and values joined by equals signs and
    ampersands is read back as those names and values. *)
Lemma parameters_join (pairs : list (jsstring * jsstring)) :
  pairs <> [] ->
  Forall (fun p => inert_string (fst p) /\ inert_string (snd p)) pairs ->
  parameters (join (map (fun p => fst p ++ [61] ++ snd p) pairs) [38])
  = map (fun p => [fst p; snd p]) pairs.
Proof.
  intros Hne H. unfold parameters.
  change (str "&") with [38]. change (str "=") with [61].
  rewrite split_join_char.
  - rewrite map_map. apply map_ext_in. intros [n v] Hin.
    rewrite Forall_forall in H. destruct (H _ Hin) as [Hn Hv].
    cbn [fst snd] in *.
    apply inert_not_In in Hn. apply inert_not_In in Hv.
    change (n ++ [61] ++ v) with (n ++ 61 :: v).
    rewrite split_char_app by tauto.
    rewrite split_char_none by tauto. reflexivity.
  - destruct pairs; [contradiction | discriminate].
  - rewrite Forall_forall. intros p Hin. apply in_map_iff in Hin.
    destruct Hin as [[n v] [<- Hin]].
    rewrite Forall_forall in H. destruct (H _ Hin) as [Hn Hv].
    cbn [fst snd] in *.
    apply inert_not_In in Hn. apply inert_not_In in Hv.
    intros Hi. apply in_app_or in Hi. cbn [app In] in Hi.
    destruct Hi as [Hi | [Hi | Hi]]; [tauto | discriminate | tauto].
Qed.

Lemma hex_digit_inert (n : Z) : 0 <= n < 16 -> inert (URI.hex_digit n).
Proof.
  intros H. unfold URI.hex_digit, inert.
  destruct (Z.ltb_spec n 10); lia.
Qed.

Lemma percent_inert (octet : Z) :
  0 <= octet < 256 -> inert_string (URI.percent octet).
Proof.
  intros H. unfold URI.percent, inert_string.
  constructor; [unfold inert; lia|].
  constructor; [apply hex_digit_inert; Z.div_mod_to_equations; lia|].
  constructor; [apply hex_digit_inert; Z.div_mod_to_equations; lia|].
  constructor.
Qed.

Lemma utf8_octets (cp : Z) :
  0 <= cp < 0x110000 -> Forall (fun o => 0 <= o < 256) (URI.utf8 cp).
Proof.
  intros H. unfold URI.utf8.
  destruct (Z.ltb_spec cp 0x80); [repeat constructor; lia|].
  destruct (Z.ltb_spec cp 0x800);
    [repeat constructor; Z.div_mod_to_equations; lia|].
  destruct (Z.ltb_spec cp 0x10000);
    repeat constructor; Z.div_mod_to_equations; lia.
Qed.

Lemma percent_utf8_inert (cp : Z) :
  0 <= cp < 0x110000 ->
  inert_string (flat_map URI.percent (URI.utf8 cp)).
Proof.
  intros H. unfold inert_string. apply Forall_flat_map.
  eapply Forall_impl; [|apply utf8_octets; exact H].
  intros o Ho. apply percent_inert. exact Ho.
Qed.

Lemma unreserved_inert (c : Z) : URI.unreserved c = true -> inert c.
Proof.
  unfold URI.unreserved, URI.is_alpha, URI.is_digit, URI.is_mark, inert.
  cbn [existsb]. intros H.
  repeat split; intros ->; vm_compute in H; discriminate H.
Qed.

Lemma unreserved_no_surrogate (c : Z) :
  URI.unreserved c = true -> URI.is_lead c = false /\ URI.is_trail c = false.
Proof.
  unfold URI.unreserved, URI.is_alpha, URI.is_digit, URI.is_mark,
    URI.is_lead, URI.is_trail.
  cbn [existsb]. intros H.
  rewrite !orb_true_iff, !andb_true_iff, !Z.leb_le, !Z.eqb_eq in H.
  split; apply andb_false_iff; rewrite !Z.leb_gt; lia.
Qed.

Lemma code_point_range (c d : Z) :
  URI.is_lead c = true -> URI.is_trail d = true ->
  0x10000 <= URI.code_point c d < 0x110000.
Proof.
  unfold URI.is_lead, URI.is_trail, URI.code_point.
  rewrite !andb_true_iff, !Z.leb_le. lia.
Qed.

(** Induction on a string in steps of one or two code units. *)
Lemma jsstring_ind2 (P : jsstring -> Prop) :
  P [] ->
  (forall c s, P s -> (forall d s', s = d :: s' -> P s') -> P (c :: s)) ->
  forall s, P s.
Proof.
  intros H0 Hs s.
  assert (H : P s /\ (forall d s', s = d :: s' -> P s')).
  { induction s as [|c s [IH1 IH2]].
    - split; [exact H0 | discriminate].
    - split.
      + apply Hs; assumption.
      + intros d s' E. injection E as _ <-. exact IH1. }
  apply H.
Qed.

(** What [encodeURIComponent] returns holds no ampersand, no equals
    sign and no number sign. *)
Lemma encodeURIComponent_inert (s e : jsstring) :
  code_units s -> URI.encodeURIComponent s = Some e -> inert_string e.
Proof.
  revert e. induction s as [|c s IH1 IH2] using jsstring_ind2;
    intros e Hs He.
  - injection He as <-. constructor.
  - inversion Hs as [|? ? Hc Hs']; subst.
    cbn [URI.encodeURIComponent] in He.
    destruct (URI.unreserved c) eqn:Eu.
    { destruct (URI.encodeURIComponent s) as [e'|]; [|discriminate].
      injection He as <-. constructor.
      - apply unreserved_inert. exact Eu.
      - apply IH1; [exact Hs' | reflexivity]. }
    destruct (URI.is_trail c) eqn:Et; [discriminate|].
    destruct (URI.is_lead c) eqn:El.
    + destruct s as [|d s']; [discriminate|].
      destruct (URI.is_trail d) eqn:Ed; [|discriminate].
      destruct (URI.encodeURIComponent s') as [e'|] eqn:E'; [|discriminate].
      injection He as <-. apply Forall_app. split.
      * apply percent_utf8_inert.
        pose proof (code_point_range c d El Ed). lia.
      * apply (IH2 d s' eq_refl); [|exact E'].
        inversion Hs'; assumption.
    + destruct (URI.encodeURIComponent s) as [e'|]; [|discriminate].
      injection He as <-. apply Forall_app. split.
      * apply percent_utf8_inert. lia.
      * apply IH1; [exact Hs' | reflexivity].
Qed.

Lemma scalar_values_range (s : jsstring) :
  code_units s -> Forall (fun cp => 0 <= cp < 0x110000) (URI.scalar_values s).
Proof.
  induction s as [|c s IH1 IH2] using jsstring_ind2; intros Hs.
  - constructor.
  - inversion Hs as [|? ? Hc Hs']; subst.
    cbn [URI.scalar_values].
    destruct (URI.is_lead c) eqn:El.
    + destruct s as [|d s']; [repeat constructor; lia|].
      destruct (URI.is_trail d) eqn:Ed.
      * constructor.
        -- pose proof (code_point_range c d El Ed). lia.
        -- apply (IH2 d s' eq_refl). inversion Hs'; assumption.
      * constructor; [lia | apply IH1; exact Hs'].
    + destruct (URI.is_trail c); constructor;
        try lia; apply IH1; exact Hs'.
Qed.

Lemma form_octet_inert (octet : Z) :
  0 <= octet < 256 -> inert_string (URI.form_octet octet).
Proof.
  intros H. unfold URI.form_octet.
  destruct (Z.eqb_spec octet 32); [repeat constructor; unfold inert; lia|].
  destruct (URI.form_safe octet) eqn:E; [|apply percent_inert; exact H].
  repeat constructor; unfold inert; intros;
    repeat split; intros ->; vm_compute in E; discriminate E.
Qed.

(** What [URLSearchParams] writes for a name or a value holds no
    ampersand, no equals sign and no number sign. *)
Lemma form_encode_inert (s : jsstring) :
  code_units s -> inert_string (URI.form_encode s).
Proof.
  intros Hs. unfold URI.form_encode, inert_string.
  apply Forall_flat_map. apply Forall_flat_map.
  eapply Forall_impl; [|apply scalar_values_range; exact Hs].
  intros cp Hcp. eapply Forall_impl; [|apply utf8_octets; exact Hcp].
  intros o Ho. apply form_octet_inert. exact Ho.
Qed.

Lemma code_units_str (s : string) : code_units (str s).
Proof.
  unfold code_units, str. apply Forall_forall. intros c Hin.
  apply in_map_iff in Hin. destruct Hin as [a [<- _]].
  pose proof (nat_ascii_bounded a). lia.
Qed.

Lemma inert_str_of_bool (b : bool) : inert_string (Request.of_bool b).
Proof.
  destruct b; vm_compute; repeat constructor; intros; discriminate.
Qed.

Lemma encodeURIComponent_paired (s : jsstring) :
  URI.encodeURIComponent s <> None <-> paired s.
Proof.
  induction s as [|c s IH1 IH2] using jsstring_ind2.
  - split; [constructor | discriminate].
  - cbn [URI.encodeURIComponent].
    destruct (URI.unreserved c) eqn:Eu.
    { destruct (unreserved_no_surrogate c Eu) as [El Et].
      split.
      - intros H. apply paired_unit; [exact El | exact Et |].
        apply IH1. intros E. rewrite E in H. apply H. reflexivity.
      - intros H. inversion H as [|? ? _ _ Hp|? ? ? El' _ _]; subst.
        + apply IH1 in Hp.
          destruct (URI.encodeURIComponent s); [discriminate | contradiction].
        + congruence. }
    destruct (URI.is_trail c) eqn:Et.
    { split; [contradiction|].
      intros H. inversion H as [|? ? _ Et' _|? ? ? El' _ _]; subst.
      - congruence.
      - exfalso. revert Et El'. unfold URI.is_lead, URI.is_trail.
        rewrite !andb_true_iff, !Z.leb_le. lia. }
    destruct (URI.is_lead c) eqn:El.
    + destruct s as [|d s'].
      * split; [contradiction|].
        intros H. inversion H; congruence.
      * destruct (URI.is_trail d) eqn:Ed.
        -- split.
           ++ intros H. apply paired_pair; [exact El | exact Ed |].
              apply (IH2 d s' eq_refl).
              intros E. rewrite E in H. apply H. reflexivity.
           ++ intros H. inversion H as [|? ? El' _ _|? ? ? _ _ Hp]; subst.
              ** congruence.
              ** apply (IH2 d s' eq_refl) in Hp.
                 destruct (URI.encodeURIComponent s');
                   [discriminate | contradiction].
        -- split; [contradiction|].
           intros H. inversion H; congruence.
    + split.
      * intros H. apply paired_unit; [exact El | exact Et |].
        apply IH1. intros E. rewrite E in H. apply H. reflexivity.
      * intros H. inversion H as [|? ? _ _ Hp|? ? ? El' _ _]; subst.
        -- apply IH1 in Hp.
           destruct (URI.encodeURIComponent s); [discriminate | contradiction].
        -- congruence.
Qed.

Lemma inert_string_no_fragment (s : jsstring) : inert_string s -> ~ In 35 s.
Proof.
  intros H Hin. unfold inert_string in H. rewrite Forall_forall in H.
  apply H in Hin. unfold inert in Hin. lia.
Qed.

Lemma query_no_fragment (pairs : list (jsstring * jsstring)) :
  Forall (fun p => inert_string (fst p) /\ inert_string (snd p)) pairs ->
  ~ In 35 (join (map (fun p => fst p ++ [61] ++ snd p) pairs) [38]).
Proof.
  induction pairs as [|[n v] ps IH]; intros H Hin.
  - exact Hin.
  - inversion H as [|? ? [Hn Hv] Hps]; subst. cbn [fst snd] in *.
    apply inert_string_no_fragment in Hn.
    apply inert_string_no_fragment in Hv.
    destruct ps as [|q ps].
    + cbn [map join fst snd] in Hin. rewrite !in_app_iff in Hin.
      cbn [In] in Hin. destruct Hin as [Hi | [[Hi | []] | Hi]];
        [tauto | discriminate | tauto].
    + change (In 35 ((n ++ [61] ++ v) ++ [38] ++
                     join (map (fun p => fst p ++ [61] ++ snd p) (q :: ps))
                       [38])) in Hin.
      rewrite !in_app_iff in Hin. cbn [In] in Hin.
      destruct Hin as [[Hi | [[Hi | []] | Hi]] | [[Hi | []] | Hi]];
        try discriminate; tauto.
Qed.

Lemma inert_str_literal (s : jsstring) :
  forallb (fun c => negb ((c =? 38) || (c =? 61) || (c =? 35))) s = true ->
  inert_string s.
Proof.
  intros H. rewrite forallb_forall in H. apply Forall_forall.
  intros c Hin. apply H in Hin. unfold inert.
  rewrite negb_true_iff, !orb_false_iff, !Z.eqb_neq in Hin. tauto.
Qed.

(** X18.  On the launch detector page, with no image attached and both
    text fields encoded, the request is a GET of the stream endpoint
    whose query holds no number sign and reads back as exactly the three
    parameters competitor, your_product and simulate_launch with the
    encoded values: nothing typed into a field can end a parameter or
    add one. *)
Theorem the_launch_detector_query_keeps_its_parameters
    (api competitor yourProduct c y : jsstring) (simulateLaunch : bool) :
  code_units competitor -> code_units yourProduct ->
  URI.encodeURIComponent competitor = Some c ->
  URI.encodeURIComponent yourProduct = Some y ->
  exists query,
    Request.launch_detector api competitor yourProduct simulateLaunch None
    = Request.Requests
        (Request.mk Request.GET
           (api ++ str "/launch/analyze/stream?" ++ query) None true) /\
    ~ In 35 query /\
    parameters query
    = [[str "competitor"; c];
       [str "your_product"; y];
       [str "simulate_launch"; Request.of_bool simulateLaunch]].
Proof.
  intros Hc Hy Ec Ey.
  pose proof (encodeURIComponent_inert _ _ Hc Ec) as Ic.
  pose proof (encodeURIComponent_inert _ _ Hy Ey) as Iy.
  pose proof (inert_str_of_bool simulateLaunch) as Ib.
  exists (join
            (map (fun p => fst p ++ [61] ++ snd p)
               [(str "competitor", c); (str "your_product", y);
                (str "simulate_launch", Request.of_bool simulateLaunch)])
            [38]).
  assert (Forall (fun p => inert_string (fst p) /\ inert_string (snd p))
            [(str "competitor", c); (str "your_product", y);
             (str "simulate_launch", Request.of_bool simulateLaunch)])
    as Hall.
  { repeat (apply Forall_cons;
              [split; cbn [fst snd]; try assumption;
               apply inert_str_literal; reflexivity|]).
    apply Forall_nil. }
  split; [|split].
  - unfold Request.launch_detector. rewrite Ec, Ey. reflexivity.
  - apply query_no_fragment. exact Hall.
  - rewrite parameters_join; [reflexivity | discriminate | exact Hall].
Qed.

Lemma the_launch_detector_query_keeps_its_parameters_witness :
  exists query,
    Request.launch_detector (str "http://localhost:8000/api/v1")
      (str "Apple & Co") (str "Galaxy S24=#1") true None
    = Request.Requests
        (Request.mk Request.GET
           (str "http://localhost:8000/api/v1" ++
            str "/launch/analyze/stream?" ++ query) None true) /\
    ~ In 35 query /\
    parameters query
    = [[str "competitor"; str "Apple%20%26%20Co"];
       [str "your_product"; str "Galaxy%20S24%3D%231"];
       [str "simulate_launch"; Request.of_bool true]].
Proof.
  apply the_launch_detector_query_keeps_its_parameters.
  - apply code_units_str.
  - apply code_units_str.
  - vm_compute. reflexivity.
  - vm_compute. reflexivity.
Defined.

(** X19.  On the crisis detector page, with the product encoded, the
    request is a GET of the stream endpoint whose query holds no number
    sign and reads back as exactly the two parameters product and
    simulate_crisis. *)
Theorem the_crisis_detector_query_keeps_its_parameters
    (api product p : jsstring) (simulateCrisis : bool) :
  code_units product ->
  URI.encodeURIComponent product = Some p ->
  exists query,
    Request.crisis_detector api product simulateCrisis
    = Request.Requests
        (Request.mk Request.GET
           (api ++ str "/crisis/analyze/stream?" ++ query) None true) /\
    ~ In 35 query /\
    parameters query
    = [[str "product"; p];
       [str "simulate_crisis"; Request.of_bool simulateCrisis]].
Proof.
  intros Hp Ep.
  pose proof (encodeURIComponent_inert _ _ Hp Ep) as Ip.
  pose proof (inert_str_of_bool simulateCrisis) as Ib.
  exists (join
            (map (fun p => fst p ++ [61] ++ snd p)
               [(str "product", p);
                (str "simulate_crisis", Request.of_bool simulateCrisis)])
            [38]).
  assert (Forall (fun p => inert_string (fst p) /\ inert_string (snd p))
            [(str "product", p);
             (str "simulate_crisis", Request.of_bool simulateCrisis)])
    as Hall.
  { repeat (apply Forall_cons;
              [split; cbn [fst snd]; try assumption;
               apply inert_str_literal; reflexivity|]).
    apply Forall_nil. }
  split; [|split].
  - unfold Request.crisis_detector. rewrite Ep. reflexivity.
  - apply query_no_fragment. exact Hall.
  - rewrite parameters_join; [reflexivity | discriminate | exact Hall].
Qed.

Lemma the_crisis_detector_query_keeps_its_parameters_witness :
  exists query,
    Request.crisis_detector (str "http://localhost:8000/api/v1")
      (str "iPhone 15 Pro") false
    = Request.Requests
        (Request.mk Request.GET
           (str "http://localhost:8000/api/v1" ++
            str "/crisis/analyze/stream?" ++ query) None true) /\
    ~ In 35 query /\
    parameters query
    = [[str "product"; str "iPhone%2015%20Pro"];
       [str "simulate_crisis"; Request.of_bool false]].
Proof.
  apply the_crisis_detector_query_keeps_its_parameters.
  - apply code_units_str.
  - vm_compute. reflexivity.
Defined.

(** X20.  On the market trends page, with no image attached, the request
    is always built: a GET of the stream endpoint whose query holds no
    number sign and reads back as exactly the three parameters product,
    category and simulate_trend, each value as the form serializer
    writes it. *)
Theorem the_market_trends_query_keeps_its_parameters
    (api product category simulateTrend : jsstring) :
  code_units product -> code_units category -> code_units simulateTrend ->
  exists query,
    Request.market_trends api product category simulateTrend None
    = Request.Requests
        (Request.mk Request.GET
           (api ++ str "/trends-visual/analyze/stream?" ++ query)
           None true) /\
    ~ In 35 query /\
    parameters query
    = [[str "product"; URI.form_encode product];
       [str "category"; URI.form_encode category];
       [str "simulate_trend"; URI.form_encode simulateTrend]].
Proof.
  intros Hp Hc Hs.
  pose proof (form_encode_inert _ Hp) as Ip.
  pose proof (form_encode_inert _ Hc) as Ic.
  pose proof (form_encode_inert _ Hs) as Is.
  exists (URI.URLSearchParams_toString
            [(str "product", product); (str "category", category);
             (str "simulate_trend", simulateTrend)]).
  assert (Forall (fun p => inert_string (fst p) /\ inert_string (snd p))
            [(str "product", URI.form_encode product);
             (str "category", URI.form_encode category);
             (str "simulate_trend", URI.form_encode simulateTrend)])
    as Hall.
  { repeat (apply Forall_cons;
              [split; cbn [fst snd]; try assumption;
               apply inert_str_literal; reflexivity|]).
    apply Forall_nil. }
  split; [reflexivity|].
  unfold URI.URLSearchParams_toString. cbn [map fst snd].
  change (URI.form_encode (str "product")) with (str "product").
  change (URI.form_encode (str "category")) with (str "category").
  change (URI.form_encode (str "simulate_trend"))
    with (str "simulate_trend").
  change [str "product" ++ [61] ++ URI.form_encode product;
          str "category" ++ [61] ++ URI.form_encode category;
          str "simulate_trend" ++ [61] ++ URI.form_encode simulateTrend]
    with (map (fun p => fst p ++ [61] ++ snd p)
            [(str "product", URI.form_encode product);
             (str "category", URI.form_encode category);
             (str "simulate_trend", URI.form_encode simulateTrend)]).
  split.
  - apply query_no_fragment. exact Hall.
  - rewrite parameters_join; [reflexivity | discriminate | exact Hall].
Qed.

Lemma the_market_trends_query_keeps_its_parameters_witness :
  exists query,
    Request.market_trends (str "http://localhost:8000/api/v1")
      (str "Wireless Earbuds & Case") (str "electronics") (str "neutral")
      None
    = Request.Requests
        (Request.mk Request.GET
           (str "http://localhost:8000/api/v1" ++
            str "/trends-visual/analyze/stream?" ++ query)
           None true) /\
    ~ In 35 query /\
    parameters query
    = [[str "product"; str "Wireless+Earbuds+%26+Case"];
       [str "category"; str "electronics"];
       [str "simulate_trend"; str "neutral"]].
Proof.
  apply (the_market_trends_query_keeps_its_parameters
           (str "http://localhost:8000/api/v1")
           (str "Wireless Earbuds & Case") (str "electronics")
           (str "neutral")); apply code_units_str.
Defined.

(** X21.  Without an image, the launch detector page builds no request
    exactly when the competitor or the product holds a surrogate without
    its partner, and the crisis detector page exactly when the product
    does: [encodeURIComponent] throws a [URIError] there. *)
Theorem a_lone_surrogate_stops_the_detector_requests
    (api a b : jsstring) (simulate : bool) :
  (Request.launch_detector api a b simulate None = Request.URIError
   <-> ~ (paired a /\ paired b)) /\
  (Request.crisis_detector api a simulate = Request.URIError
   <-> ~ paired a).
Proof.
  pose proof (encodeURIComponent_paired a) as Ha.
  pose proof (encodeURIComponent_paired b) as Hb.
  unfold Request.launch_detector, Request.crisis_detector.
  destruct (URI.encodeURIComponent a) as [ea|];
    destruct (URI.encodeURIComponent b) as [eb|];
    split; split; intros H;
    try discriminate H; try reflexivity.
  all: try (exfalso; apply H; try split;
            first [apply Ha | apply Hb]; discriminate).
  all: try (intros Hp; try destruct Hp as [Hp1 Hp2];
            first [apply Ha in Hp1; apply Hp1; reflexivity
                  |apply Hb in Hp2; apply Hp2; reflexivity
                  |apply Ha in Hp; apply Hp; reflexivity]).
Qed.

(** A lone surrogate in the competitor field: no request with the field
    in the query, U+FFFD in the form sent with an image. *)
Example a_lone_surrogate_in_the_competitor_field :
  Request.launch_detector (str "/api/v1") [0xD83D] (str "Galaxy S24") true
    None = Request.URIError /\
  exists url rest,
    Request.launch_detector (str "/api/v1") [0xD83D] (str "Galaxy S24") true
      (Some (ScreenshotUploader.mkFile (str "a.png") (str "image/png") 10))
    = Request.Requests
        (Request.mk Request.POST url
           (Some ((str "competitor", Request.Field [0xFFFD]) :: rest)) true).
Proof.
  split; [vm_compute; reflexivity|].
  eexists. eexists. vm_compute. reflexivity.
Qed.


(* ===================================================================== *)
(** ** The recommendation *)
(* ===================================================================== *)

#[local] Instance recommendation_follows_invariant :
  Invariant recommendation_follows.
Proof.
split; unfold recommendation_follows.
- intros u. reflexivity.
- intros u t1 u1 t2 u2 H1 H2.
  rewrite parsed_app, flat_map_app, map_app, last_app_default, <- H1.
  exact H2.
Qed.

(** The statements of [handleAnalyze] after [setMessages]. *)
Lemma handleAnalyze_recommendation_set (data final_ : JsValue)
    (u : HandleAnalyze.UI) :
  Get data (str "metadata") = Some (OptGet data (str "metadata")) ->
  let rec := OptGet (OptGet data (str "metadata")) (str "recommendation") in
  HandleAnalyze.recommendation
    (final
       ((wanted <- and_then final_
                     (metadata <- get data "metadata" ;;
                      ret (OptGet metadata (str "recommendation"))) ;;
         when (truthy wanted)
           (metadata <- get data "metadata" ;;
            rec <- get metadata "recommendation" ;;
            recommended_price <- get rec "recommended_price" ;;
            HandleAnalyze.Number recommended_price ;;
            confidence <- get rec "confidence" ;;
            HandleAnalyze.Number confidence ;;
            price_change_percent <- get rec "price_change_percent" ;;
            HandleAnalyze.Number price_change_percent ;;
            HandleAnalyze.setRecommendation
              (Some (HandleAnalyze.Normalised rec)))) u)) =
  if truthy final_ && truthy rec &&
     negb (conversion_throws (OptGet rec (str "recommended_price"))) &&
     negb (conversion_throws (OptGet rec (str "confidence"))) &&
     negb (conversion_throws (OptGet rec (str "price_change_percent")))
  then Some (HandleAnalyze.Normalised rec)
  else HandleAnalyze.recommendation u.
Proof.
intros Hm rec. unfold and_then.
destruct (truthy final_) eqn:Ef; cbn [andb].
- run_get Hm. rewrite bind_ret. fold rec.
  destruct (truthy rec) eqn:Er; cbn [andb when]; [|reflexivity].
  run_get Hm. run_get (truthy_OptGet _ _ Er). fold rec.
  run_get (Get_truthy rec (str "recommended_price") Er).
  unfold HandleAnalyze.Number at 1.
  destruct (conversion_throws (OptGet rec (str "recommended_price")));
    cbn [negb andb]; [rewrite bind_throw; reflexivity|].
  rewrite bind_ret.
  run_get (Get_truthy rec (str "confidence") Er).
  unfold HandleAnalyze.Number at 1.
  destruct (conversion_throws (OptGet rec (str "confidence")));
    cbn [negb andb]; [rewrite bind_throw; reflexivity|].
  rewrite bind_ret.
  run_get (Get_truthy rec (str "price_change_percent") Er).
  unfold HandleAnalyze.Number at 1.
  destruct (conversion_throws (OptGet rec (str "price_change_percent")));
    cbn [negb andb]; [rewrite bind_throw; reflexivity|].
  rewrite bind_ret. reflexivity.
- rewrite bind_ret, Ef. reflexivity.
Qed.

(** What handling an event does to the recommendation. *)
Lemma handleAnalyze_data_recommendation (data : JsValue)
    (u : HandleAnalyze.UI) :
  HandleAnalyze.recommendation (final (HandleAnalyze.handle_data data u)) =
  last (map Some (recommendation_of data)) (HandleAnalyze.recommendation u).
Proof.
unfold recommendation_of, shown.
destruct (Get data (str "done")) as [done|] eqn:Hd.
- rewrite (OptGet_Some _ _ _ Hd).
  pose proof (Get_defined data _ (str "error") _ Hd) as He.
  pose proof (Get_defined data _ (str "agent") _ Hd) as Ha.
  pose proof (Get_defined data _ (str "is_final") _ Hd) as Hf.
  pose proof (Get_defined data _ (str "metadata") _ Hd) as Hm.
  unfold HandleAnalyze.handle_data.
  run_get Hd.
  destruct (truthy done) eqn:Htd; cbn [negb andb when map last].
  { unfold HandleAnalyze.setStatus, HandleAnalyze.setActiveAgent.
    rewrite bind_final_abrupt; [reflexivity|].
    intros ? H0. cbv in H0. discriminate H0. }
  rewrite bind_ret. run_get He.
  destruct (truthy (OptGet data (str "error"))) eqn:Hte;
    cbn [negb andb when map last].
  { run_get He. rewrite bind_throw. reflexivity. }
  rewrite bind_ret. run_get Ha.
  destruct (truthy (OptGet data (str "agent"))) eqn:Hta;
    cbn [negb andb when map last]; [|reflexivity].
  run_get Ha.
  unfold HandleAnalyze.setActiveAgent at 1, HandleAnalyze.setMessages.
  rewrite !bind_set, after_after. cbn [after final].
  run_get Ha.
  destruct (strict_eq_string (OptGet data (str "agent")) (str "strategist"))
    eqn:Es.
  + unfold and_then at 1. cbn [truthy]. run_get Hf.
    rewrite (handleAnalyze_recommendation_set data _ _ Hm).
    cbn [HandleAnalyze.recommendation andb].
    match goal with
    | |- (if ?c then _ else _) = _ => destruct c
    end; reflexivity.
  + unfold and_then at 1. cbn [truthy]. rewrite bind_ret.
    rewrite (handleAnalyze_recommendation_set data _ _ Hm).
    reflexivity.
- rewrite !(Get_null data _ _ Hd). cbn [truthy negb andb map last].
  unfold HandleAnalyze.handle_data, get at 1. rewrite Hd, bind_throw.
  reflexivity.
Qed.

Lemma handleAnalyze_line_recommendation (line : jsstring) :
  keeps recommendation_follows (HandleAnalyze.handle_line line).
Proof.
intros u. unfold recommendation_follows.
destruct (startsWith line data_prefix) eqn:H1.
- destruct (JSON.parse (slice line 6)) as [data|] eqn:H2.
  + rewrite (handleAnalyze_line_final line data u H1 H2).
    rewrite handleAnalyze_data_recommendation. f_equal.
    unfold HandleAnalyze.handle_line. rewrite H1. cbn [when].
    rewrite parsed_try_catch_swallow.
    unfold JSON_parse. rewrite H2.
    rewrite bind_assoc, bind_observe, bind_ret. cbn [after trace parsed app].
    rewrite (handleAnalyze_data_parses_nothing data u).
    cbn [flat_map]. rewrite app_nil_r. reflexivity.
  + rewrite (handleAnalyze_malformed_line line u H1 H2). reflexivity.
  - rewrite (handleAnalyze_other_line line u H1). reflexivity.
Qed.

Ltac recommendation_atom :=
  unfold recommendation_follows; reflexivity.

Lemma handleAnalyze_try_recommendation (f : Net.Fetch) :
  keeps recommendation_follows
    (try_catch (HandleAnalyze.stream f) HandleAnalyze.on_failure).
Proof.
unfold HandleAnalyze.stream, HandleAnalyze.on_failure,
  HandleAnalyze.setStatus, HandleAnalyze.setActiveAgent,
  HandleAnalyze.setError.
repeat keeps_step recommendation_atom.
apply keeps_read_loop;
  [typeclasses eauto
  | intros; apply handleAnalyze_line_recommendation
  | intros; recommendation_atom
  | intros; recommendation_atom].
Qed.

(** X22.  When [handleAnalyze] returns from a run with its form filled,
    the recommendation is that of the last event it parsed that was
    shown, came from the strategist, was final, had a truthy
    [metadata.recommendation] and three fields [Number] could convert --
    also when the run ended in the error state.  With no such event the
    recommendation is null: nothing of the run before remains. *)
Theorem the_recommendation_is_the_last_one_received
    (f : Net.Fetch) (u : HandleAnalyze.UI) :
  let r := HandleAnalyze.run true f u in
  HandleAnalyze.recommendation (final r) =
  last (map Some (flat_map recommendation_of (parsed (trace r)))) None.
Proof.
intros r.
assert (Er : exists t0,
          parsed t0 = [] /\
          r = after t0 (try_catch (HandleAnalyze.stream f)
                          HandleAnalyze.on_failure handleAnalyze_start)).
{ subst r. unfold HandleAnalyze.run, HandleAnalyze.handleAnalyze.
  cbn [negb].
  unfold HandleAnalyze.setStatus at 1, HandleAnalyze.setMessages,
    HandleAnalyze.setActiveAgent at 1, HandleAnalyze.setRecommendation,
    HandleAnalyze.setError.
  rewrite !bind_set, !after_after. eexists. split; [|reflexivity].
  reflexivity. }
destruct Er as (t0 & Hp & Er). rewrite Er. clear Er r.
cbn [after final trace]. rewrite parsed_app, Hp. cbn [app].
rewrite (handleAnalyze_try_recommendation f handleAnalyze_start).
reflexivity.
Qed.

